(** * tfgs-api-hunter: the crawl-and-parse pipeline of [app/main.py]

    A shallow embedding of [parse_category], [parse_game_page],
    [pgame_to_db_game] and [crawl_tfgs], with the properties of the
    natural-language specification stated over it.

    Conventions.
    - A Python [str] is a [string]; its characters are the code points
      below 256 (the pages are decoded as latin-1).
    - A Python exception is a constructor of [exn]; a function that may
      raise returns a [result].
    - A document is represented by the tree BeautifulSoup builds from it
      ([Soup.node]).
    - [arrow.get] is an external library call: the functions that use it
      take it as an argument of type [string -> string -> option datetime]
      ([None] when it raises). *)

From Stdlib Require Import String Ascii List ZArith Bool Lia Permutation Sorted.
From Stdlib Require DecimalString.
Import ListNotations.
Open Scope string_scope.
Open Scope list_scope.
Open Scope nat_scope.

(** ** Exceptions and the error monad *)

Inductive exn : Type :=
| AttributeError      (* attribute access on None *)
| IndexError          (* list index out of range *)
| KeyError
| ValueError          (* int() on a malformed literal *)
| TypeError
| UnboundLocalError   (* local variable read before assignment *)
| ValidationError     (* pydantic rejected the arguments of PGame *)
| ParserError         (* arrow.get found no match *)
| StatusError         (* Exception("Not status code 200") *)
| TransportError      (* aiohttp failure while fetching a page *)
| DatabaseError.      (* Pony rejected an entity *)

Inductive result (A : Type) : Type :=
| Ok (a : A)
| Raise (e : exn).
Arguments Ok {A} a.
Arguments Raise {A} e.

Definition bind {A B : Type} (m : result A) (k : A -> result B) : result B :=
  match m with
  | Ok a => k a
  | Raise e => Raise e
  end.

Notation "x <- m ;; k" := (bind m (fun x => k))
  (at level 61, m at next level, right associativity).
Notation "' p <- m ;; k" := (bind m (fun p => k))
  (at level 61, p pattern, m at next level, right associativity).

(** [o.attr] where [o] may be None. *)
Definition deref {A : Type} (o : option A) : result A :=
  match o with
  | Some a => Ok a
  | None => Raise AttributeError
  end.

(** [try: m  except: h] with a bare [except]. *)
Definition try_except {A : Type} (m : result A) (h : result A) : result A :=
  match m with
  | Ok a => Ok a
  | Raise _ => h
  end.

Definition is_ok {A : Type} (m : result A) : bool :=
  match m with Ok _ => true | Raise _ => false end.

(** ** Python string methods *)

Module Py.

Definition chr (n : nat) : ascii := ascii_of_nat n.
Definition ord (c : ascii) : nat := nat_of_ascii c.

(** [str.isspace] on one character, for code points below 256. *)
Definition isspace (c : ascii) : bool :=
  let n := ord c in
  ((9 <=? n) && (n <=? 13)) || ((28 <=? n) && (n <=? 32))
  || (n =? 133) || (n =? 160).

Fixpoint mem (c : ascii) (chars : string) : bool :=
  match chars with
  | EmptyString => false
  | String d r => Ascii.eqb c d || mem c r
  end.

Fixpoint lstrip_by (p : ascii -> bool) (s : string) : string :=
  match s with
  | EmptyString => EmptyString
  | String c r => if p c then lstrip_by p r else s
  end.

Fixpoint rev_str (s acc : string) : string :=
  match s with
  | EmptyString => acc
  | String c r => rev_str r (String c acc)
  end.

Definition rstrip_by (p : ascii -> bool) (s : string) : string :=
  rev_str (lstrip_by p (rev_str s "")) "".

(** [s.strip()] *)
Definition strip (s : string) : string := rstrip_by isspace (lstrip_by isspace s).

(** [s.lstrip(chars)]: removes leading characters that occur in [chars]. *)
Definition lstrip (chars s : string) : string := lstrip_by (fun c => mem c chars) s.

Definition lower_char (c : ascii) : ascii :=
  let n := ord c in
  if ((65 <=? n) && (n <=? 90))
     || ((192 <=? n) && (n <=? 222) && negb (n =? 215))
  then chr (n + 32) else c.

(** [s.lower()] *)
Fixpoint lower (s : string) : string :=
  match s with
  | EmptyString => EmptyString
  | String c r => String (lower_char c) (lower r)
  end.

(** [s.replace(" ", "_")] *)
Fixpoint replace_space (s : string) : string :=
  match s with
  | EmptyString => EmptyString
  | String c r => String (if Ascii.eqb c " " then "_"%char else c) (replace_space r)
  end.

(** [text.lower().replace(" ", "_")], the slug of a display name. *)
Definition slug (s : string) : string := replace_space (lower s).

Fixpoint drop (n : nat) (s : string) : string :=
  match n, s with
  | O, _ => s
  | S k, EmptyString => EmptyString
  | S k, String _ r => drop k r
  end.

(** [s.split(sep)] for a non-empty [sep]: leftmost, non-overlapping
    occurrences.  [skip] counts the characters of a matched separator that
    are still to be consumed, [cur] is the piece being built. *)
Fixpoint split_aux (sep s : string) (skip : nat) (cur : string) : list string :=
  match s with
  | EmptyString => [cur]
  | String c r =>
      match skip with
      | S k => split_aux sep r k cur
      | O => if prefix sep s
             then cur :: split_aux sep r (String.length sep - 1) ""
             else split_aux sep r 0 (cur ++ String c "")%string
      end
  end.

Definition split (sep s : string) : list string := split_aux sep s 0 "".

(** [l[i]] *)
Definition index {A : Type} (l : list A) (i : nat) : result A :=
  match nth_error l i with
  | Some a => Ok a
  | None => Raise IndexError
  end.

(** [sub in s] *)
Fixpoint contains (sub s : string) : bool :=
  prefix sub s ||
  match s with
  | EmptyString => false
  | String _ r => contains sub r
  end.

(** [sep.join(l)] *)
Fixpoint join (sep : string) (l : list string) : string :=
  match l with
  | [] => ""
  | [x] => x
  | x :: r => (x ++ sep ++ join sep r)%string
  end.

Definition is_digit (c : ascii) : bool :=
  let n := ord c in (48 <=? n) && (n <=? 57).

Definition digit_val (c : ascii) : Z := Z.of_nat (ord c - 48).

(** The digits of an integer literal; a single underscore may separate two
    digits.  [prev] tells whether the previous character was a digit. *)
Fixpoint digits (s : string) (prev : bool) (acc : Z) : option Z :=
  match s with
  | EmptyString => if prev then Some acc else None
  | String c r =>
      if is_digit c then digits r true (10 * acc + digit_val c)%Z
      else if Ascii.eqb c "_" && prev
           then match r with
                | String d _ => if is_digit d then digits r false acc else None
                | EmptyString => None
                end
           else None
  end.

(** [int(s)]: surrounding whitespace, an optional sign, decimal digits. *)
Definition int (s : string) : result Z :=
  let body := strip s in
  let parsed :=
    match body with
    | String "-" r => option_map Z.opp (digits r false 0)
    | String "+" r => digits r false 0
    | _ => digits body false 0
    end in
  match parsed with
  | Some n => Ok n
  | None => Raise ValueError
  end.

(** [int(o.split(sep)[1])] where [o] may be None, as the parsers use it to
    read a numeric id out of a link. *)
Definition int_after (sep : string) (o : option string) : result Z :=
  s <- deref o ;;
  piece <- index (split sep s) 1 ;;
  int piece.

(** String comparison, as [sorted] uses it on [str]. *)
Fixpoint leb (a b : string) : bool :=
  match a, b with
  | EmptyString, _ => true
  | String _ _, EmptyString => false
  | String c a', String d b' =>
      if Nat.ltb (ord c) (ord d) then true
      else if Nat.ltb (ord d) (ord c) then false
      else leb a' b'
  end.

(** Insertion into a sorted list, after the elements that are not larger
    (a stable sort, as Python's is). *)
Fixpoint insert_sorted (x : string) (l : list string) : list string :=
  match l with
  | [] => [x]
  | y :: r => if leb y x then y :: insert_sorted x r else x :: l
  end.

(** [sorted(l)] *)
Fixpoint sorted (l : list string) : list string :=
  match l with
  | [] => []
  | x :: r => insert_sorted x (sorted r)
  end.

(** An assignment [d[k] = v] to a dict kept in insertion order. *)
Fixpoint dict_set {V : Type} (k : string) (v : V) (d : list (string * V))
  : list (string * V) :=
  match d with
  | [] => [(k, v)]
  | (k', v') :: r => if String.eqb k k' then (k, v) :: r
                     else (k', v') :: dict_set k v r
  end.

Fixpoint dict_get {V : Type} (k : string) (d : list (string * V)) : option V :=
  match d with
  | [] => None
  | (k', v') :: r => if String.eqb k k' then Some v' else dict_get k r
  end.

End Py.

(** ** BeautifulSoup trees *)

Module Soup.

#[local] Set Warnings "-register-all".

(** A [Tag] carries its name, the list under its multi-valued [class]
    attribute and its other attributes; a [Text] is a NavigableString. *)
Inductive node : Type :=
| Text (s : string)
| Tag (name : string) (classes : list string) (attrs : list (string * string))
      (contents : list node).

(** The BeautifulSoup object itself. *)
Definition document (contents : list node) : node := Tag "[document]" [] [] contents.

(** [n.name] *)
Definition name (n : node) : option string :=
  match n with
  | Text _ => None
  | Tag nm _ _ _ => Some nm
  end.

(** Iterating over a tag yields its direct children. *)
Definition children (n : node) : list node :=
  match n with
  | Text _ => []
  | Tag _ _ _ kids => kids
  end.

(** [n.get(k)] *)
Definition get (k : string) (n : node) : option string :=
  match n with
  | Text _ => None
  | Tag _ _ attrs _ => Py.dict_get k attrs
  end.

(** [n.text]: every string below [n], concatenated in document order. *)
Fixpoint text (n : node) : string :=
  match n with
  | Text s => s
  | Tag _ _ _ kids =>
      (fix go (l : list node) : string :=
         match l with
         | [] => ""
         | k :: r => (text k ++ go r)%string
         end) kids
  end.

(** The nodes strictly below [n], in document order. *)
Fixpoint descendants (n : node) : list node :=
  match n with
  | Text _ => []
  | Tag _ _ _ kids =>
      (fix go (l : list node) : list node :=
         match l with
         | [] => []
         | k :: r => k :: descendants k ++ go r
         end) kids
  end.

Definition has_name (nm : string) (n : node) : bool :=
  match n with
  | Text _ => false
  | Tag nm' _ _ _ => String.eqb nm nm'
  end.

Definition has_class (c : string) (n : node) : bool :=
  match n with
  | Text _ => false
  | Tag _ cls _ _ => existsb (String.eqb c) cls
  end.

Definition has_attr (k v : string) (n : node) : bool :=
  match get k n with
  | Some v' => String.eqb v v'
  | None => false
  end.

(** [n.find_all(...)] and [n.find(...)] with the filter [p]. *)
Definition find_all (p : node -> bool) (n : node) : list node :=
  filter p (descendants n).

Definition find (p : node -> bool) (n : node) : option node :=
  hd_error (find_all p n).

(** [n.select(".a > .b")]: the tags of class [b] whose parent has class
    [a], in document order. *)
Fixpoint select_child_aux (a b : string) (parent_a : bool) (n : node) : list node :=
  (if parent_a && has_class b n then [n] else []) ++
  match n with
  | Text _ => []
  | Tag _ _ _ kids =>
      (fix go (l : list node) : list node :=
         match l with
         | [] => []
         | k :: r => select_child_aux a b (has_class a n) k ++ go r
         end) kids
  end.

Definition select_child (a b : string) (n : node) : list node :=
  match n with
  | Text _ => []
  | Tag _ _ _ kids => flat_map (select_child_aux a b (has_class a n)) kids
  end.

End Soup.

(** ** Values of the parser *)

Record datetime : Type := mkdatetime {
  year : Z; month : Z; day : Z; hour : Z; minute : Z; second : Z
}.

Record PReview : Type := mkPReview {
  r_id : nat;
  r_author : string;
  r_version : string;
  r_date : datetime;
  r_text : string
}.

(** The dict built for one file block of the downloads section. *)
Record Link : Type := mkLink {
  l_delete : option Soup.node;
  l_link : option string;
  l_note : option string;
  l_report : string
}.

(** What a key of the scratch dict [data] may hold.  [VDefault] is a
    [defaultdict(dict)]: the value [data] creates when a missing key is
    read, and the value kept under ["themes"]. *)
Inductive value : Type :=
| VNone
| VInt (z : Z)
| VStr (s : string)
| VDate (d : datetime)
| VAuthors (a : list (string * Z))
| VVersions (v : list (string * list Link))
| VReviews (r : list PReview)
| VDefault (t : list (string * list (string * Z)))
| VSection (text html : string).

Definition Data : Type := list (string * value).

Definition of_option (o : option string) : value :=
  match o with
  | Some s => VStr s
  | None => VNone
  end.

Record PGame : Type := mkPGame {
  id : Z;
  title : string;
  authors : list (string * Z);
  game_engine : string;
  content_rating : string;
  language : string;
  release_date : datetime;
  last_update : datetime;
  version : string;
  development_stage : string;
  likes : Z;
  reviews : option (list PReview);
  contest : option string;
  orig_pc_gender : option string;
  themes : option value;        (* Optional[dict] *)
  thread : option string;
  play_online : option string;
  versions : option value;      (* Optional[dict] *)
  synopsis : option (string * string);
  plot : option (string * string);
  characters : option (string * string);
  walkthrough : option (string * string);
  changelog : option (string * string)
}.

(** ** The database (Pony entities)

    Every table is the list of its rows in insertion order.  The rules of
    the ORM that the crawl meets are modelled by [required], [optional]
    and the primary-key tests; whenever the ORM refuses an entity the
    model raises [DatabaseError]. *)

Record Entry : Type := mkEntry { e_id : Z; e_name : string }.

Record DbGame : Type := mkDbGame {
  g_id : Z;
  g_title : string;
  g_authors : list Z;
  g_version : string;
  g_engine : Z;
  g_content_rating : Z;
  g_language : string;
  g_release_date : datetime;
  g_last_update : datetime;
  g_development_stage : string;
  g_likes : Z;
  g_contest : string;
  g_orig_pc_gender : string;
  g_adult_themes : list Z;
  g_transformation_themes : list Z;
  g_multimedia_themes : list Z;
  g_thread : string;
  g_play_online : string;
  g_synopsis : string * string;
  g_plot : string * string;
  g_characters : string * string;
  g_walkthrough : string * string;
  g_changelog : string * string
}.

Record DbVersion : Type := mkDbVersion {
  gv_id : Z; gv_version : string; gv_game : Z
}.

Record DbDownload : Type := mkDbDownload {
  gd_id : Z; gd_link : string; gd_report : string; gd_note : string;
  gd_delete : string; gd_game_version : Z
}.

Record DbReview : Type := mkDbReview {
  rv_id : Z; rv_author : string; rv_text : string; rv_date : datetime;
  rv_version : string; rv_game : Z
}.

Inductive taxonomy : Type :=
| GameEngine | ContentRating | AdultTheme | TransformationTheme
| MultimediaTheme | GameAuthor.

Record Database : Type := mkDatabase {
  game_engines : list Entry;
  content_ratings : list Entry;
  adult_themes : list Entry;
  transformation_themes : list Entry;
  multimedia_themes : list Entry;
  game_authors : list Entry;
  games : list DbGame;
  game_versions : list DbVersion;
  game_downloads : list DbDownload;
  db_reviews : list DbReview
}.

(** The state after [db.drop_all_tables(with_all_data=True)] and
    [db.create_tables()]. *)
Definition empty_db : Database := mkDatabase [] [] [] [] [] [] [] [] [] [].

Definition table (k : taxonomy) (db : Database) : list Entry :=
  match k with
  | GameEngine => game_engines db
  | ContentRating => content_ratings db
  | AdultTheme => adult_themes db
  | TransformationTheme => transformation_themes db
  | MultimediaTheme => multimedia_themes db
  | GameAuthor => game_authors db
  end.

Definition set_table (k : taxonomy) (t : list Entry) (db : Database) : Database :=
  match k with
  | GameEngine =>
      mkDatabase t (content_ratings db) (adult_themes db) (transformation_themes db)
        (multimedia_themes db) (game_authors db) (games db) (game_versions db)
        (game_downloads db) (db_reviews db)
  | ContentRating =>
      mkDatabase (game_engines db) t (adult_themes db) (transformation_themes db)
        (multimedia_themes db) (game_authors db) (games db) (game_versions db)
        (game_downloads db) (db_reviews db)
  | AdultTheme =>
      mkDatabase (game_engines db) (content_ratings db) t (transformation_themes db)
        (multimedia_themes db) (game_authors db) (games db) (game_versions db)
        (game_downloads db) (db_reviews db)
  | TransformationTheme =>
      mkDatabase (game_engines db) (content_ratings db) (adult_themes db) t
        (multimedia_themes db) (game_authors db) (games db) (game_versions db)
        (game_downloads db) (db_reviews db)
  | MultimediaTheme =>
      mkDatabase (game_engines db) (content_ratings db) (adult_themes db)
        (transformation_themes db) t (game_authors db) (games db) (game_versions db)
        (game_downloads db) (db_reviews db)
  | GameAuthor =>
      mkDatabase (game_engines db) (content_ratings db) (adult_themes db)
        (transformation_themes db) (multimedia_themes db) t (games db)
        (game_versions db) (game_downloads db) (db_reviews db)
  end.

Definition add_game (g : DbGame) (db : Database) : Database :=
  mkDatabase (game_engines db) (content_ratings db) (adult_themes db)
    (transformation_themes db) (multimedia_themes db) (game_authors db)
    (games db ++ [g]) (game_versions db) (game_downloads db) (db_reviews db).

Definition add_version (v : DbVersion) (db : Database) : Database :=
  mkDatabase (game_engines db) (content_ratings db) (adult_themes db)
    (transformation_themes db) (multimedia_themes db) (game_authors db)
    (games db) (game_versions db ++ [v]) (game_downloads db) (db_reviews db).

Definition add_download (d : DbDownload) (db : Database) : Database :=
  mkDatabase (game_engines db) (content_ratings db) (adult_themes db)
    (transformation_themes db) (multimedia_themes db) (game_authors db)
    (games db) (game_versions db) (game_downloads db ++ [d]) (db_reviews db).

Definition add_review (r : DbReview) (db : Database) : Database :=
  mkDatabase (game_engines db) (content_ratings db) (adult_themes db)
    (transformation_themes db) (multimedia_themes db) (game_authors db)
    (games db) (game_versions db) (game_downloads db) (db_reviews db ++ [r]).

Module Pony.

(** A [Required(str)] attribute: the value is stripped and must not be
    empty. *)
Definition required (s : string) : result string :=
  let s' := Py.strip s in
  if String.eqb s' "" then Raise DatabaseError else Ok s'.

(** An [Optional(str)] attribute: stripped; None is refused. *)
Definition optional (o : option string) : result string :=
  match o with
  | Some s => Ok (Py.strip s)
  | None => Raise DatabaseError
  end.

(** [o or s] with [s] the empty string. *)
Definition or_empty (o : option string) : string :=
  match o with
  | Some s => s
  | None => ""
  end.

(** [cls.get(...)] with the rows that satisfy the arguments: None
    for no row, the row for one, an exception for several. *)
Definition get {A : Type} (p : A -> bool) (t : list A) : result (option A) :=
  match filter p t with
  | [] => Ok None
  | [a] => Ok (Some a)
  | _ => Raise DatabaseError
  end.

Definition by_id (i : Z) (e : Entry) : bool := Z.eqb (e_id e) i.
Definition by_name (n : string) (e : Entry) : bool := String.eqb (e_name e) n.

(** [cls.get(name=n)]: the argument is validated as a value of the
    attribute is, then looked up. *)
Definition get_by_name (n : string) (t : list Entry) : result (option Entry) :=
  n' <- required n ;; get (by_name n') t.

(** [cls(id=i, name=n)] for a taxonomy class: the primary key must be
    new and the name is required. *)
Definition create (i : Z) (n : string) (t : list Entry) : result (list Entry) :=
  n' <- required n ;;
  if existsb (by_id i) t then Raise DatabaseError
  else Ok (t ++ [mkEntry i n']).

(** The next value of an [auto=True] primary key. *)
Definition next_id {A : Type} (t : list A) : Z := Z.of_nat (S (length t)).

(** [Game.get(id=i)] *)
Definition get_game (i : Z) (db : Database) : option DbGame :=
  List.find (fun g => Z.eqb (g_id g) i) (games db).

End Pony.

(** ** The parsers *)

Definition BASE_URL : string := "https://tfgames.site".

Definition data_get (k : string) (data : Data) : option value := Py.dict_get k data.
Definition data_set (k : string) (v : value) (data : Data) : Data := Py.dict_set k v data.

(** [data] as [parse_game_page] initialises it, before the title is read. *)
Definition initial_data : Data :=
  [("authors", VAuthors []); ("versions", VVersions []); ("play_online", VNone);
   ("likes", VInt 0%Z); ("reviews", VReviews [])].

Definition by_class (c : string) : Soup.node -> bool := Soup.has_class c.
Definition by_tag (n : string) : Soup.node -> bool := Soup.has_name n.

(** [re.match] of a line against the pattern of the review header: the
    text [Version reviewed: ], a greedy non-empty group, the text [ on ]
    and a greedy group.  The first group ends at the last occurrence of
    [ on ] that leaves it non-empty, the second group is the rest of the
    line.  [last_on] scans [s] with [pre] the characters
    already passed. *)
Fixpoint last_on (pre s : string) (best : option (string * string))
  : option (string * string) :=
  match s with
  | EmptyString => best
  | String c r =>
      let best' :=
        if negb (String.eqb pre "") && prefix " on " s
        then Some (pre, Py.drop 4 s) else best in
      last_on (pre ++ String c "")%string r best'
  end.

Definition match_version_line (line : string) : option (string * string) :=
  if prefix "Version reviewed: " line
  then last_on "" (Py.drop 18 line) None
  else None.

(** [[line for line in text.split(newline) if line.strip()]] *)
Definition non_empty_lines (text : string) : list string :=
  filter (fun line => negb (String.eqb (Py.strip line) ""))
         (Py.split (String (Py.chr 10) "") text).

Section Parsers.

(** [arrow.get(text, format)]: the parsed date, or None when it raises. *)
Variable arrow_get : string -> string -> option datetime.
(** [urllib.parse.urljoin(base, url)], [url] possibly None. *)
Variable urljoin : string -> option string -> string.
(** [str(tag)]: the markup of a tag. *)
Variable markup : Soup.node -> string.

(** *** parse_category *)

(** One turn of the loop of [parse_category]: the row to create. *)
Definition category_item (name : string) (item : Soup.node) : result (Z * string) :=
  data <- deref (Soup.find (by_tag "a") item) ;;
  let _name := Soup.text data in
  href <- match Soup.get "href" data with
          | Some h => Ok h
          | None => Raise KeyError
          end ;;
  let _link := String (Py.chr 34) ("https://tfgames.site/" ++ href)%string in
  piece <- Py.index (Py.split (name ++ "=") _link) 1 ;;
  _id <- Py.int piece ;;
  Ok (_id, Py.slug _name).

(** The loop: rows are created one by one, and the rows created before an
    exception stay in the session. *)
Fixpoint category_items (name : string) (items : list Soup.node) (t : list Entry)
  : list Entry * option exn :=
  match items with
  | [] => (t, None)
  | item :: rest =>
      match (' (i, n) <- category_item name item ;; Pony.create i n t) with
      | Ok t' => category_items name rest t'
      | Raise e => (t, Some e)
      end
  end.

Definition parse_category (html : Soup.node) (name : string) (db_cls : taxonomy)
  (db : Database) : Database * option exn :=
  let items := Soup.find_all (fun n => by_tag "div" n && by_class "browsecontainer" n) html in
  let (t, e) := category_items name items (table db_cls db) in
  (set_table db_cls t db, e).

(** *** parse_game_page: the byline *)

Definition authors_of (data : Data) : list (string * Z) :=
  match data_get "authors" data with
  | Some (VAuthors a) => a
  | _ => []
  end.

Definition set_author (k : string) (v : Z) (data : Data) : Data :=
  data_set "authors" (VAuthors (Py.dict_set k v (authors_of data))) data.

(** The loop over the hyperlinks of the byline; a link whose id cannot be
    read is passed over. *)
Fixpoint author_links (links : list Soup.node) (data : Data) : Data :=
  match links with
  | [] => data
  | link :: rest =>
      match Py.int_after "u=" (Soup.get "href" link) with
      | Ok n => author_links rest (set_author (Py.slug (Soup.text link)) n data)
      | Raise _ => author_links rest data
      end
  end.

(** The free-text byline: the author is looked up by name among the
    GameAuthor rows. *)
Definition byline_author (container : Soup.node) : string :=
  Py.slug (Py.strip (Py.lstrip "by" (Py.strip (Soup.text container)))).

Definition author_by_name (db : Database) (author : string) : result Z :=
  row <- Pony.get_by_name author (game_authors db) ;;
  e <- deref row ;;
  Ok (e_id e).

(** [None] stands for the bare [return] of the source. *)
Definition parse_authors (db : Database) (item : Soup.node) (data : Data)
  : result (option Data) :=
  container <- deref (Soup.find (by_class "viewgamecontentauthor") item) ;;
  match Soup.find_all (by_tag "a") container with
  | [] =>
      let author := byline_author container in
      match author_by_name db author with
      | Ok i => Ok (Some (set_author author i data))
      | Raise _ => Ok None
      end
  | links => Ok (Some (author_links links data))
  end.

(** *** parse_game_page: the attribute table *)

(** The two [try] blocks of a date attribute, one after the other. *)
Definition set_date (key result : string) (data : Data) : Data :=
  let data :=
    match arrow_get result "|DD MMM YYYY|, HH:mm" with
    | Some d => data_set key (VDate d) data
    | None => data
    end in
  match arrow_get result "MM/DD/YYYY" with
  | Some d => data_set key (VDate d) data
  | None => data
  end.

(** [data["themes"][kind][name] = n]; reading [data["themes"]] creates it
    when it is missing. *)
Definition set_theme (kind name : string) (n : Z) (data : Data) : result Data :=
  match data_get "themes" data with
  | None => Ok (data_set "themes" (VDefault [(kind, [(name, n)])]) data)
  | Some (VDefault t) =>
      let sub := match Py.dict_get kind t with Some d => d | None => [] end in
      Ok (data_set "themes" (VDefault (Py.dict_set kind (Py.dict_set name n sub) t)) data)
  | Some _ => Raise TypeError
  end.

Fixpoint theme_links (kind : string) (links : list Soup.node) (data : Data)
  : result Data :=
  match links with
  | [] => Ok data
  | link :: rest =>
      n <- Py.int_after (kind ++ "=") (Soup.get "href" link) ;;
      data' <- set_theme kind (Soup.text link) n data ;;
      theme_links kind rest data'
  end.

(** One box of the attribute table. *)
Definition info_box (box : Soup.node) (data : Data) : result Data :=
  l <- deref (Soup.find (by_class "viewgameitemleft") box) ;;
  let left := Soup.text l in
  let right := Soup.find (by_class "viewgameitemright") box in
  if String.eqb left "Engine" then
    r <- deref right ;; Ok (data_set "game_engine" (VStr (Py.slug (Soup.text r))) data)
  else if String.eqb left "Rating" then
    r <- deref right ;; Ok (data_set "content_rating" (VStr (Py.slug (Soup.text r))) data)
  else if String.eqb left "Language" then
    r <- deref right ;; Ok (data_set "language" (VStr (Soup.text r)) data)
  else if String.eqb left "Release Date" then
    r <- deref right ;; Ok (set_date "release_date" (Soup.text r) data)
  else if String.eqb left "Last Update" then
    r <- deref right ;; Ok (set_date "last_update" (Soup.text r) data)
  else if String.eqb left "Version" then
    r <- deref right ;; Ok (data_set "version" (VStr (Soup.text r)) data)
  else if String.eqb left "Development" then
    r <- deref right ;; Ok (data_set "development_stage" (VStr (Soup.text r)) data)
  else if String.eqb left "Likes" then
    r <- deref right ;; n <- Py.int (Soup.text r) ;; Ok (data_set "likes" (VInt n) data)
  else if String.eqb left "Contest" then
    r <- deref right ;;
    let result := Soup.text r in
    Ok (data_set "contest" (if String.eqb result "None" then VNone else VStr result) data)
  else if String.eqb left "Orig PC Gender" then
    r <- deref right ;; Ok (data_set "orig_pc_gender" (VStr (Soup.text r)) data)
  else if String.eqb left "Adult Themes" then
    r <- deref right ;; theme_links "adult" (Soup.find_all (by_tag "a") r) data
  else if String.eqb left "TF Themes" then
    r <- deref right ;; theme_links "transformation" (Soup.find_all (by_tag "a") r) data
  else if String.eqb left "Multimedia" then
    r <- deref right ;; theme_links "multimedia" (Soup.find_all (by_tag "a") r) data
  else if String.eqb left "Discussion/Help" then
    r <- deref right ;;
    a <- deref (Soup.find (by_tag "a") r) ;;
    Ok (data_set "thread" (of_option (Soup.get "href" a)) data)
  else Ok data.

Fixpoint info_boxes (boxes : list Soup.node) (data : Data) : result Data :=
  match boxes with
  | [] => Ok data
  | box :: rest => data' <- info_box box data ;; info_boxes rest data'
  end.

Definition parse_info (item : Soup.node) (data : Data) : result Data :=
  game_info <- Py.index (Soup.select_child "viewgamesidecontainer"
                           "viewgameanothercontainer" item) 0 ;;
  info_boxes (Soup.find_all (by_class "viewgameinfo") game_info) data.

(** *** parse_game_page: the downloads section *)

(** The dict built for a [div] child of the downloads section. *)
Definition file_block (container : Soup.node) : result Link :=
  dead <- deref (Soup.find (by_class "dldeadlink") container) ;;
  let delete := Soup.find (by_tag "a") dead in
  dltext <- deref (Soup.find (by_class "dltext") container) ;;
  a <- deref (Soup.find (by_tag "a") dltext) ;;
  let link := Soup.get "href" a in
  let note :=
    match (notes <- deref (Soup.find (by_class "dlnotes") container) ;;
           img <- deref (Soup.find (by_tag "img") notes) ;;
           Ok (Soup.get "title" img)) with
    | Ok t => t
    | Raise _ => None
    end in
  rep <- deref (Soup.find (by_class "dlreportdeadlink") container) ;;
  ra <- deref (Soup.find (by_tag "a") rep) ;;
  Ok (mkLink delete link note (urljoin BASE_URL (Soup.get "href" ra))).

(** The key [version or data["version"]].  The local [version] is bound by
    the first [center] child only: [None] is the unbound local. *)
Definition version_key (version : option string) (data : Data) : result string :=
  match version with
  | None => Raise UnboundLocalError
  | Some v =>
      if negb (String.eqb v "") then Ok v
      else match data_get "version" data with
           | Some (VStr top) => Ok top
           | _ => Raise TypeError
           end
  end.

(** [data["versions"][key].append(link)] *)
Definition append_link (key : string) (link : Link) (data : Data) : result Data :=
  match data_get "versions" data with
  | Some (VVersions vs) =>
      let old := match Py.dict_get key vs with Some l => l | None => [] end in
      Ok (data_set "versions" (VVersions (Py.dict_set key (old ++ [link]) vs)) data)
  | Some _ => Raise AttributeError
  | None => Raise TypeError
  end.

(** The loop over the children of the downloads section, with the local
    [version] threaded through. *)
Fixpoint download_blocks (containers : list Soup.node) (version : option string)
  (data : Data) : result (option string * Data) :=
  match containers with
  | [] => Ok (version, data)
  | container :: rest =>
      if Soup.has_name "center" container then
        download_blocks rest
          (Some (Py.strip (Py.lstrip "Version:" (Soup.text container)))) data
      else if Soup.has_name "div" container then
        link <- file_block container ;;
        key <- version_key version data ;;
        data' <- append_link key link data ;;
        download_blocks rest version data'
      else download_blocks rest version data
  end.

Definition parse_downloads (item : Soup.node) (data : Data) : result Data :=
  match Soup.find (Soup.has_attr "id" "downloads") item with
  | None => Raise TypeError
  | Some downloads =>
      ' (_, data') <- download_blocks (Soup.children downloads) None data ;;
      Ok data'
  end.

(** *** parse_game_page: the tabs and the play form *)

Definition tab_id (i : nat) : string :=
  ("tabs-" ++ String (Py.chr (48 + i)) "")%string.

Fixpoint parse_tabs (item : Soup.node) (ids : list nat) (data : Data) : result Data :=
  match ids with
  | [] => Ok data
  | i :: rest =>
      match Soup.find (Soup.has_attr "id" (tab_id i)) item with
      | None => parse_tabs item rest data
      | Some tab =>
          a <- deref (Soup.find (fun n => by_tag "a" n
                                   && Soup.has_attr "href" ("#" ++ tab_id i) n) item) ;;
          let title := Soup.text a in
          parse_tabs item rest
            (data_set (Py.lower title) (VSection (Soup.text tab) (markup tab)) data)
      end
  end.

Definition parse_play (item : Soup.node) (data : Data) : result Data :=
  match Soup.find (Soup.has_attr "id" "play") item with
  | None => Ok data
  | Some play_online =>
      form <- deref (Soup.find (by_tag "form") play_online) ;;
      Ok (data_set "play_online" (of_option (Soup.get "action" form)) data)
  end.

(** *** parse_game_page: the reviews *)

(** [arrow.get(date, f1)], and [arrow.get(date, f2)] in its handler. *)
Definition review_date (date : string) : result datetime :=
  match arrow_get date "YYYY-MM-DD HH:mm:ss" with
  | Some d => Ok d
  | None =>
      match arrow_get date "MM/DD/YYYY HH:mm:ss" with
      | Some d => Ok d
      | None => Raise ParserError
      end
  end.

(** One turn of the loop over the review blocks: [Ok None] is [continue],
    [Ok (Some r)] the review that is appended. *)
Definition review_block (i : nat) (text : string) : result (option PReview) :=
  let lines := non_empty_lines text in
  line0 <- Py.index lines 0 ;;
  if negb (Py.contains "Review by" line0) then Ok None else
  let author := Py.strip (Py.lstrip "Review by" line0) in
  line1 <- Py.index lines 1 ;;
  match match_version_line line1 with
  | None => Ok None
  | Some (version, date) =>
      d <- review_date date ;;
      let text := Py.join (String (Py.chr 10) "") (skipn 2 lines) in
      if String.eqb text "" then Ok None
      else Ok (Some (mkPReview i author version d text))
  end.

(** [data["reviews"].append(r)] *)
Definition append_review (r : PReview) (data : Data) : result Data :=
  match data_get "reviews" data with
  | Some (VReviews rs) => Ok (data_set "reviews" (VReviews (rs ++ [r])) data)
  | Some _ => Raise AttributeError
  | None => Raise TypeError
  end.

(** The loop over [enumerate(reversed(blocks))], from index [i] on. *)
Fixpoint review_blocks (i : nat) (blocks : list Soup.node) (data : Data) : result Data :=
  match blocks with
  | [] => Ok data
  | review :: rest =>
      r <- review_block i (Soup.text review) ;;
      data' <- match r with
               | Some rv => append_review rv data
               | None => Ok data
               end ;;
      review_blocks (S i) rest data'
  end.

Definition parse_reviews (reviews_soup : Soup.node) (data : Data) : result Data :=
  review_blocks 0 (rev (Soup.find_all (by_class "reviewcontent") reviews_soup)) data.

(** *** parse_game_page: the record *)

(** The validation of the keyword arguments by the fields of [PGame].  A
    key holds only what the parser stored under it (or, after a tab of that
    label, a section), so the cases below are those that can arise. *)
Definition str_field (k : string) (data : Data) : result string :=
  match data_get k data with
  | Some (VStr s) => Ok s
  | _ => Raise ValidationError
  end.

Definition date_field (k : string) (data : Data) : result datetime :=
  match data_get k data with
  | Some (VDate d) => Ok d
  | _ => Raise ValidationError
  end.

Definition int_field (k : string) (data : Data) : result Z :=
  match data_get k data with
  | Some (VInt n) => Ok n
  | _ => Raise ValidationError
  end.

Definition authors_field (data : Data) : result (list (string * Z)) :=
  match data_get "authors" data with
  | Some (VAuthors a) => Ok a
  | _ => Raise ValidationError
  end.

Definition opt_str_field (k : string) (data : Data) : result (option string) :=
  match data_get k data with
  | None | Some VNone => Ok None
  | Some (VStr s) => Ok (Some s)
  | Some _ => Raise ValidationError
  end.

Definition opt_reviews_field (data : Data) : result (option (list PReview)) :=
  match data_get "reviews" data with
  | None | Some VNone => Ok None
  | Some (VReviews r) => Ok (Some r)
  | Some _ => Raise ValidationError
  end.

Definition opt_dict_field (k : string) (data : Data) : result (option value) :=
  match data_get k data with
  | None | Some VNone => Ok None
  | Some (VAuthors a) => Ok (Some (VAuthors a))
  | Some (VVersions v) => Ok (Some (VVersions v))
  | Some (VDefault t) => Ok (Some (VDefault t))
  | Some (VSection t h) => Ok (Some (VSection t h))
  | Some _ => Raise ValidationError
  end.

Definition opt_section_field (k : string) (data : Data)
  : result (option (string * string)) :=
  match data_get k data with
  | None | Some VNone => Ok None
  | Some (VSection t h) => Ok (Some (t, h))
  | Some _ => Raise ValidationError
  end.

(** [PGame(id=game_id, **data)] *)
Definition build_pgame (game_id : Z) (data : Data) : result PGame :=
  match data_get "id" data with
  | Some _ => Raise TypeError
  | None =>
      f_title <- str_field "title" data ;;
      f_authors <- authors_field data ;;
      f_game_engine <- str_field "game_engine" data ;;
      f_content_rating <- str_field "content_rating" data ;;
      f_language <- str_field "language" data ;;
      f_release_date <- date_field "release_date" data ;;
      f_last_update <- date_field "last_update" data ;;
      f_version <- str_field "version" data ;;
      f_development_stage <- str_field "development_stage" data ;;
      f_likes <- int_field "likes" data ;;
      f_reviews <- opt_reviews_field data ;;
      f_contest <- opt_str_field "contest" data ;;
      f_orig_pc_gender <- opt_str_field "orig_pc_gender" data ;;
      f_themes <- opt_dict_field "themes" data ;;
      f_thread <- opt_str_field "thread" data ;;
      f_play_online <- opt_str_field "play_online" data ;;
      f_versions <- opt_dict_field "versions" data ;;
      f_synopsis <- opt_section_field "synopsis" data ;;
      f_plot <- opt_section_field "plot" data ;;
      f_characters <- opt_section_field "characters" data ;;
      f_walkthrough <- opt_section_field "walkthrough" data ;;
      f_changelog <- opt_section_field "changelog" data ;;
      Ok (mkPGame game_id f_title f_authors f_game_engine f_content_rating
            f_language f_release_date f_last_update f_version
            f_development_stage f_likes f_reviews f_contest f_orig_pc_gender
            f_themes f_thread f_play_online f_versions f_synopsis f_plot
            f_characters f_walkthrough f_changelog)
  end.

(** The stages of [parse_game_page] after the byline. *)
Definition parse_rest (game_id : Z) (item reviews_soup : Soup.node) (data : Data)
  : result PGame :=
  data <- parse_info item data ;;
  data <- parse_downloads item data ;;
  data <- parse_tabs item [1; 2; 3; 4; 5] data ;;
  data <- parse_play item data ;;
  data <- parse_reviews reviews_soup data ;;
  build_pgame game_id data.

(** [parse_game_page(game_id, html_game, html_reviews)]; [Ok None] is the
    bare [return] of an unresolved byline.  The function reads the
    GameAuthor rows of the session [db]. *)
Definition parse_game_page (db : Database) (game_id : Z)
  (html_game html_reviews : Soup.node) : result (option PGame) :=
  let item := html_game in
  let reviews_soup := html_reviews in
  t <- deref (Soup.find (by_class "viewgamecontenttitle") item) ;;
  let data := data_set "title" (VStr (Py.strip (Soup.text t))) initial_data in
  a <- parse_authors db item data ;;
  match a with
  | None => Ok None
  | Some data =>
      g <- parse_rest game_id item reviews_soup data ;;
      Ok (Some g)
  end.

End Parsers.

(** ** pgame_to_db_game *)

(** The loop over [game.authors.items()]: an author that has no row with
    this name and id is created. *)
Fixpoint ensure_authors (l : list (string * Z)) (t : list Entry) : result (list Entry) :=
  match l with
  | [] => Ok t
  | (k, v) :: rest =>
      k' <- Pony.required k ;;
      author <- Pony.get (fun e => Pony.by_name k' e && Pony.by_id v e) t ;;
      t' <- match author with
            | Some _ => Ok t
            | None => Pony.create v k t
            end ;;
      ensure_authors rest t'
  end.

(** [[cls.get(id=v) for v in d.values()]] as the value of a Set attribute:
    a missing row puts None in the list, which the ORM refuses. *)
Fixpoint rows_by_id (ids : list Z) (t : list Entry) : result (list Z) :=
  match ids with
  | [] => Ok []
  | v :: rest =>
      if existsb (Pony.by_id v) t
      then r <- rows_by_id rest t ;; Ok (v :: r)
      else Raise DatabaseError
  end.

(** [game.themes[kind].values()] when [game.themes] is true, else the
    empty list. *)
Definition theme_ids (kind : string) (themes : option value) : result (list Z) :=
  match themes with
  | None => Ok []
  | Some (VDefault []) => Ok []
  | Some (VDefault t) =>
      Ok (map snd (match Py.dict_get kind t with Some d => d | None => [] end))
  | Some _ => Raise KeyError
  end.

Definition section_or_empty (s : option (string * string)) : string * string :=
  match s with
  | Some (t, h) => (Py.strip t, Py.strip h)
  | None => ("", "")
  end.

(** The [Game(...)] call: the row it creates. *)
Definition game_row (db : Database) (game : PGame) : result DbGame :=
  engine <- Pony.get_by_name (game_engine game) (game_engines db) ;;
  rating <- Pony.get_by_name (content_rating game) (content_ratings db) ;;
  adult <- theme_ids "adult" (themes game) ;;
  transformation <- theme_ids "transformation" (themes game) ;;
  multimedia <- theme_ids "multimedia" (themes game) ;;
  f_title <- Pony.required (title game) ;;
  f_authors <- rows_by_id (map snd (authors game)) (game_authors db) ;;
  f_version <- Pony.required (if String.eqb (version game) "" then "1.0.0"
                              else version game) ;;
  f_engine <- match engine with Some e => Ok (e_id e) | None => Raise DatabaseError end ;;
  f_rating <- match rating with Some e => Ok (e_id e) | None => Raise DatabaseError end ;;
  f_language <- Pony.required (language game) ;;
  f_stage <- Pony.required (development_stage game) ;;
  f_gender <- Pony.optional (orig_pc_gender game) ;;
  f_adult <- rows_by_id adult (adult_themes db) ;;
  f_transformation <- rows_by_id transformation (transformation_themes db) ;;
  f_multimedia <- rows_by_id multimedia (multimedia_themes db) ;;
  Ok (mkDbGame (id game) f_title f_authors f_version f_engine f_rating f_language
        (release_date game) (last_update game) f_stage (likes game)
        (Py.strip (Pony.or_empty (contest game))) f_gender
        f_adult f_transformation f_multimedia
        (Py.strip (Pony.or_empty (thread game)))
        (Py.strip (Pony.or_empty (play_online game)))
        (section_or_empty (synopsis game)) (section_or_empty (plot game))
        (section_or_empty (characters game)) (section_or_empty (walkthrough game))
        (section_or_empty (changelog game))).

(** [GameDownload(...)] for one download of a version. *)
Definition download_row (gv : Z) (download : Link) (db : Database) : result Database :=
  f_delete <- match l_delete download with
              | Some _ => Raise DatabaseError
              | None => Ok ""
              end ;;
  f_link <- match l_link download with
            | Some s => Pony.required s
            | None => Raise DatabaseError
            end ;;
  f_report <- Pony.required (l_report download) ;;
  Ok (add_download
        (mkDbDownload (Pony.next_id (game_downloads db)) f_link f_report
           (Py.strip (Pony.or_empty (l_note download))) f_delete gv) db).

Fixpoint download_rows (gv : Z) (downloads : list Link) (db : Database)
  : result Database :=
  match downloads with
  | [] => Ok db
  | d :: rest => db' <- download_row gv d db ;; download_rows gv rest db'
  end.

(** [GameVersion(version=version, game=db_game)] *)
Definition version_row (game_id : Z) (version : string) (db : Database)
  : result (Z * Database) :=
  v <- Pony.required version ;;
  let gv := Pony.next_id (game_versions db) in
  Ok (gv, add_version (mkDbVersion gv v game_id) db).

Fixpoint version_rows (game_id : Z) (vs : list (string * list Link)) (db : Database)
  : result Database :=
  match vs with
  | [] => Ok db
  | (version, downloads) :: rest =>
      ' (gv, db1) <- version_row game_id version db ;;
      db2 <- download_rows gv downloads db1 ;;
      version_rows game_id rest db2
  end.

(** The loop over [game.versions.items()].  When a tab labelled
    [versions] replaced the dict, the items are its text and its markup,
    whose characters have no key [delete]. *)
Definition write_versions (game_id : Z) (versions : option value) (db : Database)
  : result Database :=
  match versions with
  | None => Raise AttributeError
  | Some (VVersions vs) => version_rows game_id vs db
  | Some (VSection t h) =>
      ' (_, db1) <- version_row game_id "text" db ;;
      if negb (String.eqb t "") then Raise TypeError else
      ' (_, db2) <- version_row game_id "html" db1 ;;
      if negb (String.eqb h "") then Raise TypeError else Ok db2
  | Some _ => Raise TypeError
  end.

Definition review_row (game_id : Z) (review : PReview) (db : Database)
  : result Database :=
  f_author <- Pony.required (r_author review) ;;
  f_text <- Pony.required (r_text review) ;;
  f_version <- Pony.required (r_version review) ;;
  Ok (add_review
        (mkDbReview (Pony.next_id (db_reviews db)) f_author f_text (r_date review)
           f_version game_id) db).

Fixpoint review_rows (game_id : Z) (rs : list PReview) (db : Database)
  : result Database :=
  match rs with
  | [] => Ok db
  | r :: rest => db' <- review_row game_id r db ;; review_rows game_id rest db'
  end.

Definition write_reviews (game_id : Z) (rs : option (list PReview)) (db : Database)
  : result Database :=
  match rs with
  | None => Raise TypeError
  | Some l => review_rows game_id l db
  end.

(** [pgame_to_db_game(game)] in the session [db]: the session afterwards
    and the row returned. *)
Definition pgame_to_db_game (db : Database) (game : PGame)
  : result (Database * DbGame) :=
  match Pony.get_game (id game) db with
  | Some db_game => Ok (db, db_game)
  | None =>
      t <- ensure_authors (authors game) (game_authors db) ;;
      let db := set_table GameAuthor t db in
      db_game <- game_row db game ;;
      let db := add_game db_game db in
      db <- write_versions (id game) (versions game) db ;;
      db <- write_reviews (id game) (reviews game) db ;;
      Ok (db, db_game)
  end.

(** ** crawl_tfgs *)

(** What the network answers during one cycle. *)
Record World : Type := mkWorld {
  (** the browse page of a taxonomy, or the exception of its request *)
  category_response : string -> result Soup.node;
  (** the status and the body of the answer to the search POST *)
  index_response : result (Z * Soup.node);
  (** the body behind the url of a game page or of a reviews page *)
  page_response : string -> result Soup.node;
  (** the order in which [asyncio.as_completed] yields the tasks *)
  as_completed : list (Z * string * string) -> list (Z * string * string)
}.

Definition categories : list (string * taxonomy) :=
  [("engine", GameEngine); ("rating", ContentRating); ("adult", AdultTheme);
   ("transformation", TransformationTheme); ("multimedia", MultimediaTheme);
   ("author", GameAuthor)].

(** [str(n)] for an int. *)
Definition str_of_int (n : Z) : string := DecimalString.NilZero.string_of_int (Z.to_int n).

Fixpoint zdict_set {V : Type} (k : Z) (v : V) (d : list (Z * V)) : list (Z * V) :=
  match d with
  | [] => [(k, v)]
  | (k', v') :: r => if Z.eqb k k' then (k, v) :: r else (k', v') :: zdict_set k v r
  end.

Fixpoint zdict_get {V : Type} (k : Z) (d : list (Z * V)) : option V :=
  match d with
  | [] => None
  | (k', v') :: r => if Z.eqb k k' then Some v' else zdict_get k r
  end.

(** The cap on the number of games of a cycle. *)
Definition CAP : nat := 100.

(** [int(url.split("id=")[1])] *)
Definition game_id_of (url : string) : result Z :=
  piece <- Py.index (Py.split "id=" url) 1 ;;
  Py.int piece.

(** The tasks of [all_links] that fetch a game page, and their urls. *)
Definition is_game_task (t : Z * string * string) : bool := String.eqb (snd (fst t)) "game".
Definition task_url (t : Z * string * string) : string := snd t.

(** The loop that builds [all_links] from [sorted(game_links)[:100]]: two
    fetch tasks for each url. *)
Fixpoint link_tasks (urls : list string) : result (list (Z * string * string)) :=
  match urls with
  | [] => Ok []
  | url :: rest =>
      game_id <- game_id_of url ;;
      tasks <- link_tasks rest ;;
      Ok ((game_id, "game", url)
          :: (game_id, "reviews",
              ("https://tfgames.site/modules/viewgame/viewreviews.php?id="
               ++ str_of_int game_id)%string)
          :: tasks)
  end.

Definition all_links (game_links : list string) : result (list (Z * string * string)) :=
  link_tasks (firstn CAP (Py.sorted game_links)).

(** The write loop of the cycle: a game that is None is passed over. *)
Fixpoint write_games (games : list (option PGame)) (db : Database) : result Database :=
  match games with
  | [] => Ok db
  | None :: rest => write_games rest db
  | Some game :: rest =>
      ' (db', _) <- pgame_to_db_game db game ;;
      write_games rest db'
  end.

Section Crawl.

Variable arrow_get : string -> string -> option datetime.
Variable urljoin : string -> option string -> string.
Variable markup : Soup.node -> string.

(** [fetch_all_categories]: every task parses its page into the session;
    [gather] keeps the exception of a task as its result. *)
Fixpoint fetch_all_categories (w : World) (urls : list (string * taxonomy))
  (db : Database) : Database :=
  match urls with
  | [] => db
  | (name, db_cls) :: rest =>
      match category_response w name with
      | Ok html => fetch_all_categories w rest (fst (parse_category html name db_cls db))
      | Raise _ => fetch_all_categories w rest db
      end
  end.

(** The loop over the rows of the results table. *)
Fixpoint table_rows (rows : list Soup.node) : result (list string) :=
  match rows with
  | [] => Ok []
  | row :: rest =>
      match Soup.find_all (by_tag "td") row with
      | [] => table_rows rest
      | col0 :: _ =>
          a <- deref (Soup.find (by_tag "a") col0) ;;
          let href := match Soup.get "href" a with Some h => h | None => "None" end in
          links <- table_rows rest ;;
          Ok (urljoin BASE_URL (Some ("/" ++ href)%string) :: links)
      end
  end.

Definition game_links_of (soup : Soup.node) : result (list string) :=
  table <- deref (Soup.find (by_tag "table") soup) ;;
  table_rows (Soup.find_all (by_tag "tr") table).

(** The loop over the completed tasks, [result[game_id][typ] = html];
    [pages] is the dict [result] of the source. *)
Fixpoint collect_pages (w : World) (done : list (Z * string * string))
  (pages : list (Z * list (string * Soup.node)))
  : result (list (Z * list (string * Soup.node))) :=
  match done with
  | [] => Ok pages
  | (game_id, typ, url) :: rest =>
      html <- page_response w url ;;
      let inner := match zdict_get game_id pages with Some d => d | None => [] end in
      collect_pages w rest (zdict_set game_id (Py.dict_set typ html inner) pages)
  end.

(** The parse loop over [result.items()]. *)
Fixpoint parse_games (db : Database) (pages : list (Z * list (string * Soup.node)))
  : result (list (option PGame)) :=
  match pages with
  | [] => Ok []
  | (game_id, data) :: rest =>
      html_game <- match Py.dict_get "game" data with
                   | Some h => Ok h | None => Raise KeyError end ;;
      html_reviews <- match Py.dict_get "reviews" data with
                      | Some h => Ok h | None => Raise KeyError end ;;
      game <- parse_game_page arrow_get urljoin markup db game_id html_game html_reviews ;;
      games <- parse_games db rest ;;
      Ok (game :: games)
  end.

(** The games the cycle parses, from the answer to the search POST on. *)
Definition crawl_games (w : World) (db : Database) : result (list (option PGame)) :=
  ' (status, html) <- index_response w ;;
  if negb (Z.eqb status 200) then Raise StatusError else
  game_links <- game_links_of html ;;
  links <- all_links game_links ;;
  pages <- collect_pages w (as_completed w links) [] ;;
  parse_games db pages.

(** The body of [with db_session], from the empty tables: the session at
    its end, or the exception that leaves it. *)
Definition crawl_session (w : World) : result Database :=
  let db := fetch_all_categories w categories empty_db in
  games <- crawl_games w db ;;
  write_games games db.

(** One cycle, started on the catalog [prior]: the catalogs that readers
    can observe, oldest first, and the exception of the cycle if any.  The
    tables are dropped and created again before the session opens; the
    session is committed when its body ends and rolled back when an
    exception leaves it. *)
Definition crawl_tfgs (w : World) (prior : Database) : list Database * option exn :=
  match crawl_session w with
  | Ok db => ([prior; empty_db; db], None)
  | Raise e => ([prior; empty_db], Some e)
  end.

End Crawl.

(** ** A model of arrow.get

    Used to run the parsers on examples.  A format is read token by token:
    [YYYY] is four digits, [MM], [DD], [HH], [mm] and [ss] are two digits,
    [MMM] is an English month abbreviation, every other character stands
    for itself; the whole text must match and the fields must form a
    date. *)

Module Arrow.

Inductive token : Type :=
| YYYY | MMM | MM | DD | HH | Tmm | Tss | Lit (c : ascii).

Fixpoint tokens (fmt : string) : list token :=
  match fmt with
  | String "Y" (String "Y" (String "Y" (String "Y" r))) => YYYY :: tokens r
  | String "M" (String "M" (String "M" r)) => MMM :: tokens r
  | String "M" (String "M" r) => MM :: tokens r
  | String "D" (String "D" r) => DD :: tokens r
  | String "H" (String "H" r) => HH :: tokens r
  | String "m" (String "m" r) => Tmm :: tokens r
  | String "s" (String "s" r) => Tss :: tokens r
  | String c r => Lit c :: tokens r
  | EmptyString => []
  end.

(** [n] digits at the head of [s]: their value and the rest. *)
Fixpoint take_digits (n : nat) (s : string) (acc : Z) : option (Z * string) :=
  match n with
  | O => Some (acc, s)
  | S k =>
      match s with
      | String c r =>
          if Py.is_digit c then take_digits k r (10 * acc + Py.digit_val c)%Z
          else None
      | EmptyString => None
      end
  end.

Definition month_names : list string :=
  ["jan"; "feb"; "mar"; "apr"; "may"; "jun"; "jul"; "aug"; "sep"; "oct"; "nov"; "dec"].

Fixpoint month_index (name : string) (names : list string) (i : Z) : option Z :=
  match names with
  | [] => None
  | n :: r => if String.eqb n name then Some i else month_index name r (i + 1)%Z
  end.

Definition take_month (s : string) : option (Z * string) :=
  match s with
  | String a (String b (String c r)) =>
      match month_index (Py.lower (String a (String b (String c "")))) month_names 1 with
      | Some m => Some (m, r)
      | None => None
      end
  | _ => None
  end.

Fixpoint run (ts : list token) (s : string) (d : datetime) : option datetime :=
  match ts with
  | [] => if String.eqb s "" then Some d else None
  | t :: rest =>
      match t with
      | YYYY => match take_digits 4 s 0 with
                | Some (v, r) => run rest r (mkdatetime v (month d) (day d) (hour d) (minute d) (second d))
                | None => None
                end
      | MMM => match take_month s with
               | Some (v, r) => run rest r (mkdatetime (year d) v (day d) (hour d) (minute d) (second d))
               | None => None
               end
      | MM => match take_digits 2 s 0 with
              | Some (v, r) => run rest r (mkdatetime (year d) v (day d) (hour d) (minute d) (second d))
              | None => None
              end
      | DD => match take_digits 2 s 0 with
              | Some (v, r) => run rest r (mkdatetime (year d) (month d) v (hour d) (minute d) (second d))
              | None => None
              end
      | HH => match take_digits 2 s 0 with
              | Some (v, r) => run rest r (mkdatetime (year d) (month d) (day d) v (minute d) (second d))
              | None => None
              end
      | Tmm => match take_digits 2 s 0 with
               | Some (v, r) => run rest r (mkdatetime (year d) (month d) (day d) (hour d) v (second d))
               | None => None
               end
      | Tss => match take_digits 2 s 0 with
               | Some (v, r) => run rest r (mkdatetime (year d) (month d) (day d) (hour d) (minute d) v)
               | None => None
               end
      | Lit c => match s with
                 | String c' r => if Ascii.eqb c c' then run rest r d else None
                 | EmptyString => None
                 end
      end
  end.

Definition leap (y : Z) : bool :=
  ((y mod 4 =? 0) && negb (y mod 100 =? 0) || (y mod 400 =? 0))%Z.

Definition days_in_month (y m : Z) : Z :=
  if (m =? 2)%Z then (if leap y then 29 else 28)%Z
  else if ((m =? 4) || (m =? 6) || (m =? 9) || (m =? 11))%Z then 30%Z
  else 31%Z.

Definition valid (d : datetime) : bool :=
  ((1 <=? year d) && (1 <=? month d) && (month d <=? 12)
   && (1 <=? day d) && (day d <=? days_in_month (year d) (month d))
   && (hour d <=? 23) && (minute d <=? 59) && (second d <=? 59))%Z.

Definition get (text fmt : string) : option datetime :=
  match run (tokens fmt) text (mkdatetime 1 1 1 0 0 0) with
  | Some d => if valid d then Some d else None
  | None => None
  end.

End Arrow.

(** ** Sample documents *)

Module Sample.

Import Soup.

Definition nl : string := String (Py.chr 10) "".

(** A join of urls that is enough for paths from the root of the site. *)
Definition urljoin (base : string) (url : option string) : string :=
  match url with
  | Some u => (base ++ u)%string
  | None => base
  end.

(** A plain rendering of a tag. *)
Definition markup (n : node) : string :=
  match n with
  | Text s => s
  | Tag nm _ _ _ => ("<" ++ nm ++ ">" ++ text n ++ "</" ++ nm ++ ">")%string
  end.

Definition div (cls : string) (kids : list node) : node := Tag "div" [cls] [] kids.
Definition a (href label : string) : node := Tag "a" [] [("href", href)] [Text label].

Definition info (left right : string) : node :=
  div "viewgameinfo" [div "viewgameitemleft" [Text left];
                      div "viewgameitemright" [Text right]].

(** A file block of the downloads section. *)
Definition file (href : string) : node :=
  div "dlcontainer"
    [div "dldeadlink" [];
     div "dltext" [a href "Download"];
     div "dlnotes" [];
     div "dlreportdeadlink" [a "/report.php?id=1" "Report"]].

Definition version_header (v : string) : node :=
  Tag "center" [] [] [Text ("Version: " ++ v)%string].

(** The attribute table of a complete page. *)
Definition boxes (release likes : string) : list node :=
  [info "Engine" "Twine"; info "Rating" "X"; info "Language" "English";
   info "Release Date" release; info "Last Update" "06/15/2019";
   info "Version" "1.0"; info "Development" "Complete"; info "Likes" likes;
   info "Orig PC Gender" "Male"].

Definition game_page (byline : list node) (table downloads : list node) : node :=
  document
    [div "viewgamecontenttitle" [Text " A Game "];
     div "viewgamecontentauthor" byline;
     div "viewgamesidecontainer" [div "viewgameanothercontainer" table];
     Tag "div" [] [("id", "downloads")] downloads].

Definition byline_link : list node :=
  [Text "by "; a "memberlist.php?mode=viewprofile&u=7" "Some Author"].

Definition review (text : string) : node := div "reviewcontent" [Text text].

Definition reviews_page (blocks : list string) : node := document (map review blocks).

Definition jane_block : string :=
  ("Review by Jane" ++ nl ++ "Version reviewed: 1.2 on 2019-06-01 10:00:00"
   ++ nl ++ "Great game")%string.

(** A complete page, with the given Release Date and Likes texts. *)
Definition page_with (release likes : string) : node :=
  game_page byline_link (boxes release likes)
    [version_header "1.0"; file "http://host/a.zip"].

Definition good_page : node := page_with "06/14/2019" "12".

(** A page whose downloads section starts with a file block. *)
Definition headless_page : node :=
  game_page byline_link (boxes "06/14/2019" "12")
    [file "http://host/a.zip"; version_header "1.0"; file "http://host/b.zip"].

Definition older_block : string :=
  ("Review by Max" ++ nl ++ "Version reviewed: 1.0 on 03/05/2018 08:30:00"
   ++ nl ++ "First!" ++ nl ++ "Liked it.")%string.

Definition undated_block : string :=
  ("Review by Kim" ++ nl ++ "Version reviewed: 1.1 on yesterday" ++ nl ++ "Fine")%string.

(** A session with the taxonomy rows the sample pages refer to. *)
Definition session : Database :=
  mkDatabase [mkEntry 1 "twine"] [mkEntry 1 "x"] [] [] [] [mkEntry 3 "known_author"]
    [] [] [] [].

Definition parse (game_id : Z) (page reviews : node) : result (option PGame) :=
  parse_game_page Arrow.get urljoin markup session game_id page reviews.

(** The record of [good_page] under the id [i], with the given title and
    no review. *)
Definition record (i : Z) (title : string) : PGame :=
  mkPGame i title [("some_author", 7%Z)] "twine" "x" "English"
    (mkdatetime 2019 6 14 0 0 0) (mkdatetime 2019 6 15 0 0 0) "1.0" "Complete" 12
    (Some []) None (Some "Male") None None None
    (Some (VVersions [("1.0", [mkLink None (Some "http://host/a.zip") None
                                 "https://tfgames.site/report.php?id=1"])]))
    None None None None None.

(** A page whose byline is free text. *)
Definition byline_page (byline : string) : node :=
  game_page [Text byline] (boxes "06/14/2019" "12")
    [version_header "1.0"; file "http://host/a.zip"].

(** The two pages of a game, as the fetch loop files them. *)
Definition fetched (page : node) : list (string * node) :=
  [("game", page); ("reviews", reviews_page [jane_block])].

(** The results table of the search, one row for each game id. *)
Definition index_page (ids : list Z) : node :=
  document
    [Tag "table" [] []
       (Tag "tr" [] [] [Tag "th" [] [] [Text "Name"]]
        :: map (fun i => Tag "tr" [] []
                           [Tag "td" [] []
                              [a ("?module=viewgame&id=" ++ str_of_int i) "A Game"]])
               ids)].

(** The browse page of a taxonomy. *)
Definition category_page (name : string) (entries : list (Z * string)) : node :=
  document
    (map (fun e => div "browsecontainer"
                     [a ("?module=search&" ++ name ++ "=" ++ str_of_int (fst e)) (snd e)])
         entries).

(** A network on which the search answers with [status] and lists the
    games 4, 5 and 6; the byline of game 5 names no known author; the
    request for the adult themes fails. *)
Definition world (status : Z) : World :=
  mkWorld
    (fun name =>
       if String.eqb name "engine" then Ok (category_page name [(1%Z, "Twine")])
       else if String.eqb name "rating" then Ok (category_page name [(1%Z, "X")])
       else if String.eqb name "author" then Ok (category_page name [(3%Z, "Known Author")])
       else if String.eqb name "adult" then Raise TransportError
       else Ok (category_page name []))
    (Ok (status, index_page [6%Z; 4%Z; 5%Z]))
    (fun url =>
       if prefix "https://tfgames.site/modules/viewgame/viewreviews.php" url
       then Ok (reviews_page [jane_block])
       else match game_id_of url with
            | Ok 5%Z => Ok (byline_page "by Nobody Here")
            | Ok _ => Ok good_page
            | Raise e => Raise e
            end)
    (fun tasks => rev tasks).

(** The catalog of an earlier cycle: one game, of id 99. *)
Definition prior : Database :=
  add_game
    (mkDbGame 99 "Old Game" [3%Z] "0.1" 1 1 "English" (mkdatetime 2018 1 1 0 0 0)
       (mkdatetime 2018 1 2 0 0 0) "Alpha" 0 "" "Male" [] [] [] "" ""
       ("", "") ("", "") ("", "") ("", "") ("", ""))
    session.

Definition crawl (status : Z) : list Database * option exn :=
  crawl_tfgs Arrow.get urljoin markup (world status) prior.

(** The links of the games 1 to [n], as the results table lists them. *)
Definition links (n : nat) : list string :=
  map (fun k => ("https://tfgames.site/?module=viewgame&id="
                 ++ str_of_int (Z.of_nat k))%string) (seq 1 n).

End Sample.

(** ** The reading of the specification for a date attribute

    The value of [data] if, of the two formats tried in order, the first
    that accepts the text won. *)
Definition first_success (arrow_get : string -> string -> option datetime)
  (key result : string) (data : Data) : Data :=
  match arrow_get result "|DD MMM YYYY|, HH:mm" with
  | Some d => data_set key (VDate d) data
  | None =>
      match arrow_get result "MM/DD/YYYY" with
      | Some d => data_set key (VDate d) data
      | None => data
      end
  end.

(** ** Notions of the statements *)

(** The order of [sorted] on urls. *)
Definition le_str (a b : string) : Prop := Py.leb a b = true.

(** The records a cycle accepts: the parse results that are not None. *)
Fixpoint accepted (games : list (option PGame)) : list PGame :=
  match games with
  | [] => []
  | Some g :: rest => g :: accepted rest
  | None :: rest => accepted rest
  end.

(** The first character of [s], if any, does not satisfy [p]. *)
Definition head_ok (p : ascii -> bool) (s : string) : Prop :=
  match s with
  | EmptyString => True
  | String c _ => p c = false
  end.

(** The catalog that a finished cycle leaves to the readers. *)
Definition persisted (run : list Database * option exn) : Database :=
  last (fst run) empty_db.

(** [row] is the row that the [Game(...)] call builds from [game]. *)
Definition row_of (row : DbGame) (game : PGame) : Prop :=
  exists session, game_row session game = Ok row.

(** ** The reading of the specification for the reviews

    [enumerate_from i l] is [enumerate(l, i)].  [chronological] lists, for
    the blocks of a reviews page in page order (newest first), the reviews
    of the blocks from the last to the first, each numbered by its position
    in that reversed sequence; a block that yields no review leaves its
    number unused. *)
Definition enumerate_from {A : Type} (i : nat) (l : list A) : list (nat * A) :=
  combine (seq i (length l)) l.

Definition kept_reviews (arrow_get : string -> string -> option datetime)
  (blocks : list (nat * Soup.node)) : list PReview :=
  flat_map (fun '(j, b) =>
              match review_block arrow_get j (Soup.text b) with
              | Ok (Some r) => [r]
              | _ => []
              end) blocks.

Definition chronological (arrow_get : string -> string -> option datetime)
  (blocks : list Soup.node) : list PReview :=
  kept_reviews arrow_get (enumerate_from 0 (rev blocks)).

(** ** Notions of the further properties *)

(** The rows of every table but the taxonomy table [k]. *)
Definition same_but (k : taxonomy) (db db' : Database) : Prop :=
  (forall k', k' <> k -> table k' db' = table k' db)
  /\ games db' = games db
  /\ game_versions db' = game_versions db
  /\ game_downloads db' = game_downloads db
  /\ db_reviews db' = db_reviews db.

(** The items of a browse page that [parse_category] loops over. *)
Definition browse_items (html : Soup.node) : list Soup.node :=
  Soup.find_all (fun n => by_tag "div" n && by_class "browsecontainer" n) html.

(** Further sample inputs. *)
Module Cases.

(** The network of [Sample.world 200], but the request for the engines
    fails. *)
Definition world_without_engines : World :=
  mkWorld
    (fun name => if String.eqb name "engine" then Raise TransportError
                 else category_response (Sample.world 200) name)
    (index_response (Sample.world 200))
    (page_response (Sample.world 200))
    (as_completed (Sample.world 200)).


(** Three links, two of which carry the same game id. *)
Definition same_id_urls : list string :=
  ["https://tfgames.site/?module=viewgame&id=4";
   "https://tfgames.site/?module=viewgame&id=04";
   "https://tfgames.site/?module=viewgame&id=6"].

(** The network of [Sample.world 200], but the search lists no game. *)
Definition world_without_games : World :=
  mkWorld (category_response (Sample.world 200))
    (Ok (200%Z, Sample.index_page []))
    (page_response (Sample.world 200))
    (as_completed (Sample.world 200)).

End Cases.

(** The keys of [data] that the loop over the attribute table assigns. *)
Definition info_keys : list string :=
  ["game_engine"; "content_rating"; "language"; "release_date"; "last_update";
   "version"; "development_stage"; "likes"; "contest"; "orig_pc_gender"; "themes";
   "thread"].

(** The link carries an id that the byline loop can read. *)
Definition has_author_id (link : Soup.node) : bool :=
  is_ok (Py.int_after "u=" (Soup.get "href" link)).


(** The number of links filed under all versions. *)
Fixpoint total_links (vs : list (string * list Link)) : nat :=
  match vs with
  | [] => 0
  | (_, l) :: rest => length l + total_links rest
  end.

(** The children of the downloads section that are file blocks. *)
Definition is_file_block (container : Soup.node) : bool :=
  negb (Soup.has_name "center" container) && Soup.has_name "div" container.


(** The anchor of the tab [i] of a page. *)
Definition tab_anchor (item : Soup.node) (i : nat) : option Soup.node :=
  Soup.find (fun n => by_tag "a" n && Soup.has_attr "href" ("#" ++ tab_id i) n) item.

(** The value under [k] is as before, or a section stored by a tab. *)
Definition same_or_section (k : string) (data data' : Data) : Prop :=
  data_get k data' = data_get k data
  \/ exists t h, data_get k data' = Some (VSection t h).

(** [db'] has the taxonomy rows and the Game rows of [db] and, after the
    rows of [db], the versions [nv], the downloads [nd] and the reviews
    [nr]. *)
Definition grows (db db' : Database) (nv : list DbVersion) (nd : list DbDownload)
  (nr : list DbReview) : Prop :=
  (forall k, table k db' = table k db)
  /\ games db' = games db
  /\ game_versions db' = game_versions db ++ nv
  /\ game_downloads db' = game_downloads db ++ nd
  /\ db_reviews db' = db_reviews db ++ nr.


(** The url of the reviews page of a game. *)
Definition reviews_url (game_id : Z) : string :=
  ("https://tfgames.site/modules/viewgame/viewreviews.php?id=" ++ str_of_int game_id)%string.

(** * Properties *)

(** ** The string methods on examples *)

Example split_on_marker :
  Py.split "u=" "memberlist.php?mode=viewprofile&u=123"
  = ["memberlist.php?mode=viewprofile&"; "123"].
Proof. reflexivity. Qed.

Example split_adjacent : Py.split "ab" "xxabyyabab" = ["xx"; "yy"; ""; ""].
Proof. reflexivity. Qed.

Example int_literals :
  Py.int " 12_3 " = Ok 123%Z /\ Py.int "-5" = Ok (-5)%Z
  /\ Py.int "1__2" = Raise ValueError /\ Py.int "" = Raise ValueError
  /\ Py.int "12 likes" = Raise ValueError.
Proof. repeat split; reflexivity. Qed.

(** [lstrip] removes characters of a set, not a prefix. *)
Example lstrip_is_a_set :
  Py.strip (Py.lstrip "Review by" "Review by Jane") = "Jane"
  /\ Py.strip (Py.lstrip "Review by" "Review by bob") = "ob"
  /\ Py.strip (Py.lstrip "Version:" "Version: 1.0") = "1.0".
Proof. repeat split; reflexivity. Qed.

Example slug_of_name : Py.slug "Ren'Py Engine" = "ren'py_engine".
Proof. reflexivity. Qed.

Example sorted_by_code_point : Py.sorted ["b"; "a"; "ab"; "B"] = ["B"; "a"; "ab"; "b"].
Proof. reflexivity. Qed.

(** The first group of the header pattern is greedy. *)
Example version_line_greedy :
  match_version_line "Version reviewed: build on on 2019-06-01 10:00:00"
  = Some ("build on", "2019-06-01 10:00:00")
  /\ match_version_line "Version reviewed:  on today" = None
  /\ match_version_line "Reviewed version: 1 on today" = None.
Proof. repeat split; reflexivity. Qed.

Example arrow_formats :
  Arrow.get "06/14/2019" "MM/DD/YYYY" = Some (mkdatetime 2019 6 14 0 0 0)
  /\ Arrow.get "2019-06-01 10:00:00" "YYYY-MM-DD HH:mm:ss"
     = Some (mkdatetime 2019 6 1 10 0 0)
  /\ Arrow.get "02/30/2019" "MM/DD/YYYY" = None
  /\ Arrow.get "unknown" "MM/DD/YYYY" = None.
Proof. repeat split; reflexivity. Qed.

(** A complete page is parsed to the record of the sample. *)
Example good_page_record :
  Sample.parse 5 Sample.good_page (Sample.reviews_page [])
  = Ok (Some (Sample.record 5 "A Game")).
Proof. vm_compute. reflexivity. Qed.

(** ** Dicts *)

Lemma dict_get_set_same {V : Type} (k : string) (v : V) (d : list (string * V)) :
  Py.dict_get k (Py.dict_set k v d) = Some v.
Proof.
  induction d as [|[k' v'] d IH]; simpl.
  - now rewrite String.eqb_refl.
  - destruct (String.eqb k k') eqn:E; simpl.
    + now rewrite String.eqb_refl.
    + now rewrite E.
Qed.

Lemma dict_get_set_other {V : Type} (k k' : string) (v : V) (d : list (string * V)) :
  k <> k' -> Py.dict_get k (Py.dict_set k' v d) = Py.dict_get k d.
Proof.
  intros Hne. induction d as [|[k2 v2] d IH]; simpl.
  - destruct (String.eqb_spec k k'); congruence.
  - destruct (String.eqb_spec k' k2) as [->|Hk2]; simpl.
    + destruct (String.eqb_spec k k2); congruence.
    + destruct (String.eqb_spec k k2); auto.
Qed.

Lemma dict_set_set {V : Type} (k : string) (v1 v2 : V) (d : list (string * V)) :
  Py.dict_set k v2 (Py.dict_set k v1 d) = Py.dict_set k v2 d.
Proof.
  induction d as [|[k' v'] d IH]; simpl.
  - now rewrite String.eqb_refl.
  - destruct (String.eqb k k') eqn:E; simpl.
    + now rewrite String.eqb_refl.
    + now rewrite E, IH.
Qed.

(** ** Stripping *)

Lemma append_empty_r (s : string) : (s ++ "")%string = s.
Proof. induction s; simpl; congruence. Qed.

Lemma append_assoc (a b c : string) : ((a ++ b) ++ c)%string = (a ++ b ++ c)%string.
Proof. induction a; simpl; congruence. Qed.

Lemma rev_str_acc (s : string) :
  forall acc, Py.rev_str s acc = (Py.rev_str s "" ++ acc)%string.
Proof.
  induction s as [|c s IH]; intros acc; simpl; [reflexivity|].
  rewrite IH, (IH (String c "")), append_assoc. reflexivity.
Qed.

Lemma rev_str_app (a b : string) :
  Py.rev_str (a ++ b) "" = (Py.rev_str b "" ++ Py.rev_str a "")%string.
Proof.
  induction a as [|c a IH]; simpl.
  - now rewrite append_empty_r.
  - rewrite (rev_str_acc (a ++ b) (String c "")), IH,
      (rev_str_acc a (String c "")), append_assoc. reflexivity.
Qed.

Lemma rev_str_involutive (s : string) : Py.rev_str (Py.rev_str s "") "" = s.
Proof.
  induction s as [|c s IH]; simpl; [reflexivity|].
  rewrite (rev_str_acc s (String c "")), rev_str_app, IH. reflexivity.
Qed.

Lemma lstrip_by_head (p : ascii -> bool) (s : string) : head_ok p (Py.lstrip_by p s).
Proof.
  induction s as [|c s IH]; simpl; [exact I|].
  destruct (p c) eqn:E; [exact IH | exact E].
Qed.

Lemma lstrip_by_id (p : ascii -> bool) (s : string) :
  head_ok p s -> Py.lstrip_by p s = s.
Proof. destruct s as [|c s]; simpl; [reflexivity|]. now intros ->. Qed.

Lemma lstrip_by_suffix (p : ascii -> bool) (s : string) :
  exists pre, s = (pre ++ Py.lstrip_by p s)%string.
Proof.
  induction s as [|c s [pre IH]]; simpl.
  - now exists "".
  - destruct (p c); [|now exists ""].
    exists (String c pre). simpl. now rewrite <- IH.
Qed.

Lemma rstrip_by_last (p : ascii -> bool) (s : string) :
  head_ok p (Py.rev_str (Py.rstrip_by p s) "").
Proof. unfold Py.rstrip_by. rewrite rev_str_involutive. apply lstrip_by_head. Qed.

Lemma rstrip_by_id (p : ascii -> bool) (s : string) :
  head_ok p (Py.rev_str s "") -> Py.rstrip_by p s = s.
Proof.
  intros H. unfold Py.rstrip_by. rewrite (lstrip_by_id _ _ H).
  apply rev_str_involutive.
Qed.

Lemma rstrip_by_head (p : ascii -> bool) (s : string) :
  head_ok p s -> head_ok p (Py.rstrip_by p s).
Proof.
  intros H. unfold Py.rstrip_by.
  destruct (lstrip_by_suffix p (Py.rev_str s "")) as [pre Hpre].
  apply (f_equal (fun x => Py.rev_str x "")) in Hpre.
  rewrite rev_str_involutive, rev_str_app in Hpre.
  destruct (Py.rev_str (Py.lstrip_by p (Py.rev_str s "")) "") as [|c r]; [exact I|].
  rewrite Hpre in H. exact H.
Qed.

Lemma slug_app (a b : string) : Py.slug (a ++ b) = (Py.slug a ++ Py.slug b)%string.
Proof. unfold Py.slug. induction a as [|c a IH]; simpl; congruence. Qed.

Lemma slug_rev (s : string) : Py.rev_str (Py.slug s) "" = Py.slug (Py.rev_str s "").
Proof.
  induction s as [|c s IH]; [reflexivity|].
  change (Py.slug (String c s)) with (Py.slug (String c "") ++ Py.slug s)%string.
  simpl Py.rev_str at 2.
  rewrite (rev_str_acc s (String c "")), slug_app, <- IH.
  change (String c s) with (String c "" ++ s)%string.
  rewrite rev_str_app. reflexivity.
Qed.

Lemma slug_char_not_space (c : ascii) :
  Py.isspace c = false ->
  Py.isspace (if Ascii.eqb (Py.lower_char c) " " then "_"%char else Py.lower_char c)
  = false.
Proof.
  destruct c as [[] [] [] [] [] [] [] []]; vm_compute; intros H;
    first [reflexivity | discriminate H].
Qed.

Lemma slug_head (s : string) : head_ok Py.isspace s -> head_ok Py.isspace (Py.slug s).
Proof. destruct s as [|c s]; [auto|]. simpl. apply slug_char_not_space. Qed.

Lemma strip_ends (s : string) :
  head_ok Py.isspace (Py.strip s)
  /\ head_ok Py.isspace (Py.rev_str (Py.strip s) "").
Proof.
  unfold Py.strip. split.
  - apply rstrip_by_head, lstrip_by_head.
  - apply rstrip_by_last.
Qed.

(** A slug of a stripped text has no surrounding whitespace. *)
Lemma strip_slug_strip (s : string) :
  Py.strip (Py.slug (Py.strip s)) = Py.slug (Py.strip s).
Proof.
  destruct (strip_ends s) as [Hhead Hlast].
  unfold Py.strip at 1.
  rewrite (lstrip_by_id _ _ (slug_head _ Hhead)).
  apply rstrip_by_id. rewrite slug_rev. now apply slug_head.
Qed.

Lemma byline_author_stripped (container : Soup.node) :
  Py.strip (byline_author container) = byline_author container.
Proof. apply strip_slug_strip. Qed.

(** ** Dates of the attribute table (C3) *)

Section Dates.

Variable arrow_get : string -> string -> option datetime.

Lemma set_date_last_success (key result : string) (data : Data) :
  set_date arrow_get key result data =
  match arrow_get result "MM/DD/YYYY" with
  | Some d => data_set key (VDate d) data
  | None =>
      match arrow_get result "|DD MMM YYYY|, HH:mm" with
      | Some d => data_set key (VDate d) data
      | None => data
      end
  end.
Proof.
  unfold set_date, data_set.
  destruct (arrow_get result "|DD MMM YYYY|, HH:mm"),
           (arrow_get result "MM/DD/YYYY"); try reflexivity.
  apply dict_set_set.
Qed.

Lemma build_pgame_needs_date (key : string) (game_id : Z) (data : Data) :
  key = "release_date" \/ key = "last_update" ->
  data_get key data = None ->
  is_ok (build_pgame game_id data) = false.
Proof.
  intros Hkey Hnone. unfold build_pgame.
  destruct (data_get "id" data); [reflexivity|].
  destruct (str_field "title" data); [simpl|reflexivity].
  destruct (authors_field data); [simpl|reflexivity].
  destruct (str_field "game_engine" data); [simpl|reflexivity].
  destruct (str_field "content_rating" data); [simpl|reflexivity].
  destruct (str_field "language" data); [simpl|reflexivity].
  destruct Hkey as [-> | ->].
  - unfold date_field at 1. now rewrite Hnone.
  - destruct (date_field "release_date" data); [simpl|reflexivity].
    unfold date_field at 1. now rewrite Hnone.
Qed.

End Dates.

(** C3 (as the code has it).  For a Release Date or Last Update text the
    parser tries the format with the month name and then the format with
    slashes, each in a [try] of its own: the attribute holds the date of
    the last format that accepts the text, which is the first success
    whenever at most one format accepts it; a text that both formats
    refuse leaves [data] as it was and raises nothing at that step.  Both
    attributes are required fields of [PGame]: while one of them is missing
    from [data], building the record fails. *)
Theorem C3_date_attribute
  (arrow_get : string -> string -> option datetime)
  (key result : string) (data : Data) :
  set_date arrow_get key result data =
    match arrow_get result "MM/DD/YYYY" with
    | Some d => data_set key (VDate d) data
    | None =>
        match arrow_get result "|DD MMM YYYY|, HH:mm" with
        | Some d => data_set key (VDate d) data
        | None => data
        end
    end
  /\ (arrow_get result "|DD MMM YYYY|, HH:mm" = None
      \/ arrow_get result "MM/DD/YYYY" = None ->
      set_date arrow_get key result data = first_success arrow_get key result data)
  /\ (arrow_get result "|DD MMM YYYY|, HH:mm" = None ->
      arrow_get result "MM/DD/YYYY" = None ->
      set_date arrow_get key result data = data
      /\ (forall box l r,
            Soup.find (by_class "viewgameitemleft") box = Some l ->
            Soup.find (by_class "viewgameitemright") box = Some r ->
            (Soup.text l = "Release Date" \/ Soup.text l = "Last Update") ->
            Soup.text r = result ->
            info_box arrow_get box data = Ok data)
      /\ (forall game_id,
            key = "release_date" \/ key = "last_update" ->
            data_get key data = None ->
            is_ok (build_pgame game_id (set_date arrow_get key result data)) = false)).
Proof.
  split; [apply set_date_last_success|]. split.
  - rewrite set_date_last_success. unfold first_success.
    intros [H|H]; rewrite H; destruct (arrow_get result _); reflexivity.
  - intros H1 H2.
    assert (Hsame : forall k, set_date arrow_get k result data = data).
    { intros k. rewrite set_date_last_success. now rewrite H1, H2. }
    split; [apply Hsame|]. split.
    + intros box l r Hl Hr Hlabel Htext. unfold info_box. rewrite Hl, Hr. simpl.
      destruct Hlabel as [-> | ->]; simpl; rewrite Htext, Hsame; reflexivity.
    + intros game_id Hkey Hnone. rewrite Hsame.
      now apply build_pgame_needs_date with (key := key).
Qed.

Lemma C3_date_attribute_witness :
  set_date Arrow.get "release_date" "unknown" initial_data
    = first_success Arrow.get "release_date" "unknown" initial_data
  /\ set_date Arrow.get "release_date" "unknown" initial_data = initial_data
  /\ info_box Arrow.get (Sample.info "Release Date" "unknown") initial_data
     = Ok initial_data
  /\ is_ok (build_pgame 5 (set_date Arrow.get "release_date" "unknown" initial_data))
     = false.
Proof.
  destruct (C3_date_attribute Arrow.get "release_date" "unknown" initial_data)
    as (_ & Hfirst & Hnone).
  destruct Hnone as (Hsame & Hbox & Hbuild); [reflexivity | reflexivity |].
  split; [apply Hfirst; left; reflexivity|].
  split; [exact Hsame|].
  split.
  - apply (Hbox (Sample.info "Release Date" "unknown")
                (Sample.div "viewgameitemleft" [Soup.Text "Release Date"])
                (Sample.div "viewgameitemright" [Soup.Text "unknown"]));
      [reflexivity | reflexivity | left; reflexivity | reflexivity].
  - apply Hbuild; [left; reflexivity | reflexivity].
Defined.

(** C3 (as stated) fails: on a page that is complete but for a Release
    Date that neither format accepts, no record is produced,
    [parse_game_page] raises from the validation of [PGame]. *)
Lemma C3_unparsed_date_aborts_record :
  Arrow.get "unknown" "|DD MMM YYYY|, HH:mm" = None
  /\ Arrow.get "unknown" "MM/DD/YYYY" = None
  /\ is_ok (Sample.parse 5 Sample.good_page (Sample.reviews_page [])) = true
  /\ Sample.parse 5 (Sample.page_with "unknown" "12") (Sample.reviews_page [])
     = Raise ValidationError.
Proof. repeat split; vm_compute; reflexivity. Qed.

(** ** Likes (C9) *)

Section Likes.

Variable arrow_get : string -> string -> option datetime.

Lemma set_date_get_other (k key result : string) (data : Data) :
  k <> key -> data_get k (set_date arrow_get key result data) = data_get k data.
Proof.
  intros Hne. rewrite set_date_last_success. unfold data_get, data_set.
  destruct (arrow_get result "MM/DD/YYYY");
    [now apply dict_get_set_other|].
  destruct (arrow_get result "|DD MMM YYYY|, HH:mm");
    [now apply dict_get_set_other | reflexivity].
Qed.

Lemma set_theme_get_other (k kind name : string) (n : Z) (data data' : Data) :
  k <> "themes" -> set_theme kind name n data = Ok data' ->
  data_get k data' = data_get k data.
Proof.
  intros Hne. unfold set_theme.
  destruct (data_get "themes" data) as [[]|]; intros H; inversion H; subst;
    now apply dict_get_set_other.
Qed.

Lemma theme_links_get_other (k kind : string) (links : list Soup.node) :
  k <> "themes" ->
  forall data data', theme_links kind links data = Ok data' ->
    data_get k data' = data_get k data.
Proof.
  intros Hne. induction links as [|link rest IH]; simpl; intros data data' H.
  - now inversion H.
  - destruct (Py.int_after _ _); simpl in H; [|discriminate].
    destruct (set_theme kind (Soup.text link) a data) as [d1|] eqn:E; simpl in H;
      [|discriminate].
    rewrite (IH _ _ H). eapply set_theme_get_other; eauto.
Qed.

Ltac other_key :=
  unfold data_get, data_set; apply dict_get_set_other; discriminate.

Lemma info_box_keeps_likes (box : Soup.node) (data data' : Data) :
  (forall l, Soup.find (by_class "viewgameitemleft") box = Some l ->
             Soup.text l <> "Likes") ->
  info_box arrow_get box data = Ok data' ->
  data_get "likes" data' = data_get "likes" data.
Proof.
  intros Hl. unfold info_box.
  destruct (Soup.find (by_class "viewgameitemleft") box) as [l|]; simpl;
    [|discriminate].
  specialize (Hl l eq_refl).
  destruct (Soup.find (by_class "viewgameitemright") box) as [r|]; simpl.
  - repeat match goal with
           | |- (if String.eqb ?a ?b then _ else _) = _ -> _ =>
               destruct (String.eqb_spec a b)
           end;
      try congruence;
      try (intros H; inversion H; subst; other_key);
      try (intros H; inversion H; subst; apply set_date_get_other; discriminate);
      try (apply theme_links_get_other; discriminate).
    destruct (Soup.find (by_tag "a") r); simpl; intros H; inversion H; subst.
    other_key.
  - repeat match goal with
           | |- (if String.eqb ?a ?b then _ else _) = _ -> _ =>
               destruct (String.eqb a b)
           end; try discriminate.
    intros H; now inversion H.
Qed.

Lemma info_boxes_keep_likes (boxes : list Soup.node) :
  (forall box l, In box boxes ->
                 Soup.find (by_class "viewgameitemleft") box = Some l ->
                 Soup.text l <> "Likes") ->
  forall data data', info_boxes arrow_get boxes data = Ok data' ->
    data_get "likes" data' = data_get "likes" data.
Proof.
  induction boxes as [|box rest IH]; simpl; intros Hl data data' H.
  - now inversion H.
  - destruct (info_box arrow_get box data) as [d1|] eqn:E; simpl in H; [|discriminate].
    rewrite (IH (fun b l Hb => Hl b l (or_intror Hb)) _ _ H).
    eapply info_box_keeps_likes; eauto.
Qed.

End Likes.

(** C9 (as the code has it).  [likes] is 0 when [data] is initialised and
    stays 0 through an attribute table that has no Likes entry; a Likes
    entry whose text [int] accepts sets it to that integer; a Likes entry
    whose text [int] refuses raises ValueError, which ends the loop over
    the table: the entries after it are not read. *)
Theorem C9_likes_default_and_parse
  (arrow_get : string -> string -> option datetime) :
  data_get "likes" initial_data = Some (VInt 0%Z)
  /\ (forall boxes data data',
        data_get "likes" data = Some (VInt 0%Z) ->
        (forall box l, In box boxes ->
                       Soup.find (by_class "viewgameitemleft") box = Some l ->
                       Soup.text l <> "Likes") ->
        info_boxes arrow_get boxes data = Ok data' ->
        data_get "likes" data' = Some (VInt 0%Z))
  /\ (forall box l r data n,
        Soup.find (by_class "viewgameitemleft") box = Some l ->
        Soup.find (by_class "viewgameitemright") box = Some r ->
        Soup.text l = "Likes" ->
        Py.int (Soup.text r) = Ok n ->
        exists data', info_box arrow_get box data = Ok data'
                      /\ data_get "likes" data' = Some (VInt n))
  /\ (forall box l r data rest,
        Soup.find (by_class "viewgameitemleft") box = Some l ->
        Soup.find (by_class "viewgameitemright") box = Some r ->
        Soup.text l = "Likes" ->
        is_ok (Py.int (Soup.text r)) = false ->
        info_box arrow_get box data = Raise ValueError
        /\ info_boxes arrow_get (box :: rest) data = Raise ValueError).
Proof.
  split; [reflexivity|]. split; [|split].
  - intros boxes data data' H0 Hl H.
    now rewrite (info_boxes_keep_likes arrow_get boxes Hl _ _ H).
  - intros box l r data n Hl Hr Hlabel Hint.
    unfold info_box. rewrite Hl, Hr. simpl. rewrite Hlabel. simpl. rewrite Hint. simpl.
    eexists; split; [reflexivity|].
    unfold data_get, data_set. apply dict_get_set_same.
  - intros box l r data rest Hl Hr Hlabel Hint.
    assert (Hbox : info_box arrow_get box data = Raise ValueError).
    { unfold info_box. rewrite Hl, Hr. simpl. rewrite Hlabel. simpl.
      unfold Py.int in *.
      destruct (match Py.strip (Soup.text r) with
                | String "-" r0 => option_map Z.opp (Py.digits r0 false 0)
                | String "+" r0 => Py.digits r0 false 0
                | _ => Py.digits (Py.strip (Soup.text r)) false 0
                end); [discriminate | reflexivity]. }
    split; [exact Hbox|]. simpl. now rewrite Hbox.
Qed.

Lemma C9_likes_default_and_parse_witness :
  data_get "likes" initial_data = Some (VInt 0%Z)
  /\ (exists data', info_box Arrow.get (Sample.info "Likes" "12") initial_data = Ok data'
                    /\ data_get "likes" data' = Some (VInt 12%Z))
  /\ info_boxes Arrow.get [Sample.info "Likes" "many"; Sample.info "Version" "1.0"]
       initial_data = Raise ValueError
  /\ (forall data',
        info_boxes Arrow.get [Sample.info "Engine" "Twine"; Sample.info "Version" "1.0"]
          initial_data = Ok data' ->
        data_get "likes" data' = Some (VInt 0%Z)).
Proof.
  destruct (C9_likes_default_and_parse Arrow.get) as (H0 & Habsent & Hgood & Hbad).
  split; [exact H0|]. split; [|split].
  - apply (Hgood (Sample.info "Likes" "12")
                 (Sample.div "viewgameitemleft" [Soup.Text "Likes"])
                 (Sample.div "viewgameitemright" [Soup.Text "12"]));
      reflexivity.
  - apply (Hbad (Sample.info "Likes" "many")
                (Sample.div "viewgameitemleft" [Soup.Text "Likes"])
                (Sample.div "viewgameitemright" [Soup.Text "many"]));
      reflexivity.
  - intros data'. apply Habsent; [reflexivity|].
    intros box l [<-|[<-|[]]] Hl; inversion Hl; subst; simpl; discriminate.
Defined.

(** C9 (as stated) fails: on a page whose Likes text is not an integer
    literal, [likes] does not default to 0 and no other field is
    extracted, [parse_game_page] raises ValueError. *)
Lemma C9_unparsable_likes_raises :
  is_ok (Py.int "many") = false
  /\ is_ok (Sample.parse 5 (Sample.page_with "06/14/2019" "12") (Sample.reviews_page []))
     = true
  /\ Sample.parse 5 (Sample.page_with "06/14/2019" "many") (Sample.reviews_page [])
     = Raise ValueError.
Proof. repeat split; vm_compute; reflexivity. Qed.

(** ** The downloads section (C8) *)

(** C8.  In the loop over the downloads section a [center] child binds
    the local [version] for the blocks after it; a file block is filed
    under that version, or under the top-level version of the record when
    the header gave an empty one; a file block met while [version] is
    still unbound raises UnboundLocalError instead of being filed under
    the top-level version. *)
Theorem C8_version_cursor
  (urljoin : string -> option string -> string)
  (container : Soup.node) (rest : list Soup.node)
  (version : option string) (data : Data) :
  (Soup.has_name "center" container = true ->
   download_blocks urljoin (container :: rest) version data
   = download_blocks urljoin rest
       (Some (Py.strip (Py.lstrip "Version:" (Soup.text container)))) data)
  /\ (forall link,
        Soup.has_name "center" container = false ->
        Soup.has_name "div" container = true ->
        file_block urljoin container = Ok link ->
        match version with
        | None =>
            download_blocks urljoin (container :: rest) version data
            = Raise UnboundLocalError
        | Some v =>
            forall key,
              (v <> "" /\ key = v
               \/ v = "" /\ data_get "version" data = Some (VStr key)) ->
              download_blocks urljoin (container :: rest) version data
              = (data' <- append_link key link data ;;
                 download_blocks urljoin rest version data')
        end).
Proof.
  split.
  - intros Hc. simpl. now rewrite Hc.
  - intros link Hc Hd Hf. destruct version as [v|].
    + intros key Hkey. simpl. rewrite Hc, Hd, Hf. simpl.
      destruct Hkey as [[Hv ->] | [-> Htop]].
      * destruct (String.eqb_spec v ""); [contradiction|reflexivity].
      * simpl. now rewrite Htop.
    + simpl. now rewrite Hc, Hd, Hf.
Qed.

Lemma C8_version_cursor_witness :
  download_blocks Sample.urljoin [Sample.file "http://host/a.zip"] None initial_data
  = Raise UnboundLocalError
  /\ download_blocks Sample.urljoin
       [Sample.version_header "1.0"; Sample.file "http://host/a.zip"] None initial_data
     = download_blocks Sample.urljoin [Sample.file "http://host/a.zip"] (Some "1.0")
         initial_data
  /\ download_blocks Sample.urljoin [Sample.file "http://host/a.zip"] (Some "1.0")
       initial_data
     = (data' <- append_link "1.0"
                   (mkLink None (Some "http://host/a.zip") None
                      "https://tfgames.site/report.php?id=1") initial_data ;;
        download_blocks Sample.urljoin [] (Some "1.0") data')
  /\ Sample.parse 5 Sample.headless_page (Sample.reviews_page [])
     = Raise UnboundLocalError.
Proof.
  split; [|split; [|split]].
  - apply (proj2 (C8_version_cursor Sample.urljoin (Sample.file "http://host/a.zip")
                    [] None initial_data)
             (mkLink None (Some "http://host/a.zip") None
                "https://tfgames.site/report.php?id=1")); reflexivity.
  - apply (proj1 (C8_version_cursor Sample.urljoin (Sample.version_header "1.0")
                    [Sample.file "http://host/a.zip"] None initial_data)).
    reflexivity.
  - apply (proj2 (C8_version_cursor Sample.urljoin (Sample.file "http://host/a.zip")
                    [] (Some "1.0") initial_data)
             (mkLink None (Some "http://host/a.zip") None
                "https://tfgames.site/report.php?id=1")); try reflexivity.
    left. split; [discriminate | reflexivity].
  - vm_compute. reflexivity.
Defined.

(** ** Reviews (C5, C6) *)

Section Reviews.

Variable arrow_get : string -> string -> option datetime.

Lemma review_block_id (i : nat) (text : string) (r : PReview) :
  review_block arrow_get i text = Ok (Some r) -> r_id r = i.
Proof.
  unfold review_block.
  destruct (Py.index (non_empty_lines text) 0) as [l0|]; simpl; [|discriminate].
  destruct (Py.contains "Review by" l0); simpl; [|discriminate].
  destruct (Py.index (non_empty_lines text) 1) as [l1|]; simpl; [|discriminate].
  destruct (match_version_line l1) as [[version date]|]; [|discriminate].
  destruct (review_date arrow_get date); simpl; [|discriminate].
  destruct (String.eqb _ ""); [discriminate|].
  intros H. inversion H. reflexivity.
Qed.

Lemma enumerate_from_cons {A : Type} (i : nat) (x : A) (l : list A) :
  enumerate_from i (x :: l) = (i, x) :: enumerate_from (S i) l.
Proof. reflexivity. Qed.

(** The loop appends exactly the kept reviews, when no block raises. *)
Lemma review_blocks_kept (blocks : list Soup.node) :
  forall i data rs0,
    data_get "reviews" data = Some (VReviews rs0) ->
    Forall (fun jb => is_ok (review_block arrow_get (fst jb) (Soup.text (snd jb))) = true)
           (enumerate_from i blocks) ->
    exists data',
      review_blocks arrow_get i blocks data = Ok data'
      /\ data_get "reviews" data'
         = Some (VReviews (rs0 ++ kept_reviews arrow_get (enumerate_from i blocks))).
Proof.
  induction blocks as [|b rest IH]; intros i data rs0 Hrs Hok.
  - exists data. split; [reflexivity|]. simpl. now rewrite app_nil_r.
  - rewrite enumerate_from_cons in *. inversion Hok as [|? ? Hb Hrest]; subst.
    simpl in Hb. simpl.
    destruct (review_block arrow_get i (Soup.text b)) as [[r|]|] eqn:E;
      [| |discriminate]; simpl.
    + unfold append_review. rewrite Hrs. simpl.
      assert (Hset : data_get "reviews"
                       (data_set "reviews" (VReviews (rs0 ++ [r])) data)
                     = Some (VReviews (rs0 ++ [r])))
        by (unfold data_get, data_set; apply dict_get_set_same).
      destruct (IH (S i) _ _ Hset Hrest) as (data' & Hrun & Hget).
      exists data'. split; [exact Hrun|]. rewrite Hget.
      now rewrite <- app_assoc.
    + destruct (IH (S i) data rs0 Hrs Hrest) as (data' & Hrun & Hget).
      exists data'. split; [exact Hrun|]. exact Hget.
Qed.

Lemma kept_reviews_ids (blocks : list Soup.node) :
  forall i,
    StronglySorted lt (map r_id (kept_reviews arrow_get (enumerate_from i blocks)))
    /\ Forall (fun n => i <= n < i + length blocks)
              (map r_id (kept_reviews arrow_get (enumerate_from i blocks))).
Proof.
  induction blocks as [|b rest IH]; intros i.
  - split; constructor.
  - rewrite enumerate_from_cons. destruct (IH (S i)) as [Hs Hf].
    assert (Hf' : Forall (fun n => i <= n < i + length (b :: rest))
                    (map r_id (kept_reviews arrow_get (enumerate_from (S i) rest)))).
    { eapply Forall_impl; [|exact Hf]. simpl. intros; lia. }
    assert (Hcons : kept_reviews arrow_get ((i, b) :: enumerate_from (S i) rest)
                    = match review_block arrow_get i (Soup.text b) with
                      | Ok (Some r) => [r]
                      | _ => []
                      end ++ kept_reviews arrow_get (enumerate_from (S i) rest))
      by reflexivity.
    rewrite Hcons.
    destruct (review_block arrow_get i (Soup.text b)) as [[r|]|] eqn:E; simpl; auto.
    apply review_block_id in E. rewrite E. split.
    + constructor; [exact Hs|]. eapply Forall_impl; [|exact Hf]. simpl. intros; lia.
    + constructor; [simpl; lia | exact Hf'].
Qed.

Lemma review_blocks_raise (i : nat) (block : Soup.node) (rest : list Soup.node)
  (data : Data) (e : exn) :
  review_block arrow_get i (Soup.text block) = Raise e ->
  review_blocks arrow_get i (block :: rest) data = Raise e.
Proof. intros H. simpl. now rewrite H. Qed.

End Reviews.

(** C5.  A review block is passed over on its own only when its first
    line lacks the words Review by, when its second line is not a version
    header or when it has no body.  A block without lines, a block of one
    line and a block whose date both formats refuse raise (IndexError,
    IndexError, the error of arrow), and the exception leaves the loop: the
    blocks after it are not parsed. *)
Theorem C5_malformed_block_raises
  (arrow_get : string -> string -> option datetime) (i : nat) (text : string) :
  (non_empty_lines text = [] -> review_block arrow_get i text = Raise IndexError)
  /\ (forall line0,
        non_empty_lines text = [line0] ->
        Py.contains "Review by" line0 = true ->
        review_block arrow_get i text = Raise IndexError)
  /\ (forall line0 line1 rest version date,
        non_empty_lines text = line0 :: line1 :: rest ->
        Py.contains "Review by" line0 = true ->
        match_version_line line1 = Some (version, date) ->
        arrow_get date "YYYY-MM-DD HH:mm:ss" = None ->
        arrow_get date "MM/DD/YYYY HH:mm:ss" = None ->
        review_block arrow_get i text = Raise ParserError)
  /\ (forall e block rest data,
        Soup.text block = text ->
        review_block arrow_get i text = Raise e ->
        review_blocks arrow_get i (block :: rest) data = Raise e).
Proof.
  unfold review_block. repeat split.
  - intros ->. reflexivity.
  - intros line0 -> Hc. simpl. now rewrite Hc.
  - intros line0 line1 rest version date -> Hc Hm H1 H2. simpl.
    rewrite Hc, Hm. simpl. unfold review_date. now rewrite H1, H2.
  - intros e block rest data <- H. now apply review_blocks_raise.
Qed.

Lemma C5_malformed_block_raises_witness :
  review_block Arrow.get 0 "   " = Raise IndexError
  /\ review_block Arrow.get 0 "Review by Jane" = Raise IndexError
  /\ review_block Arrow.get 0 Sample.undated_block = Raise ParserError
  /\ review_blocks Arrow.get 0
       [Sample.review "Review by Jane"; Sample.review Sample.jane_block] initial_data
     = Raise IndexError
  /\ Sample.parse 5 Sample.good_page
       (Sample.reviews_page [Sample.jane_block; Sample.undated_block])
     = Raise ParserError.
Proof.
  split; [|split; [|split; [|split]]].
  - apply (C5_malformed_block_raises Arrow.get 0 "   "). reflexivity.
  - apply (proj1 (proj2 (C5_malformed_block_raises Arrow.get 0 "Review by Jane"))
             "Review by Jane"); reflexivity.
  - apply (proj1 (proj2 (proj2 (C5_malformed_block_raises Arrow.get 0
                                  Sample.undated_block)))
             "Review by Kim" "Version reviewed: 1.1 on yesterday" ["Fine"]
             "1.1" "yesterday"); reflexivity.
  - apply (proj2 (proj2 (proj2 (C5_malformed_block_raises Arrow.get 0
                                  "Review by Jane")))); reflexivity.
  - vm_compute. reflexivity.
Defined.

(** C6.  The reviews of a record are the reviews of the blocks of the
    page read from the last block to the first, each numbered from 0 by its
    position in that reversed sequence, so the ids increase along the
    list; the block of Jane yields the review of the specification; a
    block whose first line lacks the words Review by yields no review. *)
Theorem C6_reviews_chronological
  (arrow_get : string -> string -> option datetime) :
  (forall reviews_soup data rs0,
     let blocks := Soup.find_all (by_class "reviewcontent") reviews_soup in
     data_get "reviews" data = Some (VReviews rs0) ->
     Forall (fun jb => is_ok (review_block arrow_get (fst jb) (Soup.text (snd jb))) = true)
            (enumerate_from 0 (rev blocks)) ->
     exists data',
       parse_reviews arrow_get reviews_soup data = Ok data'
       /\ data_get "reviews" data'
          = Some (VReviews (rs0 ++ chronological arrow_get blocks))
       /\ StronglySorted lt (map r_id (chronological arrow_get blocks))
       /\ Forall (fun n => n < length blocks)
                 (map r_id (chronological arrow_get blocks)))
  /\ (forall i d,
        arrow_get "2019-06-01 10:00:00" "YYYY-MM-DD HH:mm:ss" = Some d ->
        review_block arrow_get i Sample.jane_block
        = Ok (Some (mkPReview i "Jane" "1.2" d "Great game")))
  /\ (forall i text line0 rest,
        non_empty_lines text = line0 :: rest ->
        Py.contains "Review by" line0 = false ->
        review_block arrow_get i text = Ok None).
Proof.
  split; [|split].
  - intros reviews_soup data rs0 blocks Hrs Hok.
    destruct (review_blocks_kept arrow_get (rev blocks) 0 data rs0 Hrs Hok)
      as (data' & Hrun & Hget).
    exists data'. split; [exact Hrun|]. split; [exact Hget|].
    destruct (kept_reviews_ids arrow_get (rev blocks) 0) as [Hs Hf].
    split; [exact Hs|].
    eapply Forall_impl; [|exact Hf]. simpl. rewrite length_rev. intros; lia.
  - intros i d Hd. unfold review_block.
    replace (non_empty_lines Sample.jane_block)
      with ["Review by Jane"; "Version reviewed: 1.2 on 2019-06-01 10:00:00";
            "Great game"] by (vm_compute; reflexivity).
    cbn [Py.index nth_error bind].
    replace (Py.contains "Review by" "Review by Jane") with true
      by (vm_compute; reflexivity).
    cbn [negb].
    replace (match_version_line "Version reviewed: 1.2 on 2019-06-01 10:00:00")
      with (Some ("1.2", "2019-06-01 10:00:00")) by (vm_compute; reflexivity).
    unfold review_date. rewrite Hd. cbn [bind skipn].
    replace (Py.strip (Py.lstrip "Review by" "Review by Jane")) with "Jane"
      by (vm_compute; reflexivity).
    reflexivity.
  - intros i text line0 rest Hlines Hc. unfold review_block.
    rewrite Hlines. simpl. now rewrite Hc.
Qed.

Lemma C6_reviews_chronological_witness :
  (exists data',
     parse_reviews Arrow.get
       (Sample.reviews_page [Sample.jane_block; Sample.older_block]) initial_data
     = Ok data'
     /\ data_get "reviews" data'
        = Some (VReviews
                  [mkPReview 0 "Max" "1.0" (mkdatetime 2018 3 5 8 30 0)
                     ("First!" ++ Sample.nl ++ "Liked it.");
                   mkPReview 1 "Jane" "1.2" (mkdatetime 2019 6 1 10 0 0) "Great game"]))
  /\ review_block Arrow.get 0 Sample.jane_block
     = Ok (Some (mkPReview 0 "Jane" "1.2" (mkdatetime 2019 6 1 10 0 0) "Great game"))
  /\ review_block Arrow.get 0 ("Jane says" ++ Sample.nl ++ "Great game") = Ok None.
Proof.
  destruct (C6_reviews_chronological Arrow.get) as (Hall & Hjane & Hmissing).
  split; [|split].
  - destruct (Hall (Sample.reviews_page [Sample.jane_block; Sample.older_block])
                   initial_data [] eq_refl) as (data' & Hrun & Hget & _).
    + repeat constructor.
    + exists data'. split; [exact Hrun|]. rewrite Hget. vm_compute. reflexivity.
  - apply Hjane. reflexivity.
  - apply (Hmissing 0 _ "Jane says" ["Great game"]); reflexivity.
Defined.

(** ** Writing a game (C10) *)

Lemma download_rows_games (gv : Z) (downloads : list Link) :
  forall db db', download_rows gv downloads db = Ok db' -> games db' = games db.
Proof.
  induction downloads as [|d rest IH]; simpl; intros db db' H.
  - now inversion H.
  - destruct (download_row gv d db) as [db1|] eqn:E; simpl in H; [|discriminate].
    rewrite (IH _ _ H). unfold download_row in E.
    destruct (l_delete d); simpl in E; [discriminate|].
    destruct (match l_link d with Some s => Pony.required s | None => Raise DatabaseError end);
      simpl in E; [|discriminate].
    destruct (Pony.required (l_report d)); simpl in E; [|discriminate].
    now inversion E.
Qed.

Lemma version_rows_games (game_id : Z) (vs : list (string * list Link)) :
  forall db db', version_rows game_id vs db = Ok db' -> games db' = games db.
Proof.
  induction vs as [|[version downloads] rest IH]; simpl; intros db db' H.
  - now inversion H.
  - unfold version_row in H.
    destruct (Pony.required version); simpl in H; [|discriminate].
    destruct (download_rows _ downloads _) as [db2|] eqn:E; simpl in H; [|discriminate].
    rewrite (IH _ _ H). now rewrite (download_rows_games _ _ _ _ E).
Qed.

Lemma write_versions_games (game_id : Z) (versions : option value) (db db' : Database) :
  write_versions game_id versions db = Ok db' -> games db' = games db.
Proof.
  unfold write_versions. destruct versions as [[]|]; try discriminate.
  - apply version_rows_games.
  - unfold version_row. simpl.
    destruct (negb (String.eqb text "")); [discriminate|].
    destruct (negb (String.eqb html "")); [discriminate|].
    intros H. now inversion H.
Qed.

Lemma review_rows_games (game_id : Z) (rs : list PReview) :
  forall db db', review_rows game_id rs db = Ok db' -> games db' = games db.
Proof.
  induction rs as [|r rest IH]; simpl; intros db db' H.
  - now inversion H.
  - destruct (review_row game_id r db) as [db1|] eqn:E; simpl in H; [|discriminate].
    rewrite (IH _ _ H). unfold review_row in E.
    destruct (Pony.required (r_author r)); simpl in E; [|discriminate].
    destruct (Pony.required (r_text r)); simpl in E; [|discriminate].
    destruct (Pony.required (r_version r)); simpl in E; [|discriminate].
    now inversion E.
Qed.

Lemma game_row_id (db : Database) (game : PGame) (row : DbGame) :
  game_row db game = Ok row -> g_id row = id game.
Proof.
  unfold game_row. intros H.
  repeat match type of H with
         | bind ?m _ = Ok _ => destruct m; simpl in H; [|discriminate]
         end.
  now inversion H.
Qed.

(** What a call of [pgame_to_db_game] does to the Game table. *)
Lemma pgame_to_db_game_games (db db' : Database) (game : PGame) (row : DbGame) :
  pgame_to_db_game db game = Ok (db', row) ->
  (Pony.get_game (id game) db = Some row /\ db' = db)
  \/ (Pony.get_game (id game) db = None
      /\ games db' = games db ++ [row]
      /\ g_id row = id game
      /\ exists session, game_row session game = Ok row).
Proof.
  unfold pgame_to_db_game.
  destruct (Pony.get_game (id game) db) as [g|] eqn:Hget.
  - intros H. inversion H; subst. now left.
  - intros H. right. split; [reflexivity|].
    destruct (ensure_authors _ _) as [t|]; simpl in H; [|discriminate].
    destruct (game_row _ game) as [g|] eqn:Hrow; simpl in H; [|discriminate].
    destruct (write_versions _ _ _) as [db1|] eqn:Hv; simpl in H; [|discriminate].
    destruct (write_reviews _ _ _) as [db2|] eqn:Hr; simpl in H; [|discriminate].
    inversion H; subst.
    assert (Hgames : games db' = games db ++ [row]).
    { unfold write_reviews in Hr. destruct (reviews game); [|discriminate].
      rewrite (review_rows_games _ _ _ _ Hr), (write_versions_games _ _ _ _ Hv).
      simpl. destruct db; reflexivity. }
    split; [exact Hgames|]. split; [eapply game_row_id; eauto|].
    eexists; exact Hrow.
Qed.

Lemma find_app_none {A : Type} (f : A -> bool) (l l' : list A) :
  List.find f l = None -> List.find f (l ++ l') = List.find f l'.
Proof.
  induction l as [|x l IH]; simpl; [reflexivity|].
  destruct (f x); [discriminate|exact IH].
Qed.

Lemma get_game_app (i : Z) (l : list DbGame) (row : DbGame) :
  List.find (fun g => Z.eqb (g_id g) i) l = None ->
  g_id row = i ->
  List.find (fun g => Z.eqb (g_id g) i) (l ++ [row]) = Some row.
Proof.
  intros Hnone Hid. induction l as [|g l IH]; simpl in *.
  - now rewrite Hid, Z.eqb_refl.
  - destruct (Z.eqb (g_id g) i); [discriminate|auto].
Qed.

(** C10.  When a Game row with the id of the record exists,
    [pgame_to_db_game] returns that row and leaves every table as it was;
    so after a first call that returns, a later call for a record of the
    same id returns the row of the first call and writes nothing. *)
Theorem C10_existing_game_is_returned (db : Database) (game : PGame) :
  (forall row,
     Pony.get_game (id game) db = Some row ->
     pgame_to_db_game db game = Ok (db, row))
  /\ (forall db' row later,
        pgame_to_db_game db game = Ok (db', row) ->
        id later = id game ->
        pgame_to_db_game db' later = Ok (db', row)).
Proof.
  split.
  - intros row Hget. unfold pgame_to_db_game. now rewrite Hget.
  - intros db' row later Hfirst Hid.
    assert (Hget : Pony.get_game (id later) db' = Some row).
    { rewrite Hid.
      destruct (pgame_to_db_game_games _ _ _ _ Hfirst)
        as [[Hget ->] | (Hnone & Hgames & Hrow & _)]; [exact Hget|].
      unfold Pony.get_game in *. rewrite Hgames.
      now apply get_game_app. }
    unfold pgame_to_db_game. now rewrite Hget.
Qed.

Lemma C10_existing_game_is_returned_witness :
  exists db' row,
    pgame_to_db_game Sample.session (Sample.record 5 "A Game") = Ok (db', row)
    /\ g_title row = "A Game"
    /\ pgame_to_db_game db' (Sample.record 5 "Another Title") = Ok (db', row)
    /\ pgame_to_db_game db' (Sample.record 5 "A Game") = Ok (db', row).
Proof.
  eexists. eexists.
  split; [vm_compute; reflexivity|].
  split; [reflexivity|].
  split.
  - apply (proj2 (C10_existing_game_is_returned Sample.session
                    (Sample.record 5 "A Game")) _ _ (Sample.record 5 "Another Title"));
      [vm_compute; reflexivity | reflexivity].
  - apply (proj1 (C10_existing_game_is_returned _ (Sample.record 5 "A Game"))).
    vm_compute. reflexivity.
Defined.

(** ** The unresolved byline (C4) *)

Lemma get_none_by_name (n : string) (t : list Entry) :
  (forall e, In e t -> e_name e <> n) -> Pony.get (Pony.by_name n) t = Ok None.
Proof.
  intros H. unfold Pony.get.
  replace (filter (Pony.by_name n) t) with (@nil Entry); [reflexivity|].
  induction t as [|e t IH]; simpl; [reflexivity|].
  unfold Pony.by_name at 1.
  destruct (String.eqb_spec (e_name e) n) as [Heq|_].
  - exfalso. apply (H e); [now left | exact Heq].
  - apply IH. intros e' He'. apply H. now right.
Qed.

Lemma write_games_app (g1 g2 : list (option PGame)) :
  forall db, write_games (g1 ++ g2) db = (db1 <- write_games g1 db ;; write_games g2 db1).
Proof.
  induction g1 as [|[g|] g1 IH]; simpl; intros db; auto.
  destruct (pgame_to_db_game db g) as [[db1 row]|]; simpl; auto.
Qed.

Lemma write_games_keeps_absent (i : Z) (gs : list (option PGame)) :
  (forall g, In (Some g) gs -> id g <> i) ->
  forall db final,
    write_games gs db = Ok final ->
    Pony.get_game i db = None -> Pony.get_game i final = None.
Proof.
  induction gs as [|[g|] gs IH]; simpl; intros Hids db final H Hnone.
  - inversion H; subst; assumption.
  - destruct (pgame_to_db_game db g) as [[db1 row]|] eqn:E; simpl in H; [|discriminate].
    apply (IH (fun g' Hg' => Hids g' (or_intror Hg')) db1 final H).
    destruct (pgame_to_db_game_games _ _ _ _ E)
      as [[_ ->] | (_ & Hgames & Hrow & _)]; [exact Hnone|].
    unfold Pony.get_game in *. rewrite Hgames, (find_app_none _ _ _ Hnone). simpl.
    destruct (Z.eqb_spec (g_id row) i) as [Heq|]; [|reflexivity].
    exfalso. apply (Hids g); [now left | congruence].
  - apply (IH (fun g' Hg' => Hids g' (or_intror Hg')) db final H Hnone).
Qed.

Section Byline.

Variable arrow_get : string -> string -> option datetime.
Variable urljoin : string -> option string -> string.
Variable markup : Soup.node -> string.

Lemma build_pgame_id (game_id : Z) (data : Data) (g : PGame) :
  build_pgame game_id data = Ok g -> id g = game_id.
Proof.
  unfold build_pgame. destruct (data_get "id" data); [discriminate|]. intros H.
  repeat match type of H with
         | bind ?m _ = Ok _ => destruct m; simpl in H; [|discriminate]
         end.
  now inversion H.
Qed.

Lemma parse_game_page_id (db : Database) (game_id : Z) (item reviews_soup : Soup.node)
  (g : PGame) :
  parse_game_page arrow_get urljoin markup db game_id item reviews_soup = Ok (Some g) ->
  id g = game_id.
Proof.
  unfold parse_game_page, parse_rest. intros H.
  destruct (deref _); simpl in H; [|discriminate].
  destruct (parse_authors _ _ _) as [[data|]|]; simpl in H; try discriminate.
  repeat match type of H with
         | bind (bind ?m _) _ = Ok _ => destruct m; simpl in H; [|discriminate]
         end.
  destruct (build_pgame game_id _) as [g'|] eqn:E; simpl in H; [|discriminate].
  inversion H; subst. eapply build_pgame_id; eauto.
Qed.

Lemma parse_games_app (db : Database) (l1 l2 : list (Z * list (string * Soup.node))) :
  parse_games arrow_get urljoin markup db (l1 ++ l2)
  = (g1 <- parse_games arrow_get urljoin markup db l1 ;;
     g2 <- parse_games arrow_get urljoin markup db l2 ;;
     Ok (g1 ++ g2)).
Proof.
  induction l1 as [|[game_id data] l1 IH]; simpl.
  - destruct (parse_games _ _ _ db l2); reflexivity.
  - destruct (Py.dict_get "game" data); simpl; [|reflexivity].
    destruct (Py.dict_get "reviews" data); simpl; [|reflexivity].
    destruct (parse_game_page _ _ _ db game_id _ _); simpl; [|reflexivity].
    rewrite IH.
    destruct (parse_games _ _ _ db l1); simpl; [|reflexivity].
    destruct (parse_games _ _ _ db l2); reflexivity.
Qed.

(** The records of a parse loop carry the keys of the pages. *)
Lemma parse_games_ids (db : Database) (pages : list (Z * list (string * Soup.node))) :
  forall gs g,
    parse_games arrow_get urljoin markup db pages = Ok gs ->
    In (Some g) gs -> In (id g) (map fst pages).
Proof.
  induction pages as [|[game_id data] pages IH]; simpl; intros gs g H Hin.
  - inversion H; subst. contradiction.
  - destruct (Py.dict_get "game" data); simpl in H; [|discriminate].
    destruct (Py.dict_get "reviews" data); simpl in H; [|discriminate].
    destruct (parse_game_page _ _ _ db game_id _ _) as [g0|] eqn:E; simpl in H;
      [|discriminate].
    destruct (parse_games _ _ _ db pages) as [gs'|]; simpl in H; [|discriminate].
    inversion H; subst. destruct Hin as [Hhd|Htl].
    + left. subst g0. symmetry. eapply parse_game_page_id; eauto.
    + right. eapply IH; eauto.
Qed.

End Byline.

(** C4.  A game page whose byline has no hyperlink and whose byline
    text, as a slug, is the name of no GameAuthor row is parsed to None:
    no exception is raised, the parse loop goes on with the other games,
    the write loop passes the None over, the cycle ends as it would have
    without that page and no Game row carries the id of the page. *)
Theorem C4_unresolved_byline_is_skipped
  (arrow_get : string -> string -> option datetime)
  (urljoin : string -> option string -> string)
  (markup : Soup.node -> string)
  (db : Database) (game_id : Z) (item reviews_soup t container : Soup.node) :
  Soup.find (by_class "viewgamecontenttitle") item = Some t ->
  Soup.find (by_class "viewgamecontentauthor") item = Some container ->
  Soup.find_all (by_tag "a") container = [] ->
  (forall e, In e (game_authors db) -> e_name e <> byline_author container) ->
  parse_game_page arrow_get urljoin markup db game_id item reviews_soup = Ok None
  /\ (forall before after data session,
        Py.dict_get "game" data = Some item ->
        Py.dict_get "reviews" data = Some reviews_soup ->
        (games <- parse_games arrow_get urljoin markup db
                    (before ++ (game_id, data) :: after) ;;
         write_games games session)
        = (games <- parse_games arrow_get urljoin markup db (before ++ after) ;;
           write_games games session)
        /\ (forall final,
              (games <- parse_games arrow_get urljoin markup db
                          (before ++ (game_id, data) :: after) ;;
               write_games games session) = Ok final ->
              ~ In game_id (map fst (before ++ after)) ->
              Pony.get_game game_id session = None ->
              Pony.get_game game_id final = None)).
Proof.
  intros Htitle Hbyline Hlinks Hunknown.
  assert (Hparse : parse_game_page arrow_get urljoin markup db game_id item reviews_soup
                   = Ok None).
  { unfold parse_game_page, parse_authors. rewrite Htitle, Hbyline. simpl.
    rewrite Hlinks. unfold author_by_name, Pony.get_by_name, Pony.required.
    rewrite byline_author_stripped.
    destruct (String.eqb (byline_author container) ""); [reflexivity|]. simpl.
    rewrite (get_none_by_name _ _ Hunknown). reflexivity. }
  split; [exact Hparse|].
  intros before after data session Hgame Hreviews.
  assert (Hsame :
    (games <- parse_games arrow_get urljoin markup db
                (before ++ (game_id, data) :: after) ;;
     write_games games session)
    = (games <- parse_games arrow_get urljoin markup db (before ++ after) ;;
       write_games games session)).
  { rewrite !parse_games_app. simpl. rewrite Hgame, Hreviews. simpl. rewrite Hparse.
    simpl.
    destruct (parse_games arrow_get urljoin markup db before) as [g1|]; simpl;
      [|reflexivity].
    destruct (parse_games arrow_get urljoin markup db after) as [g2|]; simpl;
      [|reflexivity].
    rewrite !write_games_app. simpl. reflexivity. }
  split; [exact Hsame|].
  intros final Hrun Hfresh Hnone. rewrite Hsame in Hrun.
  destruct (parse_games arrow_get urljoin markup db (before ++ after)) as [gs|] eqn:E;
    simpl in Hrun; [|discriminate].
  apply (write_games_keeps_absent game_id gs) with (db := session); auto.
  intros g Hin Hid. apply Hfresh. rewrite <- Hid.
  eapply parse_games_ids; eauto.
Qed.

Lemma C4_unresolved_byline_is_skipped_witness :
  Sample.parse 5 (Sample.byline_page "by Nobody Here") (Sample.reviews_page [])
  = Ok None
  /\ exists final,
       (games <- parse_games Arrow.get Sample.urljoin Sample.markup Sample.session
                   [(4%Z, Sample.fetched Sample.good_page);
                    (5%Z, Sample.fetched (Sample.byline_page "by Nobody Here"));
                    (6%Z, Sample.fetched (Sample.byline_page "by Known Author"))] ;;
        write_games games Sample.session) = Ok final
       /\ map g_id (games final) = [4%Z; 6%Z]
       /\ Pony.get_game 5 final = None.
Proof.
  assert (Hlinks : Soup.find_all (by_tag "a")
                     (Sample.div "viewgamecontentauthor" [Soup.Text "by Nobody Here"]) = [])
    by reflexivity.
  assert (Hunknown : forall e, In e (game_authors Sample.session) ->
                               e_name e <> byline_author
                                 (Sample.div "viewgamecontentauthor"
                                    [Soup.Text "by Nobody Here"])).
  { intros e [<-|[]]. vm_compute. discriminate. }
  split.
  - apply (C4_unresolved_byline_is_skipped Arrow.get Sample.urljoin Sample.markup
             Sample.session 5 (Sample.byline_page "by Nobody Here")
             (Sample.reviews_page [])
             (Sample.div "viewgamecontenttitle" [Soup.Text " A Game "])
             (Sample.div "viewgamecontentauthor" [Soup.Text "by Nobody Here"])
             eq_refl eq_refl Hlinks Hunknown).
  - destruct (C4_unresolved_byline_is_skipped Arrow.get Sample.urljoin Sample.markup
                Sample.session 5 (Sample.byline_page "by Nobody Here")
                (Sample.reviews_page [Sample.jane_block])
                (Sample.div "viewgamecontenttitle" [Soup.Text " A Game "])
                (Sample.div "viewgamecontentauthor" [Soup.Text "by Nobody Here"])
                eq_refl eq_refl Hlinks Hunknown) as [_ Hloop].
    destruct (Hloop [(4%Z, Sample.fetched Sample.good_page)]
                    [(6%Z, Sample.fetched (Sample.byline_page "by Known Author"))]
                    (Sample.fetched (Sample.byline_page "by Nobody Here"))
                    Sample.session eq_refl eq_refl) as [Hsame Habsent].
    eexists. split; [|split].
    + vm_compute. reflexivity.
    + vm_compute. reflexivity.
    + apply Habsent.
      * vm_compute. reflexivity.
      * simpl. intros [H|[H|[]]]; discriminate.
      * reflexivity.
Defined.

(** ** The cap on the listing (C7) *)

Lemma leb_total (a : string) : forall b, Py.leb a b = true \/ Py.leb b a = true.
Proof.
  induction a as [|c a IH]; intros [|d b]; simpl; auto.
  destruct (Nat.ltb_spec (Py.ord c) (Py.ord d)); auto.
  destruct (Nat.ltb_spec (Py.ord d) (Py.ord c)); auto.
Qed.

Lemma leb_trans (a : string) :
  forall b c, Py.leb a b = true -> Py.leb b c = true -> Py.leb a c = true.
Proof.
  induction a as [|x a IH]; intros [|y b] [|z c]; simpl; auto; try discriminate.
  destruct (Nat.ltb_spec (Py.ord x) (Py.ord y)),
           (Nat.ltb_spec (Py.ord y) (Py.ord x)),
           (Nat.ltb_spec (Py.ord y) (Py.ord z)),
           (Nat.ltb_spec (Py.ord z) (Py.ord y)),
           (Nat.ltb_spec (Py.ord x) (Py.ord z)),
           (Nat.ltb_spec (Py.ord z) (Py.ord x));
    try discriminate; try lia; auto.
  apply IH.
Qed.

Lemma insert_sorted_perm (x : string) (l : list string) :
  Permutation (x :: l) (Py.insert_sorted x l).
Proof.
  induction l as [|y l IH]; simpl; [reflexivity|].
  destruct (Py.leb y x); [|reflexivity].
  rewrite perm_swap. now apply perm_skip.
Qed.

Lemma sorted_perm (l : list string) : Permutation l (Py.sorted l).
Proof.
  induction l as [|x l IH]; simpl; [reflexivity|].
  rewrite <- insert_sorted_perm. now apply perm_skip.
Qed.

Lemma insert_sorted_sorted (x : string) (l : list string) :
  StronglySorted le_str l -> StronglySorted le_str (Py.insert_sorted x l).
Proof.
  induction 1 as [|y l Hs IH Hall]; simpl.
  - repeat constructor.
  - destruct (Py.leb y x) eqn:E.
    + constructor; [exact IH|].
      rewrite <- insert_sorted_perm. constructor; [exact E | exact Hall].
    + assert (Hxy : le_str x y) by (destruct (leb_total x y); [assumption|congruence]).
      constructor; [now constructor|].
      constructor; [exact Hxy|].
      eapply Forall_impl; [|exact Hall]. intros z Hz. eapply leb_trans; eauto.
Qed.

Lemma sorted_sorted (l : list string) : StronglySorted le_str (Py.sorted l).
Proof.
  induction l as [|x l IH]; simpl; [constructor | now apply insert_sorted_sorted].
Qed.

Lemma sorted_firstn_skipn (l : list string) :
  StronglySorted le_str l ->
  forall n x y, In x (firstn n l) -> In y (skipn n l) -> le_str x y.
Proof.
  induction 1 as [|a l Hs IH Hall]; intros [|n] x y Hx Hy; simpl in *;
    try contradiction.
  destruct Hx as [<-|Hx].
  - rewrite Forall_forall in Hall. apply Hall.
    rewrite <- (firstn_skipn n l). apply in_or_app. now right.
  - eapply IH; eauto.
Qed.

Lemma sorted_firstn (l : list string) (n : nat) :
  StronglySorted le_str l -> StronglySorted le_str (firstn n l).
Proof.
  intros H. revert n. induction H as [|a l Hs IH Hall]; intros [|n]; simpl;
    try constructor; auto.
  rewrite Forall_forall in *. intros x Hx. apply Hall.
  rewrite <- (firstn_skipn n l). apply in_or_app. now left.
Qed.

Lemma link_tasks_urls (urls : list string) :
  forall tasks,
    link_tasks urls = Ok tasks ->
    map task_url (filter is_game_task tasks) = urls
    /\ length tasks = 2 * length urls
    /\ Forall (fun t => game_id_of (task_url t) = Ok (fst (fst t)))
              (filter is_game_task tasks).
Proof.
  induction urls as [|url rest IH]; simpl; intros tasks H.
  - inversion H. repeat split; constructor.
  - destruct (game_id_of url) as [game_id|] eqn:E; simpl in H; [|discriminate].
    destruct (link_tasks rest) as [ts|]; simpl in H; [|discriminate].
    inversion H; subst. destruct (IH ts eq_refl) as (Hu & Hl & Hf).
    simpl. rewrite Hu, Hl. repeat split; try lia.
    constructor; [exact E | exact Hf].
Qed.

Lemma link_tasks_total (urls : list string) :
  Forall (fun url => is_ok (game_id_of url) = true) urls ->
  exists tasks, link_tasks urls = Ok tasks.
Proof.
  induction 1 as [|url rest Hurl _ [ts IH]]; simpl.
  - now eexists.
  - destruct (game_id_of url); [|discriminate]. simpl. rewrite IH. simpl. now eexists.
Qed.

(** C7.  When more links are discovered than the cap of 100, the urls
    that go on to the fetch stage are the first 100 of the links in
    ascending order: there are exactly 100 of them, they and the links left
    out make up the discovered links, they are in ascending order, none of
    them sorts after a link left out and they are distinct when the
    discovered links are; the fetch list holds for each of
    them, in that order, the task of its game page and the task of its
    reviews page. *)
Theorem C7_cap_keeps_lowest_urls (game_links : list string) :
  CAP < length game_links ->
  let selected := firstn CAP (Py.sorted game_links) in
  let left_out := skipn CAP (Py.sorted game_links) in
  CAP = 100
  /\ length selected = CAP
  /\ Permutation game_links (selected ++ left_out)
  /\ StronglySorted le_str selected
  /\ (forall x y, In x selected -> In y left_out -> le_str x y)
  /\ (NoDup game_links -> NoDup selected)
  /\ (forall tasks,
        all_links game_links = Ok tasks ->
        map task_url (filter is_game_task tasks) = selected
        /\ length tasks = 2 * CAP
        /\ Forall (fun t => game_id_of (task_url t) = Ok (fst (fst t)))
                  (filter is_game_task tasks))
  /\ (Forall (fun url => is_ok (game_id_of url) = true) game_links ->
      exists tasks, all_links game_links = Ok tasks).
Proof.
  intros Hlen selected left_out.
  assert (Hlen' : length selected = CAP).
  { unfold selected. rewrite length_firstn.
    rewrite <- (Permutation_length (sorted_perm game_links)). lia. }
  split; [reflexivity|]. split; [exact Hlen'|]. split.
  { unfold selected, left_out. rewrite firstn_skipn. apply sorted_perm. }
  split; [apply sorted_firstn, sorted_sorted|]. split.
  { intros x y. apply sorted_firstn_skipn, sorted_sorted. }
  split.
  { intros Hnd.
    assert (Hall : NoDup (selected ++ left_out)).
    { unfold selected, left_out. rewrite firstn_skipn.
      apply (Permutation_NoDup (sorted_perm game_links) Hnd). }
    apply (NoDup_app_remove_r _ _ Hall). }
  split.
  - intros tasks H. unfold all_links in H. fold selected in H.
    destruct (link_tasks_urls _ _ H) as (Hu & Hl & Hf).
    rewrite Hlen' in Hl. auto.
  - intros Hids. apply link_tasks_total.
    rewrite Forall_forall in *. intros url Hin. apply Hids.
    apply (Permutation_in url (Permutation_sym (sorted_perm game_links))).
    rewrite <- (firstn_skipn CAP (Py.sorted game_links)). apply in_or_app. now left.
Qed.

Lemma C7_cap_keeps_lowest_urls_witness :
  length (firstn CAP (Py.sorted (Sample.links 150))) = 100
  /\ (forall x y, In x (firstn CAP (Py.sorted (Sample.links 150))) ->
                  In y (skipn CAP (Py.sorted (Sample.links 150))) -> le_str x y)
  /\ exists tasks,
       all_links (Sample.links 150) = Ok tasks
       /\ length tasks = 200
       /\ map task_url (filter is_game_task tasks)
          = firstn 100 (Py.sorted (Sample.links 150)).
Proof.
  assert (Hlen : CAP < length (Sample.links 150)).
  { unfold Sample.links, CAP. rewrite length_map, length_seq. lia. }
  destruct (C7_cap_keeps_lowest_urls (Sample.links 150) Hlen)
    as (_ & Hn & _ & _ & Hlow & _ & Htasks & Htotal).
  split; [exact Hn|]. split; [exact Hlow|].
  destruct Htotal as [tasks Ht].
  { apply Forall_forall. apply forallb_forall. vm_compute. reflexivity. }
  exists tasks. destruct (Htasks tasks Ht) as (Hu & Hl & _).
  split; [exact Ht|]. split; [exact Hl | exact Hu].
Defined.

(** ** The cycle (C1, C2) *)

Lemma accepted_in (gs : list (option PGame)) (g : PGame) :
  In g (accepted gs) <-> In (Some g) gs.
Proof.
  induction gs as [|[g0|] gs IH]; simpl; [tauto| |].
  - rewrite IH. split; intros [H|H]; auto; left; congruence.
  - rewrite IH. split; [auto|]. intros [H|H]; [discriminate|auto].
Qed.

Lemma zdict_set_keys {V : Type} (k : Z) (v : V) (d : list (Z * V)) :
  NoDup (map fst d) ->
  NoDup (map fst (zdict_set k v d))
  /\ (forall j, In j (map fst (zdict_set k v d)) -> j = k \/ In j (map fst d)).
Proof.
  induction d as [|[k' v'] d IH]; simpl; intros Hnd.
  - split; [constructor; [intros [] | constructor]|].
    intros j [Hj|[]]. left. congruence.
  - inversion Hnd as [|? ? Hnotin Hnd']; subst.
    destruct (Z.eqb_spec k k') as [->|Hne]; simpl.
    + split; [now constructor | tauto].
    + destruct (IH Hnd') as [IH1 IH2]. split.
      * constructor; [|exact IH1]. intros Hin.
        destruct (IH2 _ Hin); [congruence|contradiction].
      * intros j [Hj|Hj]; [tauto|]. destruct (IH2 _ Hj); tauto.
Qed.

Lemma collect_pages_keys (w : World) (done : list (Z * string * string)) :
  forall pages pages',
    NoDup (map fst pages) ->
    collect_pages w done pages = Ok pages' ->
    NoDup (map fst pages').
Proof.
  induction done as [|[[game_id typ] url] rest IH]; simpl; intros pages pages' Hnd H.
  - now inversion H; subst.
  - destruct (page_response w url); simpl in H; [|discriminate].
    eapply IH; [|exact H]. now apply zdict_set_keys.
Qed.

Lemma get_game_in (i : Z) (db : Database) (row : DbGame) :
  Pony.get_game i db = Some row -> In i (map g_id (games db)).
Proof.
  unfold Pony.get_game. intros H. apply find_some in H. destruct H as [Hin Hid].
  apply Z.eqb_eq in Hid. subst i. now apply in_map.
Qed.

(** The write loop on records of distinct fresh ids adds one row for each
    record, in order. *)
Lemma write_games_rows (gs : list (option PGame)) :
  forall db final,
    NoDup (map id (accepted gs)) ->
    (forall g, In g (accepted gs) -> ~ In (id g) (map g_id (games db))) ->
    write_games gs db = Ok final ->
    exists rows, games final = games db ++ rows /\ Forall2 row_of rows (accepted gs).
Proof.
  induction gs as [|[g|] gs IH]; simpl; intros db final Hnd Hfresh H.
  - inversion H; subst. exists []. split; [now rewrite app_nil_r | constructor].
  - destruct (pgame_to_db_game db g) as [[db1 row]|] eqn:E; simpl in H; [|discriminate].
    inversion Hnd as [|? ? Hnotin Hnd']; subst.
    destruct (pgame_to_db_game_games _ _ _ _ E)
      as [[Hget _] | (_ & Hgames & Hrow & Hbuilt)].
    + exfalso. apply (Hfresh g); [now left | eapply get_game_in; eauto].
    + destruct (IH db1 final Hnd') as (rows & Hfinal & Hrows); [|exact H|].
      * intros g' Hg'. rewrite Hgames, map_app, in_app_iff. simpl.
        intros [Hold|[Hnew|[]]].
        -- apply (Hfresh g'); [now right | exact Hold].
        -- apply Hnotin. rewrite <- Hrow, Hnew. now apply in_map.
      * exists (row :: rows). split.
        -- rewrite Hfinal, Hgames, <- app_assoc. reflexivity.
        -- constructor; [exact Hbuilt | exact Hrows].
  - eapply IH; eauto.
Qed.

Section Cycle.

Variable arrow_get : string -> string -> option datetime.
Variable urljoin : string -> option string -> string.
Variable markup : Soup.node -> string.

Lemma parse_category_games (html : Soup.node) (name : string) (k : taxonomy)
  (db : Database) :
  games (fst (parse_category html name k db)) = games db.
Proof.
  unfold parse_category. destruct (category_items _ _ _). destruct k; reflexivity.
Qed.

Lemma fetch_all_categories_games (w : World) (urls : list (string * taxonomy)) :
  forall db, games (fetch_all_categories w urls db) = games db.
Proof.
  induction urls as [|[name k] rest IH]; simpl; intros db; [reflexivity|].
  destruct (category_response w name); [|apply IH].
  rewrite IH. apply parse_category_games.
Qed.

Lemma parse_games_nodup (db : Database) (pages : list (Z * list (string * Soup.node))) :
  forall gs,
    NoDup (map fst pages) ->
    parse_games arrow_get urljoin markup db pages = Ok gs ->
    NoDup (map id (accepted gs)).
Proof.
  induction pages as [|[game_id data] pages IH]; simpl; intros gs Hnd H.
  - inversion H; subst. constructor.
  - inversion Hnd as [|? ? Hnotin Hnd']; subst.
    destruct (Py.dict_get "game" data); simpl in H; [|discriminate].
    destruct (Py.dict_get "reviews" data); simpl in H; [|discriminate].
    destruct (parse_game_page _ _ _ db game_id _ _) as [g0|] eqn:E; simpl in H;
      [|discriminate].
    destruct (parse_games _ _ _ db pages) as [gs'|] eqn:E'; simpl in H; [|discriminate].
    inversion H; subst. specialize (IH gs' Hnd' eq_refl).
    destruct g0 as [g|]; simpl; [|exact IH].
    constructor; [|exact IH]. intros Hin. apply Hnotin.
    apply parse_game_page_id in E. rewrite <- E.
    apply in_map_iff in Hin. destruct Hin as (g' & Hid & Hg').
    rewrite <- Hid. eapply parse_games_ids; eauto. now apply accepted_in.
Qed.

Lemma crawl_games_nodup (w : World) (db : Database) (gs : list (option PGame)) :
  crawl_games arrow_get urljoin markup w db = Ok gs ->
  NoDup (map id (accepted gs)).
Proof.
  unfold crawl_games. intros H.
  destruct (index_response w) as [[status html]|]; simpl in H; [|discriminate].
  destruct (negb (Z.eqb status 200)); [discriminate|].
  destruct (game_links_of _ html); simpl in H; [|discriminate].
  destruct (all_links _) as [links|]; simpl in H; [|discriminate].
  destruct (collect_pages w _ []) as [pages|] eqn:E; simpl in H; [|discriminate].
  eapply parse_games_nodup; [|exact H].
  eapply collect_pages_keys; [|exact E]. constructor.
Qed.

End Cycle.

(** C2 (as the code has it).  When the search POST answers with a status
    other than 200, the cycle raises before any page is fetched and before
    any game is written, and nothing of the session is committed; the
    tables were dropped when the cycle started, so readers find the empty
    catalog afterwards, not the catalog of the cycle before. *)
Theorem C2_index_failure_aborts
  (arrow_get : string -> string -> option datetime)
  (urljoin : string -> option string -> string)
  (markup : Soup.node -> string)
  (w : World) (prior : Database) (status : Z) (html : Soup.node) :
  index_response w = Ok (status, html) ->
  status <> 200%Z ->
  (forall db, crawl_games arrow_get urljoin markup w db = Raise StatusError)
  /\ crawl_tfgs arrow_get urljoin markup w prior = ([prior; empty_db], Some StatusError)
  /\ persisted (crawl_tfgs arrow_get urljoin markup w prior) = empty_db.
Proof.
  intros Hindex Hstatus.
  assert (Hgames : forall db,
             crawl_games arrow_get urljoin markup w db = Raise StatusError).
  { intros db. unfold crawl_games. rewrite Hindex. simpl.
    destruct (Z.eqb_spec status 200); [contradiction|reflexivity]. }
  assert (Hrun : crawl_tfgs arrow_get urljoin markup w prior
                 = ([prior; empty_db], Some StatusError)).
  { unfold crawl_tfgs, crawl_session. now rewrite Hgames. }
  split; [exact Hgames|]. split; [exact Hrun|]. now rewrite Hrun.
Qed.

Lemma C2_index_failure_aborts_witness :
  Sample.crawl 500 = ([Sample.prior; empty_db], Some StatusError)
  /\ persisted (Sample.crawl 500) = empty_db.
Proof.
  destruct (C2_index_failure_aborts Arrow.get Sample.urljoin Sample.markup
              (Sample.world 500) Sample.prior 500 (Sample.index_page [6; 4; 5])%Z
              eq_refl) as (_ & Hrun & Hlast).
  - discriminate.
  - split; [exact Hrun | exact Hlast].
Defined.

(** C2 (as stated) fails: after a search POST answered with status 500
    the catalog of the cycle before, which held a game, is gone. *)
Lemma C2_prior_catalog_is_lost :
  snd (Sample.crawl 500) = Some StatusError
  /\ map g_id (games Sample.prior) = [99%Z]
  /\ games (persisted (Sample.crawl 500)) = []
  /\ persisted (Sample.crawl 500) <> Sample.prior.
Proof.
  split; [vm_compute; reflexivity|]. split; [reflexivity|].
  split; [vm_compute; reflexivity|].
  intros H. apply (f_equal games) in H. vm_compute in H. discriminate.
Qed.

(** C1 (as the code has it).  A cycle that completes leaves a catalog
    whose Game rows are, in order, the rows built from the records accepted
    in that cycle, one row for each record and no two rows of the same id;
    the catalog does not depend on the catalog of the cycle before.  The
    replacement is not one transition for readers: the tables are dropped
    when the cycle starts, and between that moment and the commit at the
    end readers observe the empty catalog. *)
Theorem C1_catalog_after_cycle
  (arrow_get : string -> string -> option datetime)
  (urljoin : string -> option string -> string)
  (markup : Soup.node -> string)
  (w : World) (prior : Database) (states : list Database) :
  crawl_tfgs arrow_get urljoin markup w prior = (states, None) ->
  exists parsed final,
    crawl_games arrow_get urljoin markup w
      (fetch_all_categories w categories empty_db) = Ok parsed
    /\ states = [prior; empty_db; final]
    /\ Forall2 row_of (games final) (accepted parsed)
    /\ map g_id (games final) = map id (accepted parsed)
    /\ NoDup (map g_id (games final))
    /\ (forall prior',
          crawl_tfgs arrow_get urljoin markup w prior'
          = ([prior'; empty_db; final], None)).
Proof.
  assert (Hrun : forall p,
             crawl_tfgs arrow_get urljoin markup w p
             = match (games <- crawl_games arrow_get urljoin markup w
                                 (fetch_all_categories w categories empty_db) ;;
                      write_games games (fetch_all_categories w categories empty_db)) with
               | Ok db => ([p; empty_db; db], None)
               | Raise e => ([p; empty_db], Some e)
               end) by reflexivity.
  rewrite Hrun.
  assert (Hempty : games (fetch_all_categories w categories empty_db) = [])
    by apply fetch_all_categories_games.
  remember (fetch_all_categories w categories empty_db) as db0 eqn:Hdb0.
  destruct (crawl_games arrow_get urljoin markup w db0) as [parsed|] eqn:Hparsed;
    cbn [bind]; [|discriminate].
  destruct (write_games parsed db0) as [final|] eqn:Hsession; [|discriminate].
  intros H. inversion H; subst states. clear H.
  exists parsed, final. split; [reflexivity|]. split; [reflexivity|].
  pose proof (crawl_games_nodup _ _ _ _ _ _ Hparsed) as Hnd.
  destruct (write_games_rows parsed db0 final Hnd) as (rows & Hfinal & Hrows);
    [|exact Hsession|].
  { intros g _. rewrite Hempty. simpl. tauto. }
  rewrite Hempty in Hfinal. simpl in Hfinal. subst rows.
  assert (Hids : map g_id (games final) = map id (accepted parsed)).
  { clear - Hrows. induction Hrows as [|row g rows gs [session Hrow] _ IH]; simpl;
      [reflexivity|].
    rewrite IH. f_equal. eapply game_row_id; eauto. }
  split; [exact Hrows|]. split; [exact Hids|]. split; [now rewrite Hids|].
  intros prior'. rewrite Hrun. cbn [bind]. now rewrite Hsession.
Qed.

Lemma C1_catalog_after_cycle_witness :
  exists final,
    Sample.crawl 200 = ([Sample.prior; empty_db; final], None)
    /\ map g_id (games final) = [6%Z; 4%Z]
    /\ NoDup (map g_id (games final)).
Proof.
  destruct (C1_catalog_after_cycle Arrow.get Sample.urljoin Sample.markup
              (Sample.world 200) Sample.prior (fst (Sample.crawl 200)))
    as (parsed & final & Hparsed & Hstates & _ & Hids & Hnd & Hany).
  - vm_compute. reflexivity.
  - exists final. split; [apply (Hany Sample.prior)|]. split; [|exact Hnd].
    rewrite Hids.
    assert (Hp : Ok parsed
                 = crawl_games Arrow.get Sample.urljoin Sample.markup (Sample.world 200)
                     (fetch_all_categories (Sample.world 200) categories
                        empty_db)) by (symmetry; exact Hparsed).
    vm_compute in Hp. inversion Hp. reflexivity.
Defined.

(** C1 (as stated) fails: in a cycle that completes, on a catalog that
    held a game, readers observe a catalog without any game before they
    observe the new one. *)
Lemma C1_reader_sees_empty_catalog :
  snd (Sample.crawl 200) = None
  /\ map g_id (games Sample.prior) = [99%Z]
  /\ map g_id (games (persisted (Sample.crawl 200))) = [6%Z; 4%Z]
  /\ exists before after,
       fst (Sample.crawl 200) = before ++ empty_db :: after
       /\ before <> [] /\ after <> []
       /\ games empty_db = [].
Proof.
  split; [vm_compute; reflexivity|]. split; [reflexivity|].
  split; [vm_compute; reflexivity|].
  exists [Sample.prior]. eexists. split; [vm_compute; reflexivity|].
  repeat split; discriminate.
Qed.

(** * Further properties *)

(** ** parse_category and fetch_all_categories *)

Lemma taxonomy_eq_dec (k k' : taxonomy) : {k = k'} + {k <> k'}.
Proof. decide equality. Defined.

Lemma table_set_table (k : taxonomy) (t : list Entry) (db : Database) :
  table k (set_table k t db) = t.
Proof. destruct k; reflexivity. Qed.

Lemma set_table_same_but (k : taxonomy) (t : list Entry) (db : Database) :
  same_but k db (set_table k t db).
Proof.
  repeat split; try (destruct k; reflexivity).
  intros k' Hne. destruct k, k'; try reflexivity; congruence.
Qed.

Lemma set_table_twice (k : taxonomy) (t : list Entry) (db : Database) :
  set_table k t (set_table k t db) = set_table k t db.
Proof. destruct k; reflexivity. Qed.

Lemma create_spec (i : Z) (n : string) (t t' : list Entry) :
  Pony.create i n t = Ok t' ->
  t' = t ++ [mkEntry i (Py.strip n)]
  /\ Py.strip n <> ""
  /\ ~ In i (map e_id t).
Proof.
  unfold Pony.create, Pony.required.
  destruct (String.eqb_spec (Py.strip n) ""); simpl; [discriminate|].
  destruct (existsb (Pony.by_id i) t) eqn:E; [discriminate|].
  intros H. inversion H; subst. repeat split; auto.
  intros Hin. apply in_map_iff in Hin. destruct Hin as (e & He & Hin).
  assert (Ht : existsb (Pony.by_id i) t = true).
  { apply existsb_exists. exists e. split; [exact Hin|].
    unfold Pony.by_id. rewrite He. apply Z.eqb_refl. }
  congruence.
Qed.

Lemma nodup_snoc {A : Type} (l : list A) (x : A) :
  NoDup l -> ~ In x l -> NoDup (l ++ [x]).
Proof.
  intros Hnd Hx. induction Hnd as [|y l Hy Hnd IH]; simpl.
  - constructor; [intros []|constructor].
  - constructor.
    + rewrite in_app_iff. simpl. intros [H|[H|[]]]; [contradiction|].
      apply Hx. now left.
    + apply IH. intros H. apply Hx. now right.
Qed.

(** The rows a run of the loop adds. *)
Lemma category_items_spec (name : string) (items : list Soup.node) :
  forall t t' e,
    category_items name items t = (t', e) ->
    exists added,
      t' = t ++ added
      /\ Forall (fun r => exists item n,
                   In item items
                   /\ category_item name item = Ok (e_id r, n)
                   /\ e_name r = Py.strip n /\ e_name r <> "") added
      /\ (NoDup (map e_id t) -> NoDup (map e_id t'))
      /\ (e = None -> length added = length items).
Proof.
  induction items as [|item rest IH]; simpl; intros t t' e H.
  - inversion H; subst. exists []. rewrite app_nil_r. repeat split; auto.
  - destruct (category_item name item) as [[i n]|] eqn:Hitem; simpl in H.
    + destruct (Pony.create i n t) as [t1|] eqn:Hcreate.
      * destruct (create_spec _ _ _ _ Hcreate) as (-> & Hname & Hfresh).
        destruct (IH _ _ _ H) as (added & -> & Hrows & Hnd & Hlen).
        exists (mkEntry i (Py.strip n) :: added). rewrite <- app_assoc. simpl.
        split; [reflexivity|]. split; [|split].
        -- constructor.
           ++ exists item, n. simpl. repeat split; auto.
           ++ eapply Forall_impl; [|exact Hrows]. simpl.
              intros r (it & n0 & Hin & Hrest). exists it, n0. split; auto.
        -- intros Ht.
           replace (t ++ mkEntry i (Py.strip n) :: added)
             with ((t ++ [mkEntry i (Py.strip n)]) ++ added)
             by (rewrite <- app_assoc; reflexivity).
           apply Hnd. rewrite map_app. simpl.
           apply nodup_snoc; assumption.
        -- intros He. simpl. now rewrite (Hlen He).
      * inversion H; subst. exists []. rewrite app_nil_r.
        repeat split; auto. discriminate.
    + inversion H; subst. exists []. rewrite app_nil_r.
      repeat split; auto. discriminate.
Qed.

Lemma parse_category_table (html : Soup.node) (name : string) (k : taxonomy)
  (db : Database) :
  table k (fst (parse_category html name k db))
  = fst (category_items name (browse_items html) (table k db))
  /\ same_but k db (fst (parse_category html name k db)).
Proof.
  unfold parse_category. fold (browse_items html).
  destruct (category_items name (browse_items html) (table k db)) as [t e]. simpl.
  split; [apply table_set_table | apply set_table_same_but].
Qed.

(** X1.  [parse_category] leaves every other table as it was and only
    appends to the table of its taxonomy: each row it adds carries the id
    read from the link of an item and the stripped slug of its text, which
    is not empty; when no exception stops the loop there is one row for
    each item; ids that were distinct stay distinct. *)
Theorem X1_parse_category_appends
  (html : Soup.node) (name : string) (k : taxonomy) (db : Database) :
  same_but k db (fst (parse_category html name k db))
  /\ (exists added,
        table k (fst (parse_category html name k db)) = table k db ++ added
        /\ Forall (fun r => exists item n,
                     In item (browse_items html)
                     /\ category_item name item = Ok (e_id r, n)
                     /\ e_name r = Py.strip n /\ e_name r <> "") added
        /\ (snd (parse_category html name k db) = None ->
            length added = length (browse_items html)))
  /\ (NoDup (map e_id (table k db)) ->
      NoDup (map e_id (table k (fst (parse_category html name k db))))).
Proof.
  destruct (parse_category_table html name k db) as [Ht Hsame].
  split; [exact Hsame|]. rewrite Ht.
  unfold parse_category. fold (browse_items html).
  destruct (category_items name (browse_items html) (table k db)) as [t e] eqn:E.
  destruct (category_items_spec _ _ _ _ _ E) as (added & -> & Hrows & Hnd & Hlen).
  simpl. split; [|exact Hnd]. exists added. auto.
Qed.

Lemma X1_parse_category_appends_witness :
  table GameAuthor
    (fst (parse_category
            (Sample.category_page "author" [(4%Z, "Some One"); (8%Z, "Other One")])
            "author" GameAuthor Sample.session))
  = [mkEntry 3 "known_author"; mkEntry 4 "some_one"; mkEntry 8 "other_one"]
  /\ NoDup (map e_id
              (table GameAuthor
                 (fst (parse_category
                         (Sample.category_page "author" [(4%Z, "A"); (8%Z, "B")])
                         "author" GameAuthor Sample.session)))).
Proof.
  split; [vm_compute; reflexivity|].
  apply (X1_parse_category_appends
           (Sample.category_page "author" [(4%Z, "A"); (8%Z, "B")])
           "author" GameAuthor Sample.session).
  simpl. constructor; [intros []|constructor].
Defined.

(** X2.  A browse page cannot be parsed twice into one session: after a
    run that created a row for every item of a page that has items, a
    second run on the same page stops at the first item, whose id is
    taken, and changes nothing. *)
Theorem X2_parse_category_twice
  (html : Soup.node) (name : string) (k : taxonomy) (db db1 : Database) :
  parse_category html name k db = (db1, None) ->
  browse_items html <> [] ->
  parse_category html name k db1 = (db1, Some DatabaseError).
Proof.
  unfold parse_category. fold (browse_items html).
  destruct (browse_items html) as [|item rest]; [congruence|]. intros H _.
  destruct (category_items name (item :: rest) (table k db)) as [t e] eqn:E.
  inversion H; subst. clear H. rewrite table_set_table.
  simpl in E. simpl.
  destruct (category_item name item) as [[i n]|]; simpl in *; [|discriminate].
  destruct (Pony.create i n (table k db)) as [t0|] eqn:Hcreate; [|discriminate].
  destruct (create_spec _ _ _ _ Hcreate) as (-> & Hname & _).
  destruct (category_items_spec _ _ _ _ _ E) as (added & -> & _).
  assert (Hdup : Pony.create i n ((table k db ++ [mkEntry i (Py.strip n)]) ++ added)
                 = Raise DatabaseError).
  { unfold Pony.create, Pony.required.
    destruct (String.eqb_spec (Py.strip n) ""); [contradiction|]. simpl.
    rewrite !existsb_app. simpl. unfold Pony.by_id at 2. simpl.
    rewrite Z.eqb_refl, orb_true_r. reflexivity. }
  rewrite Hdup. now rewrite set_table_twice.
Qed.

Lemma X2_parse_category_twice_witness :
  exists db1,
    parse_category (Sample.category_page "engine" [(1%Z, "Twine"); (2%Z, "Unity")])
      "engine" GameEngine empty_db = (db1, None)
    /\ game_engines db1 = [mkEntry 1 "twine"; mkEntry 2 "unity"]
    /\ parse_category (Sample.category_page "engine" [(1%Z, "Twine"); (2%Z, "Unity")])
         "engine" GameEngine db1 = (db1, Some DatabaseError).
Proof.
  eexists. split; [vm_compute; reflexivity|]. split; [reflexivity|].
  apply (X2_parse_category_twice _ "engine" GameEngine empty_db).
  - vm_compute. reflexivity.
  - vm_compute. discriminate.
Defined.

Lemma fetch_all_categories_skips (w : World) (k : taxonomy)
  (urls : list (string * taxonomy)) :
  ~ In k (map snd urls) ->
  forall db, table k (fetch_all_categories w urls db) = table k db.
Proof.
  induction urls as [|[name k0] rest IH]; simpl; intros Hk db; [reflexivity|].
  assert (Hne : k <> k0) by (intros ->; apply Hk; now left).
  assert (Hrest : ~ In k (map snd rest)) by (intros H; apply Hk; now right).
  destruct (category_response w name) as [html|]; rewrite (IH Hrest); [|reflexivity].
  now apply (proj2 (parse_category_table html name k0 db)).
Qed.

(** The table of a taxonomy after the fetch of all of them. *)
Lemma fetch_all_categories_table (w : World) (name : string) (k : taxonomy)
  (urls : list (string * taxonomy)) :
  NoDup (map snd urls) ->
  In (name, k) urls ->
  forall db,
    table k (fetch_all_categories w urls db)
    = match category_response w name with
      | Ok html => fst (category_items name (browse_items html) (table k db))
      | Raise _ => table k db
      end.
Proof.
  induction urls as [|[name0 k0] rest IH]; simpl; intros Hnd Hin db; [contradiction|].
  inversion Hnd as [|? ? Hk0 Hnd']; subst.
  destruct Hin as [Heq|Hin].
  - inversion Heq; subst.
    destruct (category_response w name) as [html|];
      rewrite (fetch_all_categories_skips w k rest Hk0); [|reflexivity].
    apply (proj1 (parse_category_table html name k db)).
  - assert (Hne : k <> k0).
    { intros ->. apply Hk0. apply in_map_iff. now exists (name, k0). }
    destruct (category_response w name0) as [html0|]; rewrite (IH Hnd' Hin); auto.
    now rewrite (proj1 (proj2 (parse_category_table html0 name0 k0 db)) k Hne).
Qed.

Lemma categories_distinct : NoDup (map snd categories).
Proof.
  simpl. repeat constructor; simpl; intuition discriminate.
Qed.

(** X3.  The table of a taxonomy after [fetch_all_categories] depends on
    the answer to the request of that taxonomy only: the answers, parse
    errors and failures of the other five do not change it, and a request
    that fails leaves the table as it was.  No Game row is touched. *)
Theorem X3_taxonomies_are_isolated
  (w : World) (name : string) (k : taxonomy) (db : Database) :
  In (name, k) categories ->
  (forall w',
     category_response w' name = category_response w name ->
     table k (fetch_all_categories w' categories db)
     = table k (fetch_all_categories w categories db))
  /\ (is_ok (category_response w name) = false ->
      table k (fetch_all_categories w categories db) = table k db)
  /\ games (fetch_all_categories w categories db) = games db.
Proof.
  intros Hin. split; [|split].
  - intros w' Hsame.
    rewrite !(fetch_all_categories_table _ name k categories categories_distinct Hin).
    now rewrite Hsame.
  - intros Hfail.
    rewrite (fetch_all_categories_table _ name k categories categories_distinct Hin).
    destruct (category_response w name); [discriminate|reflexivity].
  - apply fetch_all_categories_games.
Qed.

Lemma X3_taxonomies_are_isolated_witness :
  table GameAuthor (fetch_all_categories (Sample.world 200) categories empty_db)
  = [mkEntry 3 "known_author"]
  /\ table AdultTheme (fetch_all_categories (Sample.world 200) categories empty_db) = []
  /\ table GameAuthor (fetch_all_categories (Sample.world 500) categories empty_db)
     = table GameAuthor (fetch_all_categories (Sample.world 200) categories empty_db).
Proof.
  split; [vm_compute; reflexivity|]. split.
  - apply (X3_taxonomies_are_isolated (Sample.world 200) "adult" AdultTheme empty_db).
    + simpl. auto.
    + reflexivity.
  - apply (X3_taxonomies_are_isolated (Sample.world 200) "author" GameAuthor empty_db).
    + simpl. auto 10.
    + reflexivity.
Defined.

(** ** A cycle without engines or ratings *)

Lemma game_row_needs_references (db : Database) (game : PGame) :
  game_engines db = [] \/ content_ratings db = [] ->
  is_ok (game_row db game) = false.
Proof.
  intros H. unfold game_row, Pony.get_by_name.
  destruct H as [H|H]; rewrite H.
  - destruct (Pony.required (game_engine game)); simpl; [|reflexivity].
    repeat match goal with
           | |- is_ok (bind ?m _) = false => destruct m; simpl; try reflexivity
           end.
  - destruct (bind (Pony.required (game_engine game)) _) as [engine|]; simpl;
      [|reflexivity].
    destruct (Pony.required (content_rating game)); simpl; [|reflexivity].
    repeat match goal with
           | |- is_ok (bind ?m _) = false => destruct m; simpl; try reflexivity
           end.
Qed.

Lemma write_games_needs_references (gs : list (option PGame)) (db : Database) :
  game_engines db = [] \/ content_ratings db = [] ->
  games db = [] ->
  accepted gs <> [] ->
  is_ok (write_games gs db) = false.
Proof.
  intros Href Hgames. induction gs as [|[g|] gs IH]; simpl; intros Hacc.
  - congruence.
  - unfold pgame_to_db_game, Pony.get_game. rewrite Hgames. cbn [List.find].
    destruct (ensure_authors (authors g) (game_authors db)) as [t|]; cbn [bind];
      [|reflexivity].
    assert (Hrow : is_ok (game_row (set_table GameAuthor t db) g) = false).
    { apply game_row_needs_references. destruct db; exact Href. }
    destruct (game_row (set_table GameAuthor t db) g); [discriminate|reflexivity].
  - apply IH. exact Hacc.
Qed.

(** X4.  The failure of the engine request or of the rating request does
    not stop the fetch of the taxonomies, but it fails the cycle later:
    with no GameEngine row (or no ContentRating row) in the session the
    first accepted record cannot be written, the exception leaves the
    session and readers are left with the empty catalog. *)
Theorem X4_missing_references_fail_the_cycle
  (arrow_get : string -> string -> option datetime)
  (urljoin : string -> option string -> string)
  (markup : Soup.node -> string)
  (w : World) (prior : Database) (parsed : list (option PGame)) :
  is_ok (category_response w "engine") = false
  \/ is_ok (category_response w "rating") = false ->
  crawl_games arrow_get urljoin markup w (fetch_all_categories w categories empty_db)
  = Ok parsed ->
  accepted parsed <> [] ->
  exists e, crawl_tfgs arrow_get urljoin markup w prior = ([prior; empty_db], Some e).
Proof.
  intros Hfail Hparsed Hacc.
  assert (Href : game_engines (fetch_all_categories w categories empty_db) = []
                 \/ content_ratings (fetch_all_categories w categories empty_db) = []).
  { destruct Hfail as [H|H]; [left|right].
    - change (table GameEngine (fetch_all_categories w categories empty_db) = []).
      rewrite (fetch_all_categories_table w "engine" GameEngine categories
                 categories_distinct); [|simpl; auto].
      destruct (category_response w "engine"); [discriminate|reflexivity].
    - change (table ContentRating (fetch_all_categories w categories empty_db) = []).
      rewrite (fetch_all_categories_table w "rating" ContentRating categories
                 categories_distinct); [|simpl; auto].
      destruct (category_response w "rating"); [discriminate|reflexivity]. }
  pose proof (write_games_needs_references parsed _ Href
                (fetch_all_categories_games w categories empty_db) Hacc) as Hwrite.
  assert (Hrun : crawl_tfgs arrow_get urljoin markup w prior
                 = match (games <- crawl_games arrow_get urljoin markup w
                                     (fetch_all_categories w categories empty_db) ;;
                          write_games games (fetch_all_categories w categories empty_db))
                   with
                   | Ok db => ([prior; empty_db; db], None)
                   | Raise e => ([prior; empty_db], Some e)
                   end) by reflexivity.
  rewrite Hrun, Hparsed. cbn [bind].
  destruct (write_games parsed (fetch_all_categories w categories empty_db)) as [db|e];
    [discriminate|]. now exists e.
Qed.

Lemma X4_missing_references_fail_the_cycle_witness :
  exists e,
    crawl_tfgs Arrow.get Sample.urljoin Sample.markup Cases.world_without_engines
      Sample.prior
    = ([Sample.prior; empty_db], Some e).
Proof.
  eapply X4_missing_references_fail_the_cycle.
  - left. reflexivity.
  - vm_compute. reflexivity.
  - simpl. discriminate.
Defined.

(** ** The byline with hyperlinks *)

Lemma authors_of_set_author (k : string) (v : Z) (data : Data) :
  authors_of (set_author k v data) = Py.dict_set k v (authors_of data).
Proof.
  unfold set_author, authors_of at 1, data_get, data_set.
  now rewrite dict_get_set_same.
Qed.

Lemma set_author_other (k0 k : string) (v : Z) (data : Data) :
  k0 <> "authors" -> data_get k0 (set_author k v data) = data_get k0 data.
Proof. intros H. unfold set_author, data_get, data_set. now apply dict_get_set_other. Qed.

Lemma dict_get_set_cases {V : Type} (k k' : string) (v v' : V) (d : list (string * V)) :
  Py.dict_get k (Py.dict_set k' v' d) = Some v ->
  (k = k' /\ v = v') \/ Py.dict_get k d = Some v.
Proof.
  destruct (String.eqb_spec k k') as [->|Hne].
  - rewrite dict_get_set_same. intros H. inversion H. now left.
  - rewrite (dict_get_set_other _ _ _ _ Hne). now right.
Qed.

Lemma dict_get_set_keeps {V : Type} (k k' : string) (v' : V) (d : list (string * V)) :
  Py.dict_get k d <> None -> Py.dict_get k (Py.dict_set k' v' d) <> None.
Proof.
  destruct (String.eqb_spec k k') as [->|Hne].
  - rewrite dict_get_set_same. discriminate.
  - now rewrite (dict_get_set_other _ _ _ _ Hne).
Qed.

Lemma author_links_spec (links : list Soup.node) :
  forall data,
    (forall k, k <> "authors" ->
               data_get k (author_links links data) = data_get k data)
    /\ (forall k v,
          Py.dict_get k (authors_of (author_links links data)) = Some v ->
          Py.dict_get k (authors_of data) = Some v
          \/ exists link, In link links /\ Py.slug (Soup.text link) = k
                          /\ Py.int_after "u=" (Soup.get "href" link) = Ok v)
    /\ (forall k, Py.dict_get k (authors_of data) <> None ->
                  Py.dict_get k (authors_of (author_links links data)) <> None)
    /\ (forall link, In link links -> has_author_id link = true ->
                     Py.dict_get (Py.slug (Soup.text link))
                       (authors_of (author_links links data)) <> None)
    /\ ((forall link, In link links -> has_author_id link = false) ->
        author_links links data = data).
Proof.
  induction links as [|link rest IH]; intros data; simpl.
  - repeat split; auto; intros link [].
  - unfold has_author_id in *.
    destruct (Py.int_after "u=" (Soup.get "href" link)) as [n|e] eqn:E.
    + destruct (IH (set_author (Py.slug (Soup.text link)) n data))
        as (Hother & Hfrom & Hkeep & Hlinks & _).
      split; [|split; [|split; [|split]]].
      * intros k Hk. rewrite (Hother k Hk). now apply set_author_other.
      * intros k v Hget. destruct (Hfrom k v Hget) as [Hold|(l & Hin & Hl)].
        -- rewrite authors_of_set_author in Hold.
           destruct (dict_get_set_cases _ _ _ _ _ Hold) as [[-> ->]|Hold'];
             [right; exists link; auto | now left].
        -- right. exists l. tauto.
      * intros k Hk. apply Hkeep. rewrite authors_of_set_author.
        now apply dict_get_set_keeps.
      * intros l [<-|Hin] Hl; [|now apply Hlinks].
        apply Hkeep. rewrite authors_of_set_author, dict_get_set_same. discriminate.
      * intros Hnone. specialize (Hnone link (or_introl eq_refl)).
        rewrite E in Hnone. discriminate.
    + destruct (IH data) as (Hother & Hfrom & Hkeep & Hlinks & Hsame).
      split; [exact Hother|]. split; [|split; [exact Hkeep|split]].
      * intros k v Hget. destruct (Hfrom k v Hget) as [Hold|(l & Hin & Hl)];
          [now left | right; exists l; tauto].
      * intros l [<-|Hin] Hl; [rewrite E in Hl; discriminate | now apply Hlinks].
      * intros Hnone. apply Hsame; auto.
Qed.

(** X5.  When the byline contains hyperlinks the page is never discarded
    at this step and no author row is looked up: [parse_authors] returns a
    dict whatever the session holds.  Every author it adds is the slug of
    the text of a link with the id read after [u=] in its href; every link
    with a readable id has its slug among the authors; links without one
    are passed over, so a byline whose links all lack an id leaves the
    authors as they were (empty, for a fresh page). *)
Theorem X5_byline_links
  (db : Database) (item container : Soup.node) (data : Data) :
  Soup.find (by_class "viewgamecontentauthor") item = Some container ->
  Soup.find_all (by_tag "a") container <> [] ->
  let links := Soup.find_all (by_tag "a") container in
  exists data',
    parse_authors db item data = Ok (Some data')
    /\ (forall db', parse_authors db' item data = Ok (Some data'))
    /\ (forall k, k <> "authors" -> data_get k data' = data_get k data)
    /\ (forall k v,
          Py.dict_get k (authors_of data') = Some v ->
          Py.dict_get k (authors_of data) = Some v
          \/ exists link, In link links /\ Py.slug (Soup.text link) = k
                          /\ Py.int_after "u=" (Soup.get "href" link) = Ok v)
    /\ (forall link, In link links -> has_author_id link = true ->
                     Py.dict_get (Py.slug (Soup.text link)) (authors_of data') <> None)
    /\ ((forall link, In link links -> has_author_id link = false) -> data' = data).
Proof.
  intros Hbyline Hlinks links. subst links.
  remember (Soup.find_all (by_tag "a") container) as links eqn:Hl.
  exists (author_links links data).
  assert (Hrun : forall db', parse_authors db' item data
                             = Ok (Some (author_links links data))).
  { intros db'. unfold parse_authors. rewrite Hbyline. simpl. rewrite <- Hl.
    destruct links; [congruence|reflexivity]. }
  destruct (author_links_spec links data) as (Hother & Hfrom & _ & Hin & Hsame).
  split; [apply Hrun|]. split; [exact Hrun|]. split; [exact Hother|].
  split; [exact Hfrom|]. split; [exact Hin|]. intros H. apply Hsame; auto.
Qed.

Lemma X5_byline_links_witness :
  exists data',
    parse_authors empty_db
      (Sample.game_page
         [Sample.a "memberlist.php?mode=viewprofile&u=7" "Some Author";
          Sample.a "/about" "Guest Writer"] [] [])
      initial_data = Ok (Some data')
    /\ authors_of data' = [("some_author", 7%Z)].
Proof.
  destruct (X5_byline_links empty_db
              (Sample.game_page
                 [Sample.a "memberlist.php?mode=viewprofile&u=7" "Some Author";
                  Sample.a "/about" "Guest Writer"] [] [])
              (Sample.div "viewgamecontentauthor"
                 [Sample.a "memberlist.php?mode=viewprofile&u=7" "Some Author";
                  Sample.a "/about" "Guest Writer"])
              initial_data eq_refl) as (data' & Hrun & _).
  - discriminate.
  - exists data'. split; [exact Hrun|].
    vm_compute in Hrun. inversion Hrun. reflexivity.
Defined.

(** ** Themes *)






(** ** The links of the downloads section *)

Lemma total_links_append (key : string) (link : Link) (vs : list (string * list Link)) :
  let old := match Py.dict_get key vs with Some l => l | None => [] end in
  total_links (Py.dict_set key (old ++ [link]) vs) = S (total_links vs)
  /\ (forall key0 l, Py.dict_get key0 vs = Some l ->
        exists l', Py.dict_get key0 (Py.dict_set key (old ++ [link]) vs) = Some (l ++ l')).
Proof.
  intros old. split.
  - unfold old. clear old. induction vs as [|[k l] vs IH]; simpl; [reflexivity|].
    destruct (String.eqb key k); simpl.
    + rewrite length_app. simpl. lia.
    + rewrite IH. lia.
  - intros key0 l Hget. destruct (String.eqb_spec key0 key) as [->|Hne].
    + rewrite dict_get_set_same. unfold old. rewrite Hget. now exists [link].
    + rewrite (dict_get_set_other _ _ _ _ Hne), Hget. exists []. now rewrite app_nil_r.
Qed.

Lemma append_link_spec (key : string) (link : Link) (data : Data)
  (vs : list (string * list Link)) :
  data_get "versions" data = Some (VVersions vs) ->
  exists data' vs',
    append_link key link data = Ok data'
    /\ data_get "versions" data' = Some (VVersions vs')
    /\ total_links vs' = S (total_links vs)
    /\ (forall key0 l, Py.dict_get key0 vs = Some l ->
          exists l', Py.dict_get key0 vs' = Some (l ++ l'))
    /\ (forall k, k <> "versions" -> data_get k data' = data_get k data).
Proof.
  intros Hvs. unfold append_link. rewrite Hvs.
  destruct (total_links_append key link vs) as [Htotal Hkeep].
  eexists. eexists. split; [reflexivity|]. split.
  { unfold data_get, data_set. apply dict_get_set_same. }
  split; [exact Htotal|]. split; [exact Hkeep|].
  intros k Hk. unfold data_get, data_set. now apply dict_get_set_other.
Qed.

Lemma download_blocks_spec (urljoin : string -> option string -> string)
  (containers : list Soup.node) :
  forall version data vs version' data',
    data_get "versions" data = Some (VVersions vs) ->
    download_blocks urljoin containers version data = Ok (version', data') ->
    exists vs',
      data_get "versions" data' = Some (VVersions vs')
      /\ total_links vs' = total_links vs + length (filter is_file_block containers)
      /\ (forall key l, Py.dict_get key vs = Some l ->
            exists l', Py.dict_get key vs' = Some (l ++ l'))
      /\ (forall k, k <> "versions" -> data_get k data' = data_get k data).
Proof.
  induction containers as [|container rest IH]; simpl;
    intros version data vs version' data' Hvs H.
  - inversion H; subst. exists vs. split; [exact Hvs|]. split; [lia|].
    split; [|reflexivity]. intros key l Hl. exists []. now rewrite app_nil_r.
  - unfold is_file_block at 1.
    destruct (Soup.has_name "center" container); simpl.
    + now apply (IH _ _ _ _ _ Hvs H).
    + destruct (Soup.has_name "div" container); simpl.
      * destruct (file_block urljoin container) as [link|]; simpl in H; [|discriminate].
        destruct (version_key version data) as [key|]; simpl in H; [|discriminate].
        destruct (append_link_spec key link data vs Hvs)
          as (data1 & vs1 & Happ & Hvs1 & Htotal & Hkeep & Hother).
        rewrite Happ in H. simpl in H.
        destruct (IH _ _ _ _ _ Hvs1 H) as (vs' & Hvs' & Htotal' & Hkeep' & Hother').
        exists vs'. split; [exact Hvs'|]. split; [lia|]. split.
        -- intros key0 l Hl. destruct (Hkeep key0 l Hl) as [l1 Hl1].
           destruct (Hkeep' key0 _ Hl1) as [l2 Hl2]. exists (l1 ++ l2).
           now rewrite app_assoc.
        -- intros k Hk. now rewrite (Hother' k Hk), (Hother k Hk).
      * now apply (IH _ _ _ _ _ Hvs H).
Qed.

(** X7.  When the loop over the downloads section ends without an
    exception, every file block has added exactly one link: the number of
    links filed under all versions has grown by the number of [div]
    children; the links filed before are still there, in the same order at
    the head of their lists; no key of [data] but [versions] has changed. *)
Theorem X7_one_link_per_file_block
  (urljoin : string -> option string -> string)
  (containers : list Soup.node) (version version' : option string)
  (data data' : Data) (vs : list (string * list Link)) :
  data_get "versions" data = Some (VVersions vs) ->
  download_blocks urljoin containers version data = Ok (version', data') ->
  exists vs',
    data_get "versions" data' = Some (VVersions vs')
    /\ total_links vs' = total_links vs + length (filter is_file_block containers)
    /\ (forall key l, Py.dict_get key vs = Some l ->
          exists l', Py.dict_get key vs' = Some (l ++ l'))
    /\ (forall k, k <> "versions" -> data_get k data' = data_get k data).
Proof. apply download_blocks_spec. Qed.

Lemma X7_one_link_per_file_block_witness :
  exists version' data' vs',
    download_blocks Sample.urljoin
      [Sample.version_header "1.0"; Sample.file "http://host/a.zip";
       Soup.Text " "; Sample.file "http://host/b.zip";
       Sample.version_header "0.9"; Sample.file "http://host/old.zip"]
      None initial_data = Ok (version', data')
    /\ version' = Some "0.9"
    /\ data_get "versions" data' = Some (VVersions vs')
    /\ total_links vs' = 3
    /\ map fst vs' = ["1.0"; "0.9"].
Proof.
  eexists. eexists.
  destruct (X7_one_link_per_file_block Sample.urljoin
              [Sample.version_header "1.0"; Sample.file "http://host/a.zip";
               Soup.Text " "; Sample.file "http://host/b.zip";
               Sample.version_header "0.9"; Sample.file "http://host/old.zip"]
              None _ initial_data _ [] eq_refl ltac:(vm_compute; reflexivity))
    as (vs' & Hvs & Htotal & _).
  exists vs'. split; [reflexivity|]. split; [reflexivity|].
  split; [exact Hvs|]. split; [exact Htotal|].
  vm_compute in Hvs. inversion Hvs. reflexivity.
Defined.

(** ** The tabs *)

Lemma parse_tabs_spec (markup : Soup.node -> string) (item : Soup.node)
  (ids : list nat) :
  forall data data',
    parse_tabs markup item ids data = Ok data' ->
    (forall k, data_get k data <> None -> data_get k data' <> None)
    /\ (forall k, same_or_section k data data')
    /\ (forall i tab, In i ids ->
          Soup.find (Soup.has_attr "id" (tab_id i)) item = Some tab ->
          exists a t h,
            tab_anchor item i = Some a
            /\ data_get (Py.lower (Soup.text a)) data' = Some (VSection t h))
    /\ ((forall i, In i ids -> Soup.find (Soup.has_attr "id" (tab_id i)) item = None) ->
        data' = data).
Proof.
  induction ids as [|i rest IH]; cbn [parse_tabs]; intros data data' H.
  - inversion H; subst. split; [auto|]. split; [now left|]. split; [intros ? ? []|auto].
  - destruct (Soup.find (Soup.has_attr "id" (tab_id i)) item) as [tab|] eqn:Etab.
    + change (Soup.find (fun n => by_tag "a" n
                                  && Soup.has_attr "href" ("#" ++ tab_id i) n) item)
        with (tab_anchor item i) in H.
      destruct (tab_anchor item i) as [a|] eqn:Ea; cbn [deref bind] in H;
        [|discriminate].
      destruct (IH _ _ H) as (Hkeep & Hsame & Htabs & _).
      split; [|split; [|split]].
      * intros k Hk. apply Hkeep. unfold data_get, data_set.
        now apply dict_get_set_keeps.
      * intros k. destruct (Hsame k) as [Heq|Hsec]; [|now right].
        destruct (String.eqb_spec k (Py.lower (Soup.text a))) as [->|Hne].
        -- right. rewrite Heq. unfold data_get, data_set.
           rewrite dict_get_set_same. eauto.
        -- left. rewrite Heq. unfold data_get, data_set.
           now apply dict_get_set_other.
      * intros j tab' [<-|Hin] Hfind.
        -- exists a. destruct (Hsame (Py.lower (Soup.text a))) as [Heq|(t & h & Hsec)].
           ++ rewrite Heq. unfold data_get, data_set. rewrite dict_get_set_same. eauto.
           ++ eauto.
        -- now apply (Htabs j tab').
      * intros Hnone. specialize (Hnone i (or_introl eq_refl)). congruence.
    + destruct (IH _ _ H) as (Hkeep & Hsame & Htabs & Hnone).
      split; [exact Hkeep|]. split; [exact Hsame|]. split.
      * intros j tab' [<-|Hin] Hfind; [congruence | now apply (Htabs j tab')].
      * intros Hall. apply Hnone. intros j Hj. apply Hall. now right.
Qed.



(** ** What a stage of parse_game_page leaves alone *)

Section Frames.

Variable arrow_get : string -> string -> option datetime.

Ltac not_info_key Hk := intros ->; apply Hk; simpl; tauto.

Lemma info_box_frame (k : string) (box : Soup.node) (data data' : Data) :
  ~ In k info_keys ->
  info_box arrow_get box data = Ok data' ->
  data_get k data' = data_get k data.
Proof.
  intros Hk. unfold info_box.
  destruct (Soup.find (by_class "viewgameitemleft") box) as [l|]; simpl;
    [|discriminate].
  destruct (Soup.find (by_class "viewgameitemright") box) as [r|]; simpl.
  - repeat match goal with
           | |- (if String.eqb ?a ?b then _ else _) = _ -> _ =>
               destruct (String.eqb a b)
           end;
      try (intros H; inversion H; subst; unfold data_get, data_set;
           apply dict_get_set_other; not_info_key Hk);
      try (intros H; inversion H; subst; apply set_date_get_other; not_info_key Hk);
      try (apply theme_links_get_other; not_info_key Hk);
      try congruence.
    + destruct (Py.int (Soup.text r)); simpl; intros H; inversion H; subst.
      unfold data_get, data_set. apply dict_get_set_other. not_info_key Hk.
    + destruct (Soup.find (by_tag "a") r); simpl; intros H; inversion H; subst.
      unfold data_get, data_set. apply dict_get_set_other. not_info_key Hk.
  - repeat match goal with
           | |- (if String.eqb ?a ?b then _ else _) = _ -> _ =>
               destruct (String.eqb a b)
           end; try discriminate.
    intros H; now inversion H.
Qed.

Lemma info_boxes_frame (k : string) (boxes : list Soup.node) :
  ~ In k info_keys ->
  forall data data', info_boxes arrow_get boxes data = Ok data' ->
    data_get k data' = data_get k data.
Proof.
  intros Hk. induction boxes as [|box rest IH]; simpl; intros data data' H.
  - now inversion H.
  - destruct (info_box arrow_get box data) as [d1|] eqn:E; simpl in H; [|discriminate].
    rewrite (IH _ _ H). eapply info_box_frame; eauto.
Qed.

Lemma parse_info_frame (k : string) (item : Soup.node) (data data' : Data) :
  ~ In k info_keys ->
  parse_info arrow_get item data = Ok data' ->
  data_get k data' = data_get k data.
Proof.
  intros Hk. unfold parse_info.
  destruct (Py.index _ 0); simpl; [|discriminate]. now apply info_boxes_frame.
Qed.

Lemma parse_play_frame (k : string) (item : Soup.node) (data data' : Data) :
  k <> "play_online" ->
  parse_play item data = Ok data' ->
  data_get k data' = data_get k data.
Proof.
  intros Hk. unfold parse_play.
  destruct (Soup.find (Soup.has_attr "id" "play") item); [|intros H; now inversion H].
  destruct (Soup.find (by_tag "form") n); simpl; intros H; inversion H; subst.
  unfold data_get, data_set. now apply dict_get_set_other.
Qed.

Lemma append_review_frame (r : PReview) (data data' : Data) :
  append_review r data = Ok data' ->
  (forall k, k <> "reviews" -> data_get k data' = data_get k data)
  /\ exists rs, data_get "reviews" data = Some (VReviews rs).
Proof.
  unfold append_review.
  destruct (data_get "reviews" data) as [[]|] eqn:E; intros H; inversion H; subst.
  split; [|eauto]. intros k Hk. unfold data_get, data_set.
  now apply dict_get_set_other.
Qed.

Lemma review_blocks_frame (blocks : list Soup.node) :
  forall i data data',
    review_blocks arrow_get i blocks data = Ok data' ->
    (forall k, k <> "reviews" -> data_get k data' = data_get k data)
    /\ (forall t h, data_get "reviews" data = Some (VSection t h) ->
                    data_get "reviews" data' = Some (VSection t h))
    /\ Forall (fun jb => is_ok (review_block arrow_get (fst jb) (Soup.text (snd jb)))
                         = true) (enumerate_from i blocks).
Proof.
  induction blocks as [|b rest IH]; intros i data data' H.
  - simpl in H. inversion H; subst. repeat split; auto.
  - rewrite enumerate_from_cons. simpl in H.
    destruct (review_block arrow_get i (Soup.text b)) as [[r|]|] eqn:E; simpl in H;
      [| |discriminate].
    + destruct (append_review r data) as [d1|] eqn:Ea; simpl in H; [|discriminate].
      destruct (append_review_frame _ _ _ Ea) as [Hother [rs Hrs]].
      destruct (IH _ _ _ H) as (Hother' & _ & Hok).
      split; [|split].
      * intros k Hk. now rewrite (Hother' k Hk), (Hother k Hk).
      * intros t h Hsec. congruence.
      * constructor; [simpl; now rewrite E | exact Hok].
    + destruct (IH _ _ _ H) as (Hother' & Hsec & Hok).
      split; [exact Hother'|]. split; [exact Hsec|].
      constructor; [simpl; now rewrite E | exact Hok].
Qed.

Lemma author_links_authors (links : list Soup.node) :
  forall data a,
    data_get "authors" data = Some (VAuthors a) ->
    data_get "authors" (author_links links data)
    = Some (VAuthors (authors_of (author_links links data))).
Proof.
  induction links as [|l links IH]; cbn [author_links]; intros data a Ha.
  - unfold authors_of. now rewrite Ha.
  - destruct (Py.int_after "u=" (Soup.get "href" l)).
    + eapply IH. unfold set_author, data_get, data_set. apply dict_get_set_same.
    + eapply IH; eauto.
Qed.

Lemma parse_authors_frame (db : Database) (item : Soup.node) (data data1 : Data)
  (a : list (string * Z)) :
  data_get "authors" data = Some (VAuthors a) ->
  parse_authors db item data = Ok (Some data1) ->
  (forall k, k <> "authors" -> data_get k data1 = data_get k data)
  /\ data_get "authors" data1 = Some (VAuthors (authors_of data1)).
Proof.
  intros Ha. unfold parse_authors.
  destruct (Soup.find (by_class "viewgamecontentauthor") item) as [container|]; simpl;
    [|discriminate].
  assert (Hset : forall k v d,
             data_get "authors" (set_author k v d)
             = Some (VAuthors (authors_of (set_author k v d)))).
  { intros k v d. rewrite authors_of_set_author. unfold set_author, data_get, data_set.
    apply dict_get_set_same. }
  destruct (Soup.find_all (by_tag "a") container) as [|link rest].
  - destruct (author_by_name db (byline_author container)); intros H; inversion H; subst.
    split; [intros k Hk; now apply set_author_other | apply Hset].
  - intros H. inversion H; subst. clear H.
    split; [apply (author_links_spec (link :: rest) data)|].
    apply (author_links_authors (link :: rest) data a Ha).
Qed.

End Frames.

(** ** The record of a page *)

Lemma build_pgame_fields (game_id : Z) (data : Data) (g : PGame) :
  build_pgame game_id data = Ok g ->
  id g = game_id
  /\ data_get "title" data = Some (VStr (title g))
  /\ data_get "authors" data = Some (VAuthors (authors g))
  /\ opt_reviews_field data = Ok (reviews g)
  /\ opt_dict_field "versions" data = Ok (versions g).
Proof.
  unfold build_pgame. destruct (data_get "id" data); [discriminate|]. intros H.
  destruct (str_field "title" data) as [f1|] eqn:E1; cbn [bind] in H; [|discriminate].
  destruct (authors_field data) as [f2|] eqn:E2; cbn [bind] in H; [|discriminate].
  repeat match type of H with
         | bind ?m _ = Ok _ =>
             let E := fresh "E" in
             destruct m eqn:E; cbn [bind] in H; [|discriminate]
         end.
  inversion H; subst; simpl. split; [reflexivity|].
  unfold str_field in E1. unfold authors_field in E2.
  destruct (data_get "title" data) as [[]|]; try discriminate.
  destruct (data_get "authors" data) as [[]|]; try discriminate.
  inversion E1; inversion E2; subst. auto.
Qed.

Lemma author_links_depends_on_authors (links : list Soup.node) :
  forall data data',
    authors_of data = authors_of data' ->
    authors_of (author_links links data) = authors_of (author_links links data').
Proof.
  induction links as [|l links IH]; cbn [author_links]; intros data data' H; [exact H|].
  destruct (Py.int_after "u=" (Soup.get "href" l)); [|now apply IH].
  apply IH. now rewrite !authors_of_set_author, H.
Qed.

(** X9.  When [parse_game_page] returns a record, the record has the id
    it was called with; its title is the stripped text of the title
    element; its authors are those of the byline (the GameAuthor row of the
    free-text byline, or the links that carry an id); its reviews are the
    reviews of the reviews page, oldest first; and its versions hold one
    link for each file block of the downloads section, unless a tab
    labelled versions replaced them.  No later stage overwrites what an
    earlier one stored under these keys. *)
Theorem X9_record_of_a_page
  (arrow_get : string -> string -> option datetime)
  (urljoin : string -> option string -> string)
  (markup : Soup.node -> string)
  (db : Database) (game_id : Z) (item reviews_soup : Soup.node) (g : PGame) :
  parse_game_page arrow_get urljoin markup db game_id item reviews_soup = Ok (Some g) ->
  id g = game_id
  /\ (exists t, Soup.find (by_class "viewgamecontenttitle") item = Some t
                /\ title g = Py.strip (Soup.text t))
  /\ (exists container,
        Soup.find (by_class "viewgamecontentauthor") item = Some container
        /\ match Soup.find_all (by_tag "a") container with
           | [] => exists i, author_by_name db (byline_author container) = Ok i
                             /\ authors g = [(byline_author container, i)]
           | links => authors g = authors_of (author_links links initial_data)
           end)
  /\ reviews g
     = Some (chronological arrow_get
               (Soup.find_all (by_class "reviewcontent") reviews_soup))
  /\ (exists downloads,
        Soup.find (Soup.has_attr "id" "downloads") item = Some downloads
        /\ ((exists vs, versions g = Some (VVersions vs)
                        /\ total_links vs
                           = length (filter is_file_block (Soup.children downloads)))
            \/ exists t h, versions g = Some (VSection t h))).
Proof.
  unfold parse_game_page.
  destruct (Soup.find (by_class "viewgamecontenttitle") item) as [t|] eqn:Et;
    cbn [deref bind]; [|discriminate].
  remember (data_set "title" (VStr (Py.strip (Soup.text t))) initial_data) as data0
    eqn:Hdata0.
  destruct (parse_authors db item data0) as [[data1|]|] eqn:Ea; cbn [bind];
    try discriminate.
  destruct (parse_rest arrow_get urljoin markup game_id item reviews_soup data1)
    as [g'|] eqn:Er; cbn [bind]; [|discriminate].
  intros H. inversion H; subst g'. clear H.
  unfold parse_rest in Er.
  destruct (parse_info arrow_get item data1) as [d2|] eqn:E2; cbn [bind] in Er;
    [|discriminate].
  destruct (parse_downloads urljoin item d2) as [d3|] eqn:E3; cbn [bind] in Er;
    [|discriminate].
  destruct (parse_tabs markup item [1; 2; 3; 4; 5] d3) as [d4|] eqn:E4;
    cbn [bind] in Er; [|discriminate].
  destruct (parse_play item d4) as [d5|] eqn:E5; cbn [bind] in Er; [|discriminate].
  destruct (parse_reviews arrow_get reviews_soup d5) as [d6|] eqn:E6;
    cbn [bind] in Er; [|discriminate].
  destruct (build_pgame_fields _ _ _ Er) as (Hid & Htitle & Hauthors & Hreviews & Hversions).
  (* the keys of [data0] *)
  assert (H0 : data_get "title" data0 = Some (VStr (Py.strip (Soup.text t)))
               /\ data_get "authors" data0 = Some (VAuthors [])
               /\ data_get "versions" data0 = Some (VVersions [])
               /\ data_get "reviews" data0 = Some (VReviews [])).
  { subst data0. repeat split. }
  destruct H0 as (T0 & A0 & V0 & R0).
  destruct (parse_authors_frame db item data0 data1 [] A0 Ea) as [F1 A1].
  (* the downloads section *)
  unfold parse_downloads in E3.
  destruct (Soup.find (Soup.has_attr "id" "downloads") item) as [downloads|] eqn:Ed;
    [|discriminate].
  destruct (download_blocks urljoin (Soup.children downloads) None d2)
    as [[version' d3']|] eqn:Eb; cbn [bind] in E3; [|discriminate].
  inversion E3; subst d3'. clear E3.
  assert (V2 : data_get "versions" d2 = Some (VVersions [])).
  { rewrite (parse_info_frame arrow_get "versions" item data1 d2); [|simpl; intuition discriminate|exact E2].
    rewrite F1; [exact V0|discriminate]. }
  destruct (download_blocks_spec urljoin _ _ _ _ _ _ V2 Eb)
    as (vs3 & V3 & Htotal & _ & F3).
  destruct (parse_tabs_spec markup item _ _ _ E4) as (_ & F4 & _).
  unfold parse_reviews in E6.
  destruct (review_blocks_frame arrow_get _ _ _ _ E6) as (F6 & S6 & Hok).
  (* a key that no stage but the tabs can touch *)
  assert (Hkey : forall k, ~ In k info_keys -> k <> "versions" -> k <> "play_online" ->
                           k <> "reviews" -> k <> "authors" ->
                           data_get k d6 = data_get k data0
                           \/ exists s h, data_get k d6 = Some (VSection s h)).
  { intros k Hi Hv Hp Hr Ha.
    rewrite (F6 k Hr), (parse_play_frame k item d4 d5 Hp E5).
    destruct (F4 k) as [Heq|Hsec]; [left|now right].
    rewrite Heq, (F3 k Hv), (parse_info_frame arrow_get k item data1 d2 Hi E2).
    now apply F1. }
  split; [exact Hid|]. split; [|split; [|split]].
  - exists t. split; [reflexivity|].
    destruct (Hkey "title") as [Heq|(s & h & Hsec)];
      try discriminate; try (simpl; intuition discriminate).
    + rewrite Htitle, T0 in Heq. now inversion Heq.
    + rewrite Htitle in Hsec. discriminate.
  - assert (Hag : authors g = authors_of data1).
    { rewrite (F6 "authors"), (parse_play_frame "authors" item d4 d5) in Hauthors;
        [|discriminate|exact E5|discriminate].
      destruct (F4 "authors") as [Heq|(s & h & Hsec)]; [|congruence].
      rewrite Heq, (F3 "authors"),
        (parse_info_frame arrow_get "authors" item data1 d2), A1 in Hauthors;
        [|simpl; intuition discriminate|exact E2|discriminate].
      now inversion Hauthors. }
    unfold parse_authors in Ea.
    destruct (Soup.find (by_class "viewgamecontentauthor") item) as [container|];
      cbn [deref bind] in Ea; [|discriminate].
    exists container. split; [reflexivity|].
    destruct (Soup.find_all (by_tag "a") container) as [|link rest].
    + destruct (author_by_name db (byline_author container)) as [i|];
        inversion Ea; subst data1.
      exists i. split; [reflexivity|]. rewrite Hag, authors_of_set_author.
      unfold authors_of. now rewrite A0.
    + inversion Ea; subst data1. rewrite Hag.
      apply (author_links_depends_on_authors (link :: rest) data0 initial_data).
      unfold authors_of. now rewrite A0.
  - assert (R5 : data_get "reviews" d5 = Some (VReviews [])
                 \/ exists s h, data_get "reviews" d5 = Some (VSection s h)).
    { rewrite (parse_play_frame "reviews" item d4 d5); [|discriminate|exact E5].
      destruct (F4 "reviews") as [Heq|Hsec]; [left|now right].
      rewrite Heq, (F3 "reviews"),
        (parse_info_frame arrow_get "reviews" item data1 d2);
        [|simpl; intuition discriminate|exact E2|discriminate].
      rewrite F1; [exact R0|discriminate]. }
    destruct R5 as [R5|(s & h & R5)].
    + destruct (review_blocks_kept arrow_get _ 0 d5 [] R5 Hok) as (d6' & Hrun & Hget).
      rewrite E6 in Hrun. inversion Hrun; subst d6'.
      unfold opt_reviews_field in Hreviews. rewrite Hget in Hreviews.
      inversion Hreviews. reflexivity.
    + unfold opt_reviews_field in Hreviews. rewrite (S6 s h R5) in Hreviews.
      discriminate.
  - exists downloads. split; [reflexivity|].
    unfold opt_dict_field in Hversions.
    rewrite (F6 "versions"), (parse_play_frame "versions" item d4 d5) in Hversions;
      [|discriminate|exact E5|discriminate].
    destruct (F4 "versions") as [Heq|(s & h & Hsec)].
    + left. rewrite Heq, V3 in Hversions. exists vs3.
      split; [now inversion Hversions|]. simpl in Htotal. exact Htotal.
    + right. rewrite Hsec in Hversions. exists s, h. now inversion Hversions.
Qed.

Lemma X9_record_of_a_page_witness :
  exists g,
    Sample.parse 5 Sample.good_page
      (Sample.reviews_page [Sample.jane_block; Sample.older_block]) = Ok (Some g)
    /\ id g = 5%Z
    /\ reviews g
       = Some (chronological Arrow.get
                 (Soup.find_all (by_class "reviewcontent")
                    (Sample.reviews_page [Sample.jane_block; Sample.older_block])))
    /\ map r_author (match reviews g with Some rs => rs | None => [] end)
       = ["Max"; "Jane"].
Proof.
  eexists. split; [vm_compute; reflexivity|].
  match goal with
  | |- id ?g = _ /\ _ =>
      destruct (X9_record_of_a_page Arrow.get Sample.urljoin Sample.markup
                  Sample.session 5 Sample.good_page
                  (Sample.reviews_page [Sample.jane_block; Sample.older_block]) g
                  ltac:(vm_compute; reflexivity))
        as (Hid & _ & _ & Hreviews & _)
  end.
  split; [exact Hid|]. split; [exact Hreviews|]. reflexivity.
Defined.

(** ** The rows of a written game *)

Lemma grows_refl (db : Database) : grows db db [] [] [].
Proof. unfold grows. rewrite !app_nil_r. auto. Qed.

Lemma grows_trans (db1 db2 db3 : Database) nv nd nr nv' nd' nr' :
  grows db1 db2 nv nd nr -> grows db2 db3 nv' nd' nr' ->
  grows db1 db3 (nv ++ nv') (nd ++ nd') (nr ++ nr').
Proof.
  intros (T1 & G1 & V1 & D1 & R1) (T2 & G2 & V2 & D2 & R2). unfold grows.
  rewrite G2, V2, D2, R2, G1, V1, D1, R1, !app_assoc.
  repeat split; auto. intros k. now rewrite T2.
Qed.

Lemma grows_add_version (v : DbVersion) (db : Database) :
  grows db (add_version v db) [v] [] [].
Proof. unfold grows. simpl. rewrite !app_nil_r. repeat split; try now destruct k. Qed.

Lemma grows_add_download (d : DbDownload) (db : Database) :
  grows db (add_download d db) [] [d] [].
Proof. unfold grows. simpl. rewrite !app_nil_r. repeat split; try now destruct k. Qed.

Lemma grows_add_review (r : DbReview) (db : Database) :
  grows db (add_review r db) [] [] [r].
Proof. unfold grows. simpl. rewrite !app_nil_r. repeat split; try now destruct k. Qed.

Lemma download_rows_grows (gv : Z) (downloads : list Link) :
  forall db db',
    download_rows gv downloads db = Ok db' ->
    exists nd,
      grows db db' [] nd []
      /\ Forall (fun d => gd_game_version d = gv) nd
      /\ length nd = length downloads.
Proof.
  induction downloads as [|d rest IH]; simpl; intros db db' H.
  - inversion H; subst. exists []. split; [apply grows_refl|]. split; [constructor|auto].
  - destruct (download_row gv d db) as [db1|] eqn:E; simpl in H; [|discriminate].
    unfold download_row in E.
    destruct (l_delete d); simpl in E; [discriminate|].
    destruct (match l_link d with Some s => Pony.required s | None => Raise DatabaseError end);
      simpl in E; [|discriminate].
    destruct (Pony.required (l_report d)); simpl in E; [|discriminate].
    inversion E; subst db1. clear E.
    destruct (IH _ _ H) as (nd & Hg & Hall & Hlen).
    eexists (_ :: nd). split.
    + apply (grows_trans _ _ _ [] [_] [] [] nd [] (grows_add_download _ db) Hg).
    + split; [constructor; [reflexivity|exact Hall] | simpl; now rewrite Hlen].
Qed.

Lemma version_rows_grows (game_id : Z) (vs : list (string * list Link)) :
  forall db db',
    version_rows game_id vs db = Ok db' ->
    exists nv nd,
      grows db db' nv nd []
      /\ Forall (fun v => gv_game v = game_id) nv
      /\ Forall (fun d => exists v, In v nv /\ gd_game_version d = gv_id v) nd
      /\ length nv = length vs
      /\ length nd = total_links vs.
Proof.
  induction vs as [|[version downloads] rest IH]; simpl; intros db db' H.
  - inversion H; subst. exists [], []. split; [apply grows_refl|].
    repeat split; constructor.
  - unfold version_row in H.
    destruct (Pony.required version) as [v|]; simpl in H; [|discriminate].
    destruct (download_rows _ downloads _) as [db2|] eqn:E; simpl in H; [|discriminate].
    destruct (download_rows_grows _ _ _ _ E) as (nd1 & Hg1 & Hall1 & Hlen1).
    destruct (IH _ _ H) as (nv & nd2 & Hg2 & Hv & Hd & Hlv & Hld).
    set (row := mkDbVersion (Pony.next_id (game_versions db)) v game_id) in *.
    exists (row :: nv), (nd1 ++ nd2). split.
    + apply (grows_trans db db2 db' [row] nd1 [] nv nd2 []); [|exact Hg2].
      apply (grows_trans _ _ _ [row] [] [] [] nd1 [] (grows_add_version row db) Hg1).
    + split; [constructor; [reflexivity|exact Hv]|]. split; [|split].
      * apply Forall_app. split.
        -- eapply Forall_impl; [|exact Hall1]. simpl. intros d Hd1.
           exists row. split; [now left | exact Hd1].
        -- eapply Forall_impl; [|exact Hd]. simpl. intros d (v0 & Hin & Hv0).
           exists v0. split; [now right | exact Hv0].
      * simpl. now rewrite Hlv.
      * rewrite length_app, Hlen1, Hld. reflexivity.
Qed.

Lemma review_rows_grows (game_id : Z) (rs : list PReview) :
  forall db db',
    review_rows game_id rs db = Ok db' ->
    exists nr,
      grows db db' [] [] nr
      /\ Forall (fun r => rv_game r = game_id) nr
      /\ length nr = length rs.
Proof.
  induction rs as [|r rest IH]; simpl; intros db db' H.
  - inversion H; subst. exists []. split; [apply grows_refl|]. split; [constructor|auto].
  - destruct (review_row game_id r db) as [db1|] eqn:E; simpl in H; [|discriminate].
    unfold review_row in E.
    destruct (Pony.required (r_author r)); simpl in E; [|discriminate].
    destruct (Pony.required (r_text r)); simpl in E; [|discriminate].
    destruct (Pony.required (r_version r)); simpl in E; [|discriminate].
    inversion E; subst db1. clear E.
    destruct (IH _ _ H) as (nr & Hg & Hall & Hlen).
    eexists (_ :: nr). split.
    + apply (grows_trans _ _ _ [] [] [_] [] [] nr (grows_add_review _ db) Hg).
    + split; [constructor; [reflexivity|exact Hall] | simpl; now rewrite Hlen].
Qed.

Lemma write_versions_grows (game_id : Z) (versions : option value) (db db' : Database) :
  write_versions game_id versions db = Ok db' ->
  exists nv nd,
    grows db db' nv nd []
    /\ Forall (fun v => gv_game v = game_id) nv
    /\ Forall (fun d => exists v, In v nv /\ gd_game_version d = gv_id v) nd
    /\ (forall vs, versions = Some (VVersions vs) ->
                   length nv = length vs /\ length nd = total_links vs).
Proof.
  unfold write_versions. destruct versions as [[]|]; try discriminate.
  - intros H. destruct (version_rows_grows _ _ _ _ H) as (nv & nd & Hg & Hv & Hd & Hl).
    exists nv, nd. split; [exact Hg|]. split; [exact Hv|]. split; [exact Hd|].
    intros vs Hvs. inversion Hvs; subst. exact Hl.
  - unfold version_row. simpl.
    destruct (negb (String.eqb text "")); [discriminate|].
    destruct (negb (String.eqb html "")); [discriminate|].
    intros H. inversion H; subst. clear H.
    eexists [_; _], []. split.
    + apply (grows_trans _ _ _ [_] [] [] [_] [] [] (grows_add_version _ db)
               (grows_add_version _ _)).
    + split; [repeat constructor|]. split; [constructor|]. discriminate.
Qed.

Lemma pony_get_some {A : Type} (p : A -> bool) (t : list A) (a : A) :
  Pony.get p t = Ok (Some a) -> In a t /\ p a = true.
Proof.
  unfold Pony.get. destruct (filter p t) as [|x [|y l]] eqn:E; try discriminate.
  intros H. inversion H; subst. apply filter_In. rewrite E. now left.
Qed.

Lemma ensure_authors_spec (l : list (string * Z)) :
  forall t t',
    ensure_authors l t = Ok t' ->
    exists added,
      t' = t ++ added
      /\ (forall k v, In (k, v) l ->
            exists e, In e t' /\ e_id e = v /\ e_name e = Py.strip k)
      /\ (NoDup (map e_id t) -> NoDup (map e_id t')).
Proof.
  induction l as [|[k v] rest IH]; simpl; intros t t' H.
  - inversion H; subst. exists []. rewrite app_nil_r. repeat split; auto.
    intros ? ? [].
  - unfold Pony.required in H.
    destruct (String.eqb (Py.strip k) ""); simpl in H; [discriminate|].
    destruct (Pony.get _ t) as [author|] eqn:Eg; simpl in H; [|discriminate].
    destruct author as [e|].
    + simpl in H. destruct (IH _ _ H) as (added & -> & Hrows & Hnd).
      exists added. split; [reflexivity|]. split; [|exact Hnd].
      intros k0 v0 [Heq|Hin]; [|now apply Hrows].
      inversion Heq; subst. destruct (pony_get_some _ _ _ Eg) as [Hin Hp].
      apply andb_prop in Hp. destruct Hp as [Hn Hi].
      exists e. split; [apply in_or_app; now left|].
      unfold Pony.by_id in Hi. unfold Pony.by_name in Hn.
      apply Z.eqb_eq in Hi. apply String.eqb_eq in Hn. auto.
    + destruct (Pony.create v k t) as [t1|] eqn:Ec; simpl in H; [|discriminate].
      destruct (create_spec _ _ _ _ Ec) as (-> & _ & Hfresh).
      destruct (IH _ _ H) as (added & -> & Hrows & Hnd).
      exists (mkEntry v (Py.strip k) :: added). rewrite <- app_assoc. simpl.
      split; [reflexivity|]. split.
      * intros k0 v0 [Heq|Hin].
        -- inversion Heq; subst. exists (mkEntry v0 (Py.strip k0)).
           split; [apply in_or_app; right; now left | auto].
        -- destruct (Hrows k0 v0 Hin) as (e & He & Hrest).
           exists e. rewrite <- app_assoc in He. auto.
      * intros Ht.
        replace (t ++ mkEntry v (Py.strip k) :: added)
          with ((t ++ [mkEntry v (Py.strip k)]) ++ added)
          by (rewrite <- app_assoc; reflexivity).
        apply Hnd. rewrite map_app. simpl. now apply nodup_snoc.
Qed.

Lemma rows_by_id_spec (ids : list Z) (t : list Entry) (r : list Z) :
  rows_by_id ids t = Ok r ->
  r = ids /\ Forall (fun i => In i (map e_id t)) ids.
Proof.
  revert r. induction ids as [|i rest IH]; simpl; intros r H.
  - inversion H. auto.
  - destruct (existsb (Pony.by_id i) t) eqn:E; [|discriminate].
    destruct (rows_by_id rest t) as [r'|]; simpl in H; [|discriminate].
    inversion H; subst. destruct (IH r' eq_refl) as [-> Hall].
    split; [reflexivity|]. constructor; [|exact Hall].
    apply existsb_exists in E. destruct E as (e & Hin & He).
    unfold Pony.by_id in He. apply Z.eqb_eq in He. subst i. now apply in_map.
Qed.

Lemma get_by_name_some (n : string) (t : list Entry) (e : Entry) :
  Pony.get_by_name n t = Ok (Some e) -> In e t /\ e_name e = Py.strip n.
Proof.
  unfold Pony.get_by_name, Pony.required.
  destruct (String.eqb (Py.strip n) ""); simpl; [discriminate|].
  intros H. destruct (pony_get_some _ _ _ H) as [Hin Hp].
  unfold Pony.by_name in Hp. apply String.eqb_eq in Hp. auto.
Qed.

(** The references of the row that [Game(...)] builds. *)
Lemma game_row_references (db : Database) (game : PGame) (row : DbGame) :
  game_row db game = Ok row ->
  g_authors row = map snd (authors game)
  /\ Forall (fun i => In i (map e_id (game_authors db))) (g_authors row)
  /\ (exists e, In e (game_engines db) /\ e_id e = g_engine row
                /\ e_name e = Py.strip (game_engine game))
  /\ (exists e, In e (content_ratings db) /\ e_id e = g_content_rating row
                /\ e_name e = Py.strip (content_rating game))
  /\ Forall (fun i => In i (map e_id (adult_themes db))) (g_adult_themes row)
  /\ Forall (fun i => In i (map e_id (transformation_themes db)))
            (g_transformation_themes row)
  /\ Forall (fun i => In i (map e_id (multimedia_themes db))) (g_multimedia_themes row)
  /\ g_title row = Py.strip (title game)
  /\ g_likes row = likes game
  /\ g_release_date row = release_date game
  /\ g_last_update row = last_update game.
Proof.
  unfold game_row. intros H.
  destruct (Pony.get_by_name (game_engine game) (game_engines db)) as [engine|] eqn:Ee;
    cbn [bind] in H; [|discriminate].
  destruct (Pony.get_by_name (content_rating game) (content_ratings db)) as [rating|]
    eqn:Er; cbn [bind] in H; [|discriminate].
  destruct (theme_ids "adult" (themes game)) as [a|]; cbn [bind] in H; [|discriminate].
  destruct (theme_ids "transformation" (themes game)) as [tr|]; cbn [bind] in H;
    [|discriminate].
  destruct (theme_ids "multimedia" (themes game)) as [mm|]; cbn [bind] in H;
    [|discriminate].
  unfold Pony.required at 1 in H.
  destruct (String.eqb (Py.strip (title game)) ""); cbn [bind] in H; [discriminate|].
  destruct (rows_by_id (map snd (authors game)) (game_authors db)) as [fa|] eqn:Ea;
    cbn [bind] in H; [|discriminate].
  destruct (Pony.required _) as [fv|]; cbn [bind] in H; [|discriminate].
  destruct engine as [e1|]; cbn [bind] in H; [|discriminate].
  destruct rating as [e2|]; cbn [bind] in H; [|discriminate].
  destruct (Pony.required (language game)); cbn [bind] in H; [|discriminate].
  destruct (Pony.required (development_stage game)); cbn [bind] in H; [|discriminate].
  destruct (Pony.optional (orig_pc_gender game)); cbn [bind] in H; [|discriminate].
  destruct (rows_by_id a (adult_themes db)) as [fa1|] eqn:E1; cbn [bind] in H;
    [|discriminate].
  destruct (rows_by_id tr (transformation_themes db)) as [fa2|] eqn:E2;
    cbn [bind] in H; [|discriminate].
  destruct (rows_by_id mm (multimedia_themes db)) as [fa3|] eqn:E3; cbn [bind] in H;
    [|discriminate].
  inversion H; subst; simpl. clear H.
  destruct (rows_by_id_spec _ _ _ Ea) as [-> Ha].
  destruct (rows_by_id_spec _ _ _ E1) as [-> H1].
  destruct (rows_by_id_spec _ _ _ E2) as [-> H2].
  destruct (rows_by_id_spec _ _ _ E3) as [-> H3].
  destruct (get_by_name_some _ _ _ Ee) as [Hie Hne].
  destruct (get_by_name_some _ _ _ Er) as [Hir Hnr].
  repeat split; auto; eauto.
Qed.

(** The tables after the write of a game that is new. *)
Lemma pgame_to_db_game_writes (db db' : Database) (game : PGame) (row : DbGame) :
  pgame_to_db_game db game = Ok (db', row) ->
  Pony.get_game (id game) db = None ->
  exists t nv nd nr,
    ensure_authors (authors game) (game_authors db) = Ok t
    /\ game_row (set_table GameAuthor t db) game = Ok row
    /\ grows (add_game row (set_table GameAuthor t db)) db' nv nd nr
    /\ Forall (fun v => gv_game v = id game) nv
    /\ Forall (fun d => exists v, In v nv /\ gd_game_version d = gv_id v) nd
    /\ Forall (fun r => rv_game r = id game) nr
    /\ (forall rs, reviews game = Some rs -> length nr = length rs)
    /\ (forall vs, versions game = Some (VVersions vs) ->
                   length nv = length vs /\ length nd = total_links vs).
Proof.
  unfold pgame_to_db_game. intros H Hnone. rewrite Hnone in H.
  destruct (ensure_authors (authors game) (game_authors db)) as [t|] eqn:Et;
    cbn [bind] in H; [|discriminate].
  destruct (game_row (set_table GameAuthor t db) game) as [g|] eqn:Eg;
    cbn [bind] in H; [|discriminate].
  destruct (write_versions (id game) (versions game) _) as [db3|] eqn:Ev;
    cbn [bind] in H; [|discriminate].
  destruct (write_reviews (id game) (reviews game) db3) as [db4|] eqn:Er;
    cbn [bind] in H; [|discriminate].
  inversion H; subst db4 g. clear H.
  destruct (write_versions_grows _ _ _ _ Ev) as (nv & nd & Hg1 & Hv & Hd & Hl).
  unfold write_reviews in Er. destruct (reviews game) as [rs|] eqn:Ers; [|discriminate].
  destruct (review_rows_grows _ _ _ _ Er) as (nr & Hg2 & Hr & Hlr).
  exists t, nv, nd, nr. split; [reflexivity|]. split; [exact Eg|]. split.
  { pose proof (grows_trans _ _ _ _ _ _ _ _ _ Hg1 Hg2) as Hg.
    now rewrite !app_nil_r in Hg. }
  split; [exact Hv|]. split; [exact Hd|]. split; [exact Hr|]. split; [|exact Hl].
  intros rs' Hrs. inversion Hrs; subst. exact Hlr.
Qed.

(** X10.  The write of a record whose id is new only appends: the
    engines, ratings and themes are untouched, the GameAuthor, Game,
    GameVersion, GameDownload and Review tables keep their rows and gain
    new ones after them, exactly one Game row among them.  Every new version
    and every new review refers to the game, every new download to one of
    the new versions; there is one review row for each review of the
    record, one version row for each version and one download row for each
    link. *)
Theorem X10_write_appends_and_links_rows
  (db db' : Database) (game : PGame) (row : DbGame) :
  pgame_to_db_game db game = Ok (db', row) ->
  Pony.get_game (id game) db = None ->
  exists na nv nd nr,
    (forall k, k <> GameAuthor -> table k db' = table k db)
    /\ game_authors db' = game_authors db ++ na
    /\ games db' = games db ++ [row]
    /\ game_versions db' = game_versions db ++ nv
    /\ game_downloads db' = game_downloads db ++ nd
    /\ db_reviews db' = db_reviews db ++ nr
    /\ Forall (fun v => gv_game v = id game) nv
    /\ Forall (fun d => exists v, In v nv /\ gd_game_version d = gv_id v) nd
    /\ Forall (fun r => rv_game r = id game) nr
    /\ (forall rs, reviews game = Some rs -> length nr = length rs)
    /\ (forall vs, versions game = Some (VVersions vs) ->
                   length nv = length vs /\ length nd = total_links vs).
Proof.
  intros H Hnone.
  destruct (pgame_to_db_game_writes _ _ _ _ H Hnone)
    as (t & nv & nd & nr & Et & _ & (Ht & Hg & Hv & Hd & Hr) & Hrest).
  destruct (ensure_authors_spec _ _ _ Et) as (na & -> & _).
  exists na, nv, nd, nr. split; [|split].
  - intros k Hk. rewrite Ht.
    destruct k; try reflexivity. congruence.
  - change (table GameAuthor db' = game_authors db ++ na). rewrite Ht. reflexivity.
  - rewrite Hg, Hv, Hd, Hr.
    destruct Hrest as (F1 & F2 & F3 & L1 & L2).
    split; [reflexivity|]. split; [reflexivity|]. split; [reflexivity|].
    split; [reflexivity|]. auto.
Qed.

Lemma X10_write_appends_and_links_rows_witness :
  exists db' row,
    pgame_to_db_game Sample.prior (Sample.record 5 "A Game") = Ok (db', row)
    /\ map g_id (games db') = [99%Z; 5%Z]
    /\ game_engines db' = game_engines Sample.prior
    /\ map gv_game (game_versions db') = [5%Z]
    /\ map gd_game_version (game_downloads db') = map gv_id (game_versions db').
Proof.
  eexists. eexists. split; [vm_compute; reflexivity|].
  match goal with
  | |- map g_id (games ?d) = _ /\ _ =>
      destruct (X10_write_appends_and_links_rows Sample.prior d
                  (Sample.record 5 "A Game") _
                  ltac:(vm_compute; reflexivity) eq_refl)
        as (na & nv & nd & nr & Htax & _ & Hgames & _)
  end.
  split; [rewrite Hgames; reflexivity|].
  split; [apply (Htax GameEngine); discriminate|].
  split; reflexivity.
Defined.

(** X11.  After the write of a record whose id is new, every reference
    of the Game row resolves: the row carries the id of the record and the
    ids of its authors, each author of the record has a GameAuthor row with
    that id and its stripped name (created by the write when it was
    missing), the engine and the rating are rows named like the record's
    slugs, and every theme id is the id of a row of its theme table. *)
Theorem X11_game_row_references_resolve
  (db db' : Database) (game : PGame) (row : DbGame) :
  pgame_to_db_game db game = Ok (db', row) ->
  Pony.get_game (id game) db = None ->
  g_id row = id game
  /\ g_authors row = map snd (authors game)
  /\ (forall k v, In (k, v) (authors game) ->
        exists e, In e (game_authors db') /\ e_id e = v /\ e_name e = Py.strip k)
  /\ (exists e, In e (game_engines db') /\ e_id e = g_engine row
                /\ e_name e = Py.strip (game_engine game))
  /\ (exists e, In e (content_ratings db') /\ e_id e = g_content_rating row
                /\ e_name e = Py.strip (content_rating game))
  /\ Forall (fun i => In i (map e_id (adult_themes db'))) (g_adult_themes row)
  /\ Forall (fun i => In i (map e_id (transformation_themes db')))
            (g_transformation_themes row)
  /\ Forall (fun i => In i (map e_id (multimedia_themes db'))) (g_multimedia_themes row).
Proof.
  intros H Hnone.
  destruct (pgame_to_db_game_writes _ _ _ _ H Hnone)
    as (t & nv & nd & nr & Et & Eg & (Ht & _) & _).
  destruct (ensure_authors_spec _ _ _ Et) as (na & Hna & Hrows & _).
  destruct (game_row_references _ _ _ Eg)
    as (Ha & _ & He & Hr & H1 & H2 & H3 & _).
  assert (Tau : game_authors db' = t) by (apply (Ht GameAuthor)).
  assert (Te : game_engines db' = game_engines db) by (apply (Ht GameEngine)).
  assert (Tr : content_ratings db' = content_ratings db) by (apply (Ht ContentRating)).
  assert (T1 : adult_themes db' = adult_themes db) by (apply (Ht AdultTheme)).
  assert (T2 : transformation_themes db' = transformation_themes db)
    by (apply (Ht TransformationTheme)).
  assert (T3 : multimedia_themes db' = multimedia_themes db)
    by (apply (Ht MultimediaTheme)).
  rewrite Tau, Te, Tr, T1, T2, T3.
  split; [eapply game_row_id; eauto|]. split; [exact Ha|].
  split; [exact Hrows|]. repeat split; assumption.
Qed.

Lemma X11_game_row_references_resolve_witness :
  exists db' row,
    pgame_to_db_game Sample.prior (Sample.record 5 "A Game") = Ok (db', row)
    /\ g_authors row = [7%Z]
    /\ exists e, In e (game_authors db') /\ e_id e = 7%Z /\ e_name e = "some_author".
Proof.
  eexists. eexists. split; [vm_compute; reflexivity|].
  match goal with
  | |- g_authors ?r = _ /\ (exists e, In e (game_authors ?d) /\ _) =>
      destruct (X11_game_row_references_resolve Sample.prior d
                  (Sample.record 5 "A Game") r
                  ltac:(vm_compute; reflexivity) eq_refl)
        as (_ & Ha & Hrows & _)
  end.
  split; [exact Ha|].
  apply (Hrows "some_author" 7%Z). now left.
Defined.

(** ** The fetched pages *)

Lemma zdict_get_set_same {V : Type} (k : Z) (v : V) (d : list (Z * V)) :
  zdict_get k (zdict_set k v d) = Some v.
Proof.
  induction d as [|[k' v'] d IH]; simpl.
  - now rewrite Z.eqb_refl.
  - destruct (Z.eqb k k') eqn:E; simpl; [now rewrite Z.eqb_refl | now rewrite E].
Qed.

Lemma zdict_get_set_other {V : Type} (k k' : Z) (v : V) (d : list (Z * V)) :
  k <> k' -> zdict_get k (zdict_set k' v d) = zdict_get k d.
Proof.
  intros Hne. induction d as [|[k2 v2] d IH]; simpl.
  - destruct (Z.eqb_spec k k'); congruence.
  - destruct (Z.eqb_spec k' k2) as [->|Hk2]; simpl.
    + destruct (Z.eqb_spec k k2); congruence.
    + destruct (Z.eqb_spec k k2); auto.
Qed.

Lemma zdict_get_in {V : Type} (k : Z) (v : V) (d : list (Z * V)) :
  NoDup (map fst d) -> In (k, v) d -> zdict_get k d = Some v.
Proof.
  induction d as [|[k' v'] d IH]; simpl; intros Hnd Hin; [contradiction|].
  inversion Hnd as [|? ? Hnotin Hnd']; subst.
  destruct Hin as [Heq|Hin].
  - inversion Heq; subst. now rewrite Z.eqb_refl.
  - destruct (Z.eqb_spec k k') as [->|_]; [|auto].
    exfalso. apply Hnotin. apply in_map_iff. now exists (k', v).
Qed.

Lemma zdict_get_key {V : Type} (k : Z) (d : list (Z * V)) :
  In k (map fst d) -> zdict_get k d <> None.
Proof.
  induction d as [|[k' v'] d IH]; simpl; [tauto|].
  intros [->|Hin]; [now rewrite Z.eqb_refl|].
  destruct (Z.eqb k k'); [discriminate|auto].
Qed.

(** [pages] files a page of kind [typ] for the game [game_id]. *)
Lemma collect_pages_spec (w : World) (done : list (Z * string * string)) :
  forall pages pages',
    collect_pages w done pages = Ok pages' ->
    (forall game_id typ url, In (game_id, typ, url) done ->
       exists data, zdict_get game_id pages' = Some data
                    /\ Py.dict_get typ data <> None)
    /\ (forall game_id typ data,
          zdict_get game_id pages = Some data -> Py.dict_get typ data <> None ->
          exists data', zdict_get game_id pages' = Some data'
                        /\ Py.dict_get typ data' <> None)
    /\ (forall game_id, In game_id (map fst pages') ->
          In game_id (map fst pages)
          \/ exists typ url, In (game_id, typ, url) done).
Proof.
  induction done as [|[[gid typ] url] rest IH]; simpl; intros pages pages' H.
  - inversion H; subst. split; [intros ? ? ? []|]. split; [eauto|auto].
  - destruct (page_response w url) as [html|]; simpl in H; [|discriminate].
    set (inner := match zdict_get gid pages with Some d => d | None => [] end) in *.
    destruct (IH _ _ H) as (Hdone & Hkeep & Hkeys).
    split; [|split].
    + intros g0 t0 u0 [Heq|Hin]; [|now apply (Hdone g0 t0 u0)].
      inversion Heq; subst. apply (Hkeep g0 t0 (Py.dict_set t0 html inner)).
      * apply zdict_get_set_same.
      * rewrite dict_get_set_same. discriminate.
    + intros g0 t0 data Hget Ht.
      destruct (Z.eq_dec g0 gid) as [->|Hne].
      * apply (Hkeep gid t0 (Py.dict_set typ html inner)).
        -- apply zdict_get_set_same.
        -- apply dict_get_set_keeps. unfold inner. now rewrite Hget.
      * apply (Hkeep g0 t0 data); [|exact Ht].
        now rewrite (zdict_get_set_other _ _ _ _ Hne).
    + intros g0 Hin. destruct (Hkeys g0 Hin) as [Hold|(t0 & u0 & Hd)].
      * destruct (Z.eq_dec g0 gid) as [->|Hne]; [right; eauto|].
        left. apply zdict_get_key in Hold.
        rewrite (zdict_get_set_other _ _ _ _ Hne) in Hold.
        destruct (zdict_get g0 pages) eqn:E; [|congruence].
        clear - E. induction pages as [|[k v] pages IHp]; simpl in *; [discriminate|].
        destruct (Z.eqb_spec g0 k); [now left | right; auto].
      * right. eauto.
Qed.

Lemma link_tasks_members (urls : list string) :
  forall tasks,
    link_tasks urls = Ok tasks ->
    (forall game_id typ u, In (game_id, typ, u) tasks ->
       exists url, In url urls /\ game_id_of url = Ok game_id
                   /\ In (game_id, "game", url) tasks
                   /\ In (game_id, "reviews", reviews_url game_id) tasks)
    /\ (forall url, In url urls ->
          exists game_id, game_id_of url = Ok game_id
                          /\ In (game_id, "game", url) tasks).
Proof.
  induction urls as [|url rest IH]; simpl; intros tasks H.
  - inversion H; subst. split; [intros ? ? ? []|intros ? []].
  - destruct (game_id_of url) as [gid|] eqn:E; simpl in H; [|discriminate].
    destruct (link_tasks rest) as [ts|]; simpl in H; [|discriminate].
    inversion H; subst. clear H. destruct (IH ts eq_refl) as [Hin Hurl].
    fold (reviews_url gid). split.
    + assert (Hhead : In url (url :: rest) /\ game_id_of url = Ok gid
                      /\ In (gid, "game", url)
                           ((gid, "game", url) :: (gid, "reviews", reviews_url gid) :: ts)
                      /\ In (gid, "reviews", reviews_url gid)
                           ((gid, "game", url) :: (gid, "reviews", reviews_url gid) :: ts)).
      { split; [now left|]. split; [exact E|]. split; [now left | right; now left]. }
      intros g0 t0 u0 [Heq|[Heq|Hts]].
      * inversion Heq; subst. exists u0. exact Hhead.
      * inversion Heq; subst. exists url. exact Hhead.
      * destruct (Hin g0 t0 u0 Hts) as (u & Hu & Hid & Hg & Hr).
        exists u. split; [now right|]. split; [exact Hid|].
        split; right; right; assumption.
    + intros u [<-|Hu].
      * exists gid. split; [exact E | now left].
      * destruct (Hurl u Hu) as (g0 & Hid & Hg). exists g0.
        split; [exact Hid | right; right; exact Hg].
Qed.

(** X12.  Whatever the order in which the fetches complete, the dict of
    the fetched pages has one entry for each game id read from the selected
    urls (two urls with the same id share an entry), and every entry holds
    both the game page and the reviews page, so the parse loop finds the
    two keys it reads. *)
Theorem X12_both_pages_of_every_game
  (w : World) (urls : list string) (tasks done : list (Z * string * string))
  (pages : list (Z * list (string * Soup.node))) :
  link_tasks urls = Ok tasks ->
  Permutation tasks done ->
  collect_pages w done [] = Ok pages ->
  NoDup (map fst pages)
  /\ (forall game_id,
        In game_id (map fst pages) <->
        exists url, In url urls /\ game_id_of url = Ok game_id)
  /\ (forall game_id data, In (game_id, data) pages ->
        Py.dict_get "game" data <> None /\ Py.dict_get "reviews" data <> None).
Proof.
  intros Htasks Hperm Hcollect.
  assert (Hnd : NoDup (map fst pages)).
  { eapply collect_pages_keys; [|exact Hcollect]. constructor. }
  destruct (collect_pages_spec _ _ _ _ Hcollect) as (Hdone & _ & Hkeys).
  destruct (link_tasks_members _ _ Htasks) as [Hin Hurl].
  split; [exact Hnd|]. split.
  - intros gid. split.
    + intros Hk. destruct (Hkeys gid Hk) as [[]|(typ & u & Hd)].
      apply (Permutation_in _ (Permutation_sym Hperm)) in Hd.
      destruct (Hin _ _ _ Hd) as (url & Hu & Hid & _). eauto.
    + intros (url & Hu & Hid).
      destruct (Hurl url Hu) as (g0 & Hid' & Hg).
      assert (g0 = gid) by congruence. subst g0.
      apply (Permutation_in _ Hperm) in Hg.
      destruct (Hdone _ _ _ Hg) as (data & Hget & _).
      clear - Hget. induction pages as [|[k v] pages IHp]; simpl in *; [discriminate|].
      destruct (Z.eqb_spec gid k); [now left | right; auto].
  - intros gid data Hdata.
    assert (Hk : In gid (map fst pages)) by (apply in_map_iff; now exists (gid, data)).
    destruct (Hkeys gid Hk) as [[]|(typ & u & Hd)].
    apply (Permutation_in _ (Permutation_sym Hperm)) in Hd.
    destruct (Hin _ _ _ Hd) as (url & _ & _ & Hg & Hr).
    apply (Permutation_in _ Hperm) in Hg. apply (Permutation_in _ Hperm) in Hr.
    destruct (Hdone _ _ _ Hg) as (d1 & Hget1 & Hp1).
    destruct (Hdone _ _ _ Hr) as (d2 & Hget2 & Hp2).
    rewrite (zdict_get_in _ _ _ Hnd Hdata) in Hget1, Hget2.
    inversion Hget1; inversion Hget2; subst. auto.
Qed.

Lemma X12_both_pages_of_every_game_witness :
  exists tasks pages,
    link_tasks Cases.same_id_urls = Ok tasks
    /\ collect_pages (Sample.world 200) (rev tasks) [] = Ok pages
    /\ map fst pages = [6%Z; 4%Z]
    /\ NoDup (map fst pages).
Proof.
  destruct (link_tasks Cases.same_id_urls) as [tasks|] eqn:Ht;
    [|vm_compute in Ht; discriminate].
  exists tasks.
  destruct (collect_pages (Sample.world 200) (rev tasks) []) as [pages|] eqn:Hc.
  - exists pages. split; [reflexivity|]. split; [reflexivity|].
    destruct (X12_both_pages_of_every_game (Sample.world 200) Cases.same_id_urls
                tasks (rev tasks) pages Ht (Permutation_rev tasks) Hc) as (Hnd & _).
    split; [|exact Hnd].
    vm_compute in Ht. inversion Ht; subst tasks.
    vm_compute in Hc. inversion Hc. reflexivity.
  - exfalso. vm_compute in Ht. inversion Ht; subst tasks.
    vm_compute in Hc. discriminate.
Defined.

(** ** The results table *)




(** ** An empty listing *)

(** X14.  When the search answers with status 200 and its table lists no
    game, the cycle completes: no page is fetched, no game is written, and
    the session that is committed holds the taxonomy rows only, so the
    catalog of the cycle before is replaced by a catalog without games. *)
Theorem X14_empty_listing_empties_the_catalog
  (arrow_get : string -> string -> option datetime)
  (urljoin : string -> option string -> string)
  (markup : Soup.node -> string)
  (w : World) (prior : Database) (html : Soup.node) :
  index_response w = Ok (200%Z, html) ->
  game_links_of urljoin html = Ok [] ->
  as_completed w [] = [] ->
  crawl_tfgs arrow_get urljoin markup w prior
  = ([prior; empty_db; fetch_all_categories w categories empty_db], None)
  /\ games (persisted (crawl_tfgs arrow_get urljoin markup w prior)) = [].
Proof.
  intros Hindex Hlinks Hdone.
  assert (Hrun : crawl_tfgs arrow_get urljoin markup w prior
                 = match (games <- crawl_games arrow_get urljoin markup w
                                     (fetch_all_categories w categories empty_db) ;;
                          write_games games (fetch_all_categories w categories empty_db))
                   with
                   | Ok db => ([prior; empty_db; db], None)
                   | Raise e => ([prior; empty_db], Some e)
                   end) by reflexivity.
  assert (Hgames : forall db, crawl_games arrow_get urljoin markup w db = Ok []).
  { intros db. unfold crawl_games. rewrite Hindex. cbn [bind negb Z.eqb Pos.eqb].
    rewrite Hlinks. cbn [bind]. unfold all_links. simpl (Py.sorted []).
    rewrite firstn_nil. cbn [link_tasks bind]. rewrite Hdone. reflexivity. }
  rewrite Hrun, Hgames. cbn [bind write_games]. split; [reflexivity|].
  unfold persisted. cbn [fst last]. apply fetch_all_categories_games.
Qed.

Lemma X14_empty_listing_empties_the_catalog_witness :
  snd (crawl_tfgs Arrow.get Sample.urljoin Sample.markup Cases.world_without_games
         Sample.prior) = None
  /\ games (persisted (crawl_tfgs Arrow.get Sample.urljoin Sample.markup
                         Cases.world_without_games Sample.prior)) = []
  /\ games Sample.prior <> [].
Proof.
  destruct (X14_empty_listing_empties_the_catalog Arrow.get Sample.urljoin
              Sample.markup Cases.world_without_games Sample.prior
              (Sample.index_page [])) as [Hrun Hgames];
    try reflexivity.
  split; [now rewrite Hrun|]. split; [exact Hgames|]. discriminate.
Defined.

(** ** The header line of a review *)

Lemma prefix_drop (p : string) :
  forall s, prefix p s = true -> s = (p ++ Py.drop (String.length p) s)%string.
Proof.
  induction p as [|a p IH]; intros s H; [reflexivity|].
  destruct s as [|b s]; simpl in H; [discriminate|].
  destruct (ascii_dec a b) as [->|]; [|discriminate].
  simpl. f_equal. now apply IH.
Qed.

Lemma contains_drop (sub : string) (n : nat) :
  forall s, Py.contains sub s = false -> Py.contains sub (Py.drop n s) = false.
Proof.
  induction n as [|n IH]; intros s H; [exact H|].
  destruct s as [|c s]; [exact H|].
  simpl. apply IH. simpl in H. apply orb_false_elim in H.
  destruct s; apply H.
Qed.

Lemma last_on_none (s : string) :
  forall pre best, Py.contains " on " s = false -> last_on pre s best = best.
Proof.
  induction s as [|c s IH]; intros pre best H; [reflexivity|].
  cbn [last_on]. cbn [Py.contains] in H. apply orb_false_elim in H.
  destruct H as [Hp Hc]. rewrite Hp, andb_false_r. now apply IH.
Qed.

Lemma last_on_sound (s : string) :
  forall pre best v d,
    last_on pre s best = Some (v, d) ->
    best = Some (v, d)
    \/ exists s1, v = (pre ++ s1)%string /\ v <> ""
                  /\ s = (s1 ++ " on " ++ d)%string.
Proof.
  induction s as [|c s IH]; intros pre best v d H; [now left|].
  cbn [last_on] in H. apply IH in H.
  destruct H as [H|(s1 & -> & Hne & ->)].
  - destruct (negb (String.eqb pre "") && prefix " on " (String c s)) eqn:E;
      [|now left].
    inversion H; subst. right. exists "". apply andb_prop in E. destruct E as [Hpre Hp].
    rewrite append_empty_r. split; [reflexivity|]. split.
    + intros ->. discriminate.
    + apply (prefix_drop " on "). exact Hp.
  - right. exists (String c s1). rewrite append_assoc in *. simpl in *. auto.
Qed.

Lemma last_on_greedy (s : string) :
  forall pre best v d,
    pre <> "" ->
    Py.contains " on " s = true ->
    last_on pre s best = Some (v, d) ->
    Py.contains " on " d = false.
Proof.
  induction s as [|c s IH]; intros pre best v d Hpre Hc H; [discriminate|].
  cbn [last_on] in H.
  destruct (Py.contains " on " s) eqn:Es.
  - eapply IH; [|reflexivity|exact H]. destruct pre; discriminate.
  - rewrite last_on_none in H by exact Es.
    cbn [Py.contains] in Hc. rewrite Es, orb_false_r in Hc. rewrite Hc in H.
    destruct pre as [|a pre]; [congruence|]. cbn -[Py.drop] in H.
    injection H as _ Hd. rewrite <- Hd.
    exact (contains_drop " on " 3 s Es).
Qed.

Lemma match_version_line_sound (line version date : string) :
  match_version_line line = Some (version, date) ->
  line = ("Version reviewed: " ++ version ++ " on " ++ date)%string
  /\ version <> "".
Proof.
  unfold match_version_line.
  destruct (prefix "Version reviewed: " line) eqn:Ep; [|discriminate].
  intros H. apply prefix_drop in Ep. simpl String.length in Ep.
  destruct (last_on_sound _ _ _ _ _ H) as [Hbest|(s1 & Hv & Hne & Hs)];
    [discriminate|].
  simpl in Hv. subst s1. split; [now rewrite Ep at 1; rewrite Hs | exact Hne].
Qed.

(** X15.  A line matches the header pattern only if it reads
    [Version reviewed: ], a version, [ on ] and a date, with a version
    that is not empty; the match is greedy: the date it returns contains no
    further [ on ], so a version that itself contains these words is kept
    whole. *)
Theorem X15_version_line_is_split_at_the_last_on (line version date : string) :
  match_version_line line = Some (version, date) ->
  line = ("Version reviewed: " ++ version ++ " on " ++ date)%string
  /\ version <> ""
  /\ Py.contains " on " date = false.
Proof.
  intros H. destruct (match_version_line_sound _ _ _ H) as [Hline Hne].
  split; [exact Hline|]. split; [exact Hne|].
  unfold match_version_line in H.
  destruct (prefix "Version reviewed: " line); [|discriminate].
  destruct (Py.drop 18 line) as [|c r]; [discriminate|].
  cbn [last_on] in H. simpl in H.
  destruct (Py.contains " on " r) eqn:Er.
  - eapply (last_on_greedy r (String c "")); [discriminate|exact Er|exact H].
  - rewrite last_on_none in H by exact Er. discriminate.
Qed.

Lemma X15_version_line_is_split_at_the_last_on_witness :
  match_version_line "Version reviewed: build on on 2019-06-01 10:00:00"
  = Some ("build on", "2019-06-01 10:00:00")
  /\ Py.contains " on " "2019-06-01 10:00:00" = false.
Proof.
  split; [reflexivity|].
  apply (X15_version_line_is_split_at_the_last_on
           "Version reviewed: build on on 2019-06-01 10:00:00" "build on").
  reflexivity.
Defined.

(** ** The fields of a review *)

Lemma lstrip_review_by (name : string) :
  Py.lstrip "Review by" ("Review by " ++ name) = Py.lstrip "Review by" name.
Proof. reflexivity. Qed.

(** X16.  A review is kept only with a version and a text that are not
    empty; its number is the position of its block, its text the lines after
    the header joined by newlines.  The author is read by stripping the
    characters of [Review by], not the prefix: of a first line
    [Review by ] followed by a name, the leading letters of the name that
    occur in these words are lost as well, and the name is read whole
    when it is stripped and begins with none of them. *)
Theorem X16_fields_of_a_kept_review
  (arrow_get : string -> string -> option datetime)
  (i : nat) (text name line1 : string) (rest : list string) (r : PReview) :
  non_empty_lines text = ("Review by " ++ name)%string :: line1 :: rest ->
  review_block arrow_get i text = Ok (Some r) ->
  r_id r = i
  /\ r_author r = Py.strip (Py.lstrip "Review by" name)
  /\ (head_ok (fun c => Py.mem c "Review by") name ->
      Py.strip name = name -> r_author r = name)
  /\ r_version r <> ""
  /\ (exists date,
        line1 = ("Version reviewed: " ++ r_version r ++ " on " ++ date)%string
        /\ review_date arrow_get date = Ok (r_date r))
  /\ r_text r = Py.join (String (Py.chr 10) "") rest
  /\ r_text r <> "".
Proof.
  intros Hlines Hr. unfold review_block in Hr. rewrite Hlines in Hr.
  change (Py.index (("Review by " ++ name)%string :: line1 :: rest) 0)
    with (Ok (A := string) ("Review by " ++ name)%string) in Hr.
  cbn [bind] in Hr.
  change (Py.contains "Review by" ("Review by " ++ name)) with true in Hr.
  cbn [negb] in Hr.
  change (Py.index (("Review by " ++ name)%string :: line1 :: rest) 1)
    with (Ok (A := string) line1) in Hr.
  cbn [bind skipn] in Hr. rewrite lstrip_review_by in Hr.
  destruct (match_version_line line1) as [[version date]|] eqn:Em; [|discriminate].
  destruct (match_version_line_sound _ _ _ Em) as [Hline Hne].
  destruct (review_date arrow_get date) as [d|] eqn:Ed; [|discriminate].
  cbn [bind] in Hr.
  destruct (String.eqb (Py.join (String (Py.chr 10) "") rest) "") eqn:Et;
    [discriminate|].
  inversion Hr; subst r; clear Hr. cbn [r_id r_author r_version r_date r_text].
  split; [reflexivity|]. split; [reflexivity|]. split.
  - intros Hhead Hstrip. unfold Py.lstrip. rewrite (lstrip_by_id _ _ Hhead).
    exact Hstrip.
  - split; [exact Hne|]. split; [exists date; split; [exact Hline | exact Ed]|].
    split; [reflexivity|]. now apply String.eqb_neq.
Qed.

Lemma X16_fields_of_a_kept_review_witness :
  exists r,
    review_block Arrow.get 4
      ("Review by bob" ++ Sample.nl
       ++ "Version reviewed: 1.2 on 2019-06-01 10:00:00"
       ++ Sample.nl ++ "Great game")
    = Ok (Some r)
    /\ r_id r = 4 /\ r_author r = "ob" /\ r_version r <> "" /\ r_text r <> "".
Proof.
  destruct (review_block Arrow.get 4
              ("Review by bob" ++ Sample.nl
               ++ "Version reviewed: 1.2 on 2019-06-01 10:00:00"
               ++ Sample.nl ++ "Great game")) as [[r|]|] eqn:E;
    try (vm_compute in E; discriminate E).
  exists r. split; [reflexivity|].
  destruct (X16_fields_of_a_kept_review Arrow.get 4
              ("Review by bob" ++ Sample.nl
               ++ "Version reviewed: 1.2 on 2019-06-01 10:00:00"
               ++ Sample.nl ++ "Great game") "bob"
              "Version reviewed: 1.2 on 2019-06-01 10:00:00" ["Great game"] r
              eq_refl E) as (Hid & Hauthor & _ & Hv & _ & _ & Ht).
  split; [exact Hid|]. split; [exact Hauthor|]. split; [exact Hv | exact Ht].
Defined.

(** ** A listing at or under the cap *)

Lemma split_aux_without_sep (sep : string) (s : string) :
  forall cur,
    Py.contains sep s = false ->
    Py.split_aux sep s 0 cur = [(cur ++ s)%string].
Proof.
  induction s as [|c s IH]; intros cur H.
  - simpl. now rewrite append_empty_r.
  - cbn [Py.contains] in H. apply orb_false_elim in H. destruct H as [Hp Hc].
    cbn [Py.split_aux]. rewrite Hp, (IH _ Hc), append_assoc. reflexivity.
Qed.

Lemma link_tasks_fails (urls : list string) (url : string) :
  In url urls -> is_ok (game_id_of url) = false -> is_ok (link_tasks urls) = false.
Proof.
  induction urls as [|u rest IH]; intros Hin Hbad; [destruct Hin|].
  cbn [link_tasks]. destruct Hin as [->|Hin].
  - destruct (game_id_of url); [discriminate | reflexivity].
  - destruct (game_id_of u); [|reflexivity]. cbn [bind].
    specialize (IH Hin Hbad). destruct (link_tasks rest); [discriminate | reflexivity].
Qed.

(** X17.  When the listing has at most 100 links the cap leaves none out:
    the fetch list holds the two tasks of every discovered link, in
    ascending order of the urls.  The ids are read before anything is
    fetched, so one link whose id cannot be read makes the whole stage
    raise; a link without [id=] raises IndexError. *)
Theorem X17_listing_under_the_cap (game_links : list string) :
  length game_links <= CAP ->
  (forall tasks,
     all_links game_links = Ok tasks ->
     map task_url (filter is_game_task tasks) = Py.sorted game_links
     /\ Permutation game_links (map task_url (filter is_game_task tasks))
     /\ length tasks = 2 * length game_links)
  /\ (forall url,
        In url game_links -> is_ok (game_id_of url) = false ->
        is_ok (all_links game_links) = false)
  /\ (forall url,
        In url game_links -> Py.contains "id=" url = false ->
        game_id_of url = Raise IndexError).
Proof.
  intros Hlen.
  assert (Hall : firstn CAP (Py.sorted game_links) = Py.sorted game_links).
  { apply firstn_all2.
    rewrite <- (Permutation_length (sorted_perm game_links)). exact Hlen. }
  unfold all_links. rewrite Hall. split; [|split].
  - intros tasks H. destruct (link_tasks_urls _ _ H) as (Hu & Hl & _).
    rewrite Hu. split; [reflexivity|]. split; [apply sorted_perm|].
    rewrite Hl, <- (Permutation_length (sorted_perm game_links)). reflexivity.
  - intros url Hin Hbad. apply (link_tasks_fails _ url); [|exact Hbad].
    apply (Permutation_in url (sorted_perm game_links) Hin).
  - intros url _ Hc. unfold game_id_of, Py.split.
    rewrite (split_aux_without_sep _ _ "" Hc). reflexivity.
Qed.

Lemma X17_listing_under_the_cap_witness :
  is_ok (all_links ["?module=viewgame&id=7"; "?module=viewgame"]) = false
  /\ game_id_of "?module=viewgame" = Raise IndexError.
Proof.
  assert (Hlen : length ["?module=viewgame&id=7"; "?module=viewgame"] <= CAP).
  { unfold CAP. simpl. lia. }
  destruct (X17_listing_under_the_cap _ Hlen) as (_ & Hfail & Hindex).
  split.
  - apply (Hfail "?module=viewgame"); [right; now left | reflexivity].
  - apply Hindex; [right; now left | reflexivity].
Defined.
